(** * Landing Page Performance Report: the report client and the PSI proxy

    A shallow embedding of [src/app.js] (the client with the demo/live
    switch), of its live-only variant and of
    [src/netlify/functions/psi.js] (the proxy function), with the
    properties the specification states about them.

    JavaScript data is kept as the language has it: a string is a sequence
    of UTF-16 code units, a Number is an IEEE 754 binary64 value (Rocq's
    primitive [float]), a JSON document is a tree of values, and a
    [throw] is the [Throw] branch of a result type.  What the platform
    supplies and the repository does not contain (the WHATWG URL parser,
    [encodeURIComponent], the digits of a non-integral Number) is a
    member of the [Platform] class. *)

From Stdlib Require Import Floats ZArith NArith List Bool Lia String Ascii.
From Stdlib Require QArith Qround.
Import ListNotations.

Set Warnings "-inexact-float,-register-all".
(* ================================================================== *)
(** * The JavaScript data the programs work on *)
(* ================================================================== *)

Module JS.

(** ** Strings: sequences of UTF-16 code units *)

Definition char16 := N.
Definition jsstring := list char16.

(** An ASCII literal of the source, code unit by code unit. *)
Definition lit (s : string) : jsstring :=
  map N_of_ascii (list_ascii_of_string s).

Definition str_eqb (a b : jsstring) : bool :=
  if list_eq_dec N.eq_dec a b then true else false.

(** The literals of the source that are not ASCII. *)
Definition EM_DASH : jsstring := [8212%N].            (* U+2014 *)
Definition CROSS_MARK : jsstring := [10060%N].        (* U+274C *)
Definition CHECK_MARK : jsstring := [9989%N].         (* U+2705 *)
Definition ELLIPSIS : jsstring := [8230%N].           (* U+2026 *)

(** WhiteSpace and LineTerminator of ECMAScript: what [trim] removes and
    what [\s] matches. *)
Definition isWhiteSpace (c : char16) : bool :=
  existsb (N.eqb c)
    [9; 10; 11; 12; 13; 32; 160; 5760; 8232; 8233; 8239; 8287; 12288; 65279]%N
  || ((8192 <=? c) && (c <=? 8202))%N.

Fixpoint trimStart (s : jsstring) : jsstring :=
  match s with
  | c :: rest => if isWhiteSpace c then trimStart rest else s
  | [] => []
  end.

Definition trimEnd (s : jsstring) : jsstring := rev (trimStart (rev s)).

(** [String.prototype.trim] *)
Definition trim (s : jsstring) : jsstring := trimEnd (trimStart s).

(** [String.prototype.startsWith] *)
Fixpoint startsWith (s p : jsstring) {struct p} : bool :=
  match p with
  | [] => true
  | a :: p' =>
      match s with
      | b :: s' => N.eqb a b && startsWith s' p'
      | [] => false
      end
  end.

(** [s.slice(0, n)] *)
Definition slice0 (n : nat) (s : jsstring) : jsstring := firstn n s.

(** [s.replace(re, repl)] for a global regular expression [re] that never
    matches the empty string: [matchAt t] is the length of the match of
    [re] at the head of [t], if there is one.  The scan goes left to
    right; a match is replaced and the scan resumes behind it.  [skip]
    counts the code units of the current match still to pass. *)
Fixpoint replaceAll (matchAt : jsstring -> option nat) (repl : jsstring)
         (skip : nat) (s : jsstring) : jsstring :=
  match s with
  | [] => []
  | c :: rest =>
      match skip with
      | S k => replaceAll matchAt repl k rest
      | O =>
          match matchAt s with
          | Some (S l) => repl ++ replaceAll matchAt repl l rest
          | _ => c :: replaceAll matchAt repl O rest
          end
      end
  end.

Definition LT : char16 := 60%N.  (* < *)
Definition GT : char16 := 62%N.  (* > *)
Definition SPACE : char16 := 32%N.

(** Index of the first [>] of [s]. *)
Fixpoint indexOfGT (s : jsstring) : option nat :=
  match s with
  | [] => None
  | c :: rest => if N.eqb c GT then Some O else option_map S (indexOfGT rest)
  end.

(** The regular expression [<[^>]*>] at the head of [s]: a [<], then
    everything up to the first [>]. *)
Definition match_tag (s : jsstring) : option nat :=
  match s with
  | c :: rest =>
      if N.eqb c LT then option_map (fun i => S (S i)) (indexOfGT rest) else None
  | [] => None
  end.

Fixpoint spanWhiteSpace (s : jsstring) : nat :=
  match s with
  | c :: rest => if isWhiteSpace c then S (spanWhiteSpace rest) else O
  | [] => O
  end.

(** The regular expression [\s+] at the head of [s]: the longest run of
    white space, when there is one. *)
Definition match_ws (s : jsstring) : option nat :=
  match spanWhiteSpace s with
  | O => None
  | n => Some n
  end.

(** Decimal digits of a natural number. *)
Fixpoint uint_codes (d : Decimal.uint) : jsstring :=
  match d with
  | Decimal.Nil => []
  | Decimal.D0 d' => 48%N :: uint_codes d'
  | Decimal.D1 d' => 49%N :: uint_codes d'
  | Decimal.D2 d' => 50%N :: uint_codes d'
  | Decimal.D3 d' => 51%N :: uint_codes d'
  | Decimal.D4 d' => 52%N :: uint_codes d'
  | Decimal.D5 d' => 53%N :: uint_codes d'
  | Decimal.D6 d' => 54%N :: uint_codes d'
  | Decimal.D7 d' => 55%N :: uint_codes d'
  | Decimal.D8 d' => 56%N :: uint_codes d'
  | Decimal.D9 d' => 57%N :: uint_codes d'
  end.

Definition decimal (n : N) : jsstring := uint_codes (N.to_uint n).

(** ** Errors and results *)

Record Error := mkError { message : jsstring }.

Inductive Result (A : Type) : Type :=
| Ok (a : A)
| Throw (e : Error).
Arguments Ok {A} a.
Arguments Throw {A} e.

Definition bind {A B} (r : Result A) (k : A -> Result B) : Result B :=
  match r with
  | Ok a => k a
  | Throw e => Throw e
  end.

(** ** What the platform supplies

    [URL_new s] is [new URL(s)]: a URL record, or the [TypeError] the
    constructor throws; [URL_toString u] is [u.toString()], the
    serialisation of the record.  [encodeURIComponent] throws only on a
    lone surrogate, which neither a serialised URL nor a value read from
    [URLSearchParams] contains, so it is a total function here.
    [Number_digits] is Number::toString on the Numbers that are not
    integers of magnitude at most 2^53 (the shortest digits that read
    back as the same Number).  The last three are the errors of the
    platform that these programs can meet, whose messages differ from
    one engine to the next: [NotPrimitive] is the [TypeError] of
    ToString on an object that has no primitive value;
    [Response_RangeError status] is the [RangeError] of [new Response]
    for a status outside 200..599, and [Response_TypeError status] its
    [TypeError] for a body given with a null body status. *)
Class Platform : Type := {
  URL : Type;
  URL_new : jsstring -> Result URL;
  URL_toString : URL -> jsstring;
  encodeURIComponent : jsstring -> jsstring;
  Number_digits : float -> jsstring;
  NotPrimitive : Error;
  Response_RangeError : N -> Error;
  Response_TypeError : N -> Error
}.

(** ** Numbers: IEEE 754 binary64 *)

Open Scope float_scope.

(** The Number of a natural number below 2^53, which is exact. *)
Definition Number_of_N (n : N) : float := of_uint63 (Uint63.of_Z (Z.of_N n)).

(** [Math.round]: the integer closest to [x], the larger one on a tie;
    [x] itself when it is integral or not finite; a zero of the sign of
    [x] when the result is zero.  A finite [x] is [m * 2^e], negated
    when [s] is set. *)
Definition Math_round (x : float) : float :=
  match Prim2SF x with
  | S754_finite s m e =>
      if (0 <=? e)%Z then x
      else
        let d := (2 ^ (- e))%Z in
        let n := ((2 * (if s then Z.neg m else Z.pos m) + d) / (2 * d))%Z in
        match n with
        | Z0 => if s then PrimFloat.neg_zero else PrimFloat.zero
        | Zpos p => Number_of_N (Npos p)
        | Zneg p => - Number_of_N (Npos p)
        end
  | _ => x
  end.

(** [Math.min] and [Math.max]: NaN when an argument is NaN, and -0 is
    below +0. *)
Definition is_neg_zero (x : float) : bool :=
  match Prim2SF x with
  | S754_zero true => true
  | _ => false
  end.

Definition Math_min (a b : float) : float :=
  if is_nan a || is_nan b then PrimFloat.nan
  else if a <? b then a
  else if b <? a then b
  else if is_neg_zero a then a else b.

Definition Math_max (a b : float) : float :=
  if is_nan a || is_nan b then PrimFloat.nan
  else if a <? b then b
  else if b <? a then a
  else if is_neg_zero a then b else a.

(** The value of [m * 2^e] when it is an integer of at most 2^53. *)
Definition integral (m : positive) (e : Z) : option N :=
  if (0 <=? e)%Z then
    if (Zpos m * 2 ^ e <=? 2 ^ 53)%Z then Some (Z.to_N (Zpos m * 2 ^ e)) else None
  else
    if (Zpos m mod 2 ^ (- e) =? 0)%Z then Some (Z.to_N (Zpos m / 2 ^ (- e))) else None.

Definition sign_prefix (s : bool) : jsstring := if s then lit "-" else [].

(** Number::toString, radix 10. *)
Definition Number_toString `{Platform} (x : float) : jsstring :=
  match Prim2SF x with
  | S754_nan => lit "NaN"
  | S754_zero _ => lit "0"
  | S754_infinity s => sign_prefix s ++ lit "Infinity"
  | S754_finite s m e =>
      match integral m e with
      | Some n => sign_prefix s ++ decimal n
      | None => Number_digits x
      end
  end.

(** [x.toFixed(1)]: with [n] the integer for which [n / 10] is closest to
    the magnitude of [x] (the larger one on a tie), the digits of [n]
    with a point before the last one. *)
Definition toFixed1 `{Platform} (x : float) : jsstring :=
  match Prim2SF x with
  | S754_zero _ => lit "0.0"
  | S754_finite s m e =>
      if 1e21 <=? abs x then Number_toString x
      else
        let n := if (0 <=? e)%Z then (10 * Zpos m * 2 ^ e)%Z
                 else ((20 * Zpos m + 2 ^ (- e)) / 2 ^ (1 - e))%Z in
        sign_prefix s ++ decimal (Z.to_N (n / 10)) ++ lit "."
          ++ decimal (Z.to_N (n mod 10))
  | _ => Number_toString x
  end.

(** ** Values *)

Inductive value : Type :=
| VUndefined
| VNull
| VBool (b : bool)
| VNum (x : float)
| VStr (s : jsstring)
| VArr (elems : list value)
| VObj (props : list (jsstring * value)).

(** ToBoolean *)
Definition truthy (v : value) : bool :=
  match v with
  | VUndefined | VNull => false
  | VBool b => b
  | VNum x => negb (is_nan x || is_zero x)
  | VStr s => match s with [] => false | _ => true end
  | VArr _ | VObj _ => true
  end.

(** [typeof v === "number"] *)
Definition is_number (v : value) : bool :=
  match v with
  | VNum _ => true
  | _ => false
  end.

Fixpoint lookup (k : jsstring) (props : list (jsstring * value)) : option value :=
  match props with
  | [] => None
  | (k', v) :: rest => if str_eqb k k' then Some v else lookup k rest
  end.

(** The property [k] of a value that is neither [null] nor [undefined],
    for the property names these programs read: none of them is an index,
    [length], or a member of a built-in prototype, so only an object has
    them, as an own property.  An object holds each key once. *)
Definition getOwn (o : value) (k : jsstring) : value :=
  match o with
  | VObj props => match lookup k props with Some v => v | None => VUndefined end
  | _ => VUndefined
  end.

Definition nullish (v : value) : bool :=
  match v with
  | VUndefined | VNull => true
  | _ => false
  end.

(** [o.k] and [o[k]]: a TypeError on [null] and [undefined]. *)
Definition member (o : value) (k : jsstring) : Result value :=
  if nullish o
  then Throw (mkError (lit "Cannot read properties of null or undefined"))
  else Ok (getOwn o k).

(** [o?.k] *)
Definition optMember (o : value) (k : jsstring) : value :=
  if nullish o then VUndefined else getOwn o k.

(** [a || b] *)
Definition or_else (a b : value) : value := if truthy a then a else b.

(** ToString of a value that came out of [JSON.parse] or of an object
    literal.  An array is joined with commas ([Array.prototype.join],
    where [null] and [undefined] give the empty string).  An object goes
    through OrdinaryToPrimitive: with an own property [toString], which
    is never callable here, the inherited [valueOf] (or an own one)
    gives no primitive either and the conversion throws a [TypeError];
    without one, [Object.prototype.toString] answers. *)
Fixpoint ToString `{Platform} (v : value) : Result jsstring :=
  match v with
  | VUndefined => Ok (lit "undefined")
  | VNull => Ok (lit "null")
  | VBool b => Ok (if b then lit "true" else lit "false")
  | VNum x => Ok (Number_toString x)
  | VStr s => Ok s
  | VArr elems =>
      (fix join (l : list value) : Result jsstring :=
         match l with
         | [] => Ok []
         | a :: l' =>
             bind (if nullish a then Ok [] else ToString a) (fun s =>
             match l' with
             | [] => Ok s
             | _ => bind (join l') (fun r => Ok (s ++ lit "," ++ r))
             end)
         end) elems
  | VObj props =>
      match lookup (lit "toString") props with
      | Some _ => Throw NotPrimitive
      | None => Ok (lit "[object Object]")
      end
  end.

End JS.

Import JS.
Open Scope float_scope.

(* ================================================================== *)
(** * The functions both clients share

    [src/app.js] and the live-only client define [normalizeUrl],
    [toPercent], [formatCwvMetric], [getTopOpportunities], [setStatus]
    and [setLoading] with the same text. *)
(* ================================================================== *)

Module Report.

Section Functions.
Context `{Platform}.

(** [normalizeUrl(raw)]; [None] is the [null] of the source. *)
Definition normalizeUrl (raw : jsstring) : option jsstring :=
  let trimmed := trim raw in
  match trimmed with
  | [] => None
  | _ =>
      let withScheme :=
        if startsWith trimmed (lit "http://") || startsWith trimmed (lit "https://")
        then trimmed
        else lit "https://" ++ trimmed in
      match URL_new withScheme with
      | Ok u => Some (URL_toString u)
      | Throw _ => None
      end
  end.

(** [toPercent(score01)] *)
Definition toPercent (score01 : value) : jsstring :=
  match score01 with
  | VNum x => Number_toString (Math_round (x * 100))
  | _ => EM_DASH
  end.

(** [formatCwvMetric(metricObj, unit)]; every call passes the unit. *)
Definition formatCwvMetric (metricObj : value) (unit : jsstring) : Result jsstring :=
  if negb (truthy metricObj) then Ok EM_DASH
  else
    bind (member metricObj (lit "percentile")) (fun percentile =>
    match percentile with
    | VNum p =>
        if str_eqb unit (lit "ms") then Ok (Number_toString p ++ lit " ms")
        else if str_eqb unit (lit "s") then Ok (toFixed1 (p / 1000) ++ lit " s")
        else Ok (Number_toString p)
    | _ => Ok EM_DASH
    end).

Definition keys : list jsstring :=
  [ lit "largest-contentful-paint";
    lit "render-blocking-resources";
    lit "unused-javascript";
    lit "unused-css-rules";
    lit "uses-responsive-images";
    lit "offscreen-images";
    lit "uses-text-compression" ].

Definition FALLBACK : jsstring :=
  lit "No major opportunities detected (or audit data was limited).".

(** The callback of [keys.forEach]: the items after key [k]. *)
Definition visit (audits : value) (k : jsstring) (items : list value)
  : Result (list value) :=
  bind (member audits k) (fun audit =>
  if negb (truthy audit) then Ok items
  else
    bind (member audit (lit "score")) (fun score =>
    if is_number score
       && match score with VNum x => 0.9 <=? x | _ => false end
    then Ok items
    else
      bind (member audit (lit "title")) (fun t =>
      let title := or_else t (VStr k) in
      Ok (items ++ [title])))).

Fixpoint forEach (ks : list jsstring) (audits : value) (items : list value)
  : Result (list value) :=
  match ks with
  | [] => Ok items
  | k :: ks' => bind (visit audits k items) (forEach ks' audits)
  end.

(** [getTopOpportunities(lighthouseResult)] *)
Definition getTopOpportunities (lighthouseResult : value) : Result (list value) :=
  let audits := or_else (optMember lighthouseResult (lit "audits")) (VObj []) in
  bind (forEach keys audits []) (fun items =>
  match items with
  | [] => Ok [VStr FALLBACK]
  | _ => Ok (firstn 5 items)
  end).

End Functions.

(** ** The page and what a handler does to it *)

Inductive Elem : Set :=
| form | urlInput | runBtn | statusEl | results
| perfScore | a11yScore | bpScore | seoScore
| lcpEl | inpEl | clsEl | cwvNote | oppsList.

(** One effect of a handler, in program order. *)
Inductive Event : Type :=
| PreventDefault                                (* e.preventDefault() *)
| SetTextContent (el : Elem) (s : jsstring)     (* el.textContent = s *)
| SetClassName (el : Elem) (s : jsstring)       (* el.className = s *)
| ClassListAdd (el : Elem) (tok : jsstring)     (* el.classList.add(tok) *)
| ClassListRemove (el : Elem) (tok : jsstring)  (* el.classList.remove(tok) *)
| ClearContent (el : Elem)                      (* el.innerHTML = "" *)
| AppendLi (el : Elem) (s : jsstring)           (* an li with textContent s appended *)
| SetDisabled (el : Elem) (b : bool)            (* el.disabled = b *)
| Delay (ms : N)                                (* the awaited setTimeout *)
| Fetch (url : jsstring).                       (* fetch(url) issued *)

(** [setStatus(msg, type)] *)
Definition setStatus (msg type : jsstring) : list Event :=
  [ SetTextContent statusEl msg;
    SetClassName statusEl (trim (lit "status " ++ type)) ].

(** [setLoading(isLoading)] *)
Definition setLoading (isLoading : bool) : list Event :=
  [ SetDisabled runBtn isLoading;
    SetTextContent runBtn (if isLoading then lit "Running..." else lit "Run Report") ].

(** What a response of the network answers to the calls the clients make. *)
Record Response := mkResponse {
  status : N;
  text : Result jsstring;   (* await res.text() *)
  json : Result value       (* await res.json() *)
}.

(** [res.ok] *)
Definition ok (res : Response) : bool :=
  ((200 <=? status res) && (status res <=? 299))%N.

Inductive FetchOutcome : Type :=
| Resolved (res : Response)
| Rejected (e : Error).

Definition Network := jsstring -> FetchOutcome.

(** A computation of a handler: its effects so far, and its value or the
    error thrown. *)
Definition Eff (A : Type) : Type := list Event * Result A.

Definition ret {A} (a : A) : Eff A := ([], Ok a).

Definition throw {A} (e : Error) : Eff A := ([], Throw e).

Definition emit (evs : list Event) : Eff unit := (evs, Ok tt).

Definition lift {A} (r : Result A) : Eff A := ([], r).

Definition bindE {A B} (m : Eff A) (k : A -> Eff B) : Eff B :=
  match snd m with
  | Ok a => (fst m ++ fst (k a), snd (k a))
  | Throw e => (fst m, Throw e)
  end.

(** [await fetch(url)] *)
Definition fetch (net : Network) (url : jsstring) : Eff Response :=
  ([Fetch url],
   match net url with
   | Resolved res => Ok res
   | Rejected e => Throw e
   end).

(** [try { body } catch (err) { handler } finally { fin }], for a handler
    and a finaliser that do not throw. *)
Definition try_catch_finally (body : Eff unit) (handler : Error -> list Event)
           (fin : list Event) : list Event :=
  fst body
    ++ match snd body with
       | Ok _ => []
       | Throw err => handler err
       end
    ++ fin.

(** The value assigned to [textContent], an attribute of type
    [DOMString?]: [null] and [undefined] give the empty text, every
    other value its ToString. *)
Definition textContent_value `{Platform} (t : value) : Result jsstring :=
  if nullish t then Ok [] else ToString t.

(** [opps.forEach((t) => { const li = document.createElement("li");
    li.textContent = t; oppsList.appendChild(li); })]: an item whose
    conversion throws ends the loop, with the items before it appended. *)
Fixpoint append_items `{Platform} (opps : list value) : Eff unit :=
  match opps with
  | [] => ret tt
  | t :: rest =>
      bindE (lift (textContent_value t)) (fun s =>
      bindE (emit [ AppendLi oppsList s ]) (fun _ =>
      append_items rest))
  end.

End Report.

Notation "x <- m ;; k" := (Report.bindE m (fun x => k))
  (at level 61, m at next level, right associativity).
Notation "m ;;; k" := (Report.bindE m (fun _ => k))
  (at level 61, right associativity).

(* ================================================================== *)
(** * [src/app.js]: the client with the demo/live switch *)
(* ================================================================== *)

Module App.
Import Report.

(** The mode switch.  The source fixes [MODE = "demo"] and
    [LIVE_ENDPOINT = ""]; the handler is kept for any setting. *)
Record Config := mkConfig {
  MODE : jsstring;
  LIVE_ENDPOINT : jsstring
}.

Definition source_config : Config := mkConfig (lit "demo") [].

(** [Math.min(20, url.length % 20)].  A length is an integer below 2^53,
    on which the arithmetic of Numbers is exact: it is done on [N]. *)
Definition seed (url : jsstring) : N := N.min 20 (N.of_nat (List.length url) mod 20).

Definition clamp01 (n : float) : float := Math_max 0 (Math_min 1 n).

Definition score01 (url : jsstring) (base : float) : float :=
  clamp01 (base + Number_of_N (seed url) / 100).

Definition audit (score : float) (title : string) : value :=
  VObj [ (lit "score", VNum score); (lit "title", VStr (lit title)) ].

Definition percentile (p : float) : value := VObj [ (lit "percentile", VNum p) ].

(** [getMockPsiResponse(url)] *)
Definition getMockPsiResponse (url : jsstring) : value :=
  let score b := VObj [ (lit "score", VNum (score01 url b)) ] in
  VObj
    [ (lit "lighthouseResult",
       VObj
         [ (lit "categories",
            VObj
              [ (lit "performance", score 0.72);
                (lit "accessibility", score 0.88);
                (lit "best-practices", score 0.86);
                (lit "seo", score 0.84) ]);
           (lit "audits",
            VObj
              [ (lit "largest-contentful-paint",
                 audit 0.55 "Improve Largest Contentful Paint");
                (lit "render-blocking-resources",
                 audit 0.65 "Eliminate render-blocking resources");
                (lit "unused-javascript", audit 0.7 "Reduce unused JavaScript");
                (lit "unused-css-rules", audit 0.75 "Reduce unused CSS");
                (lit "offscreen-images", audit 0.8 "Defer offscreen images");
                (lit "uses-text-compression", audit 0.85 "Enable text compression") ]) ]);
      (lit "loadingExperience",
       VObj
         [ (lit "metrics",
            VObj
              [ (lit "LARGEST_CONTENTFUL_PAINT_MS", percentile 2500);
                (lit "INTERACTION_TO_NEXT_PAINT", percentile 190);
                (lit "CUMULATIVE_LAYOUT_SHIFT_SCORE", percentile 8) ]) ]) ].

Section Handler.
Context `{Platform}.
Variable cfg : Config.

Definition demo : bool := str_eqb (MODE cfg) (lit "demo").

(** [lh?.categories?.[name]?.score] *)
Definition category_score (lh : value) (name : string) : value :=
  optMember (optMember (optMember lh (lit "categories")) (lit name)) (lit "score").

(** [m ? formatCwvMetric(m, unit) : "—"] *)
Definition cwv (m : value) (unit : string) : Eff jsstring :=
  if truthy m then lift (formatCwvMetric m (lit unit)) else ret EM_DASH.

(** The statements that render [data], the same for demo and live. *)
Definition render (data : value) : Eff unit :=
  let lh := optMember data (lit "lighthouseResult") in
  emit [ SetTextContent perfScore (toPercent (category_score lh "performance"));
         SetTextContent a11yScore (toPercent (category_score lh "accessibility"));
         SetTextContent bpScore (toPercent (category_score lh "best-practices"));
         SetTextContent seoScore (toPercent (category_score lh "seo")) ] ;;;
  let metrics := optMember (optMember data (lit "loadingExperience")) (lit "metrics") in
  let lcp := optMember metrics (lit "LARGEST_CONTENTFUL_PAINT_MS") in
  let inp := optMember metrics (lit "INTERACTION_TO_NEXT_PAINT") in
  let cls := optMember metrics (lit "CUMULATIVE_LAYOUT_SHIFT_SCORE") in
  lcpText <- cwv lcp "s" ;;
  emit [ SetTextContent lcpEl lcpText ] ;;;
  inpText <- cwv inp "ms" ;;
  emit [ SetTextContent inpEl inpText ] ;;;
  clsText <- cwv cls "raw" ;;
  emit [ SetTextContent clsEl clsText ] ;;;
  emit [ SetTextContent cwvNote
           (if negb (truthy metrics) then
              lit "Field (real-user) data was not available for this URL. Scores above are still useful as a lab audit."
            else if demo then
              lit "Demo mode: values shown are realistic mock data to preview the report layout."
            else
              lit "Field data availability depends on whether Chrome has enough real-user samples for this page/origin.") ] ;;;
  opps <- lift (getTopOpportunities lh) ;;
  emit [ ClearContent oppsList ] ;;;
  append_items opps ;;;
  emit [ ClassListRemove results (lit "hidden") ].

(** The [try] block. *)
Definition try_block (normalized : jsstring) (net : Network) : Eff unit :=
  data <-
    (if demo then
       emit [ Delay 800 ] ;;;
       emit (setStatus (CHECK_MARK ++ lit " Demo report complete (mock data).") (lit "good")) ;;;
       ret (getMockPsiResponse normalized)
     else
       match LIVE_ENDPOINT cfg with
       | [] => throw (mkError (lit "Live mode is not configured yet."))
       | _ =>
           emit (setStatus (lit "Running live mobile Lighthouse audit" ++ ELLIPSIS) []) ;;;
           res <- fetch net (LIVE_ENDPOINT cfg ++ lit "?url=" ++ encodeURIComponent normalized) ;;
           if negb (ok res) then
             errText <- lift (text res) ;;
             throw (mkError (match errText with
                             | [] => lit "Request failed: " ++ decimal (status res)
                             | _ => errText
                             end))
           else
             data <- lift (json res) ;;
             emit (setStatus (CHECK_MARK ++ lit " Live report complete.") (lit "good")) ;;;
             ret data
       end) ;;
  render data.

(** What the [catch] block shows: [raw.replace(/<[^>]*>/g, "")
    .replace(/\s+/g, " ").trim().slice(0, 220)]. *)
Definition sanitize (raw : jsstring) : jsstring :=
  slice0 220 (trim (replaceAll match_ws [SPACE] 0 (replaceAll match_tag [] 0 raw))).

Definition raw_message (err : Error) : jsstring :=
  match message err with
  | [] => lit "Something went wrong. Try again."
  | m => m
  end.

(** The [catch] block. *)
Definition catch_block (err : Error) : list Event :=
  let raw := raw_message err in
  let safe := sanitize raw in
  setStatus (CROSS_MARK ++ lit " " ++ safe) (lit "bad").

(** The submit listener: [input] is [urlInput.value], [net] the network. *)
Definition submit (input : jsstring) (net : Network) : list Event :=
  [ PreventDefault; ClassListAdd results (lit "hidden"); ClearContent oppsList ]
  ++ match normalizeUrl input with
     | None | Some [] =>
         setStatus (CROSS_MARK ++ lit " Please enter a valid URL (example: https://example.com).")
                   (lit "bad")
     | Some normalized =>
         setLoading true
         ++ setStatus (lit "Running mobile Lighthouse audit" ++ ELLIPSIS) []
         ++ try_catch_finally (try_block normalized net) catch_block (setLoading false)
     end.

End Handler.
End App.

(* ================================================================== *)
(** * The live-only client (the second client of the repository) *)
(* ================================================================== *)

Module LiveOnly.
Import Report.

Section Handler.
Context `{Platform}.

Definition category_score (lh : value) (name : string) : value :=
  optMember (optMember (optMember lh (lit "categories")) (lit name)) (lit "score").

(** [inp ? formatCwvMetric(inp, "ms") : (fid ? formatCwvMetric(fid, "ms") : "—")] *)
Definition inp_or_fid (inp fid : value) : Eff jsstring :=
  if truthy inp then lift (formatCwvMetric inp (lit "ms"))
  else if truthy fid then lift (formatCwvMetric fid (lit "ms"))
  else ret EM_DASH.

(** [m ? formatCwvMetric(m, unit) : "—"] *)
Definition cwv (m : value) (unit : string) : Eff jsstring :=
  if truthy m then lift (formatCwvMetric m (lit unit)) else ret EM_DASH.

Definition render (data : value) : Eff unit :=
  let lh := optMember data (lit "lighthouseResult") in
  emit [ SetTextContent perfScore (toPercent (category_score lh "performance"));
         SetTextContent a11yScore (toPercent (category_score lh "accessibility"));
         SetTextContent bpScore (toPercent (category_score lh "best-practices"));
         SetTextContent seoScore (toPercent (category_score lh "seo")) ] ;;;
  let metrics := optMember (optMember data (lit "loadingExperience")) (lit "metrics") in
  let lcp := optMember metrics (lit "LARGEST_CONTENTFUL_PAINT_MS") in
  let inp := optMember metrics (lit "INTERACTION_TO_NEXT_PAINT") in
  let cls := optMember metrics (lit "CUMULATIVE_LAYOUT_SHIFT_SCORE") in
  let fid := optMember metrics (lit "FIRST_INPUT_DELAY_MS") in
  lcpText <- cwv lcp "s" ;;
  emit [ SetTextContent lcpEl lcpText ] ;;;
  inpText <- inp_or_fid inp fid ;;
  emit [ SetTextContent inpEl inpText ] ;;;
  clsText <- cwv cls "raw" ;;
  emit [ SetTextContent clsEl clsText ] ;;;
  emit [ SetTextContent cwvNote
           (if negb (truthy metrics) then
              lit "Field (real-user) data was not available for this URL. Scores above are still useful as a lab audit."
            else
              lit "Field data availability depends on whether Chrome has enough real-user samples for this page/origin.") ] ;;;
  opps <- lift (getTopOpportunities lh) ;;
  append_items opps ;;;
  emit [ ClassListRemove results (lit "hidden") ] ;;;
  emit (setStatus (CHECK_MARK ++ lit " Report complete.") (lit "good")).

Definition try_block (normalized : jsstring) (net : Network) : Eff unit :=
  res <- fetch net (lit "/.netlify/functions/psi?url=" ++ encodeURIComponent normalized) ;;
  if negb (ok res) then
    errText <- lift (text res) ;;
    throw (mkError (match errText with
                    | [] => lit "Request failed: " ++ decimal (status res)
                    | _ => errText
                    end))
  else
    data <- lift (json res) ;;
    render data.

(** The [catch] block: the message as it is. *)
Definition catch_block (err : Error) : list Event :=
  setStatus (CROSS_MARK ++ lit " "
               ++ match message err with
                  | [] => lit "Something went wrong. Try again."
                  | m => m
                  end)
            (lit "bad").

Definition submit (input : jsstring) (net : Network) : list Event :=
  [ PreventDefault; ClassListAdd results (lit "hidden"); ClearContent oppsList ]
  ++ match normalizeUrl input with
     | None | Some [] =>
         setStatus (CROSS_MARK ++ lit " Please enter a valid URL (example: https://example.com).")
                   (lit "bad")
     | Some normalized =>
         setLoading true
         ++ setStatus (lit "Running mobile Lighthouse audit" ++ ELLIPSIS) []
         ++ try_catch_finally (try_block normalized net) catch_block (setLoading false)
     end.

End Handler.
End LiveOnly.

(* ================================================================== *)
(** * The page: what the effects of a handler leave behind *)
(* ================================================================== *)

Module Page.
Import Report.

Definition Elem_eq_dec (a b : Elem) : {a = b} + {a <> b}.
Proof. decide equality. Defined.

Record State := mkState {
  disabled : Elem -> bool;
  textContent : Elem -> jsstring;
  className : Elem -> jsstring;
  classList : Elem -> list jsstring;
  items : Elem -> list jsstring      (* the li children, by their text *)
}.

Definition upd {A} (f : Elem -> A) (el : Elem) (a : A) : Elem -> A :=
  fun x => if Elem_eq_dec x el then a else f x.

Definition remove_tok (tok : jsstring) (l : list jsstring) : list jsstring :=
  filter (fun t => negb (str_eqb t tok)) l.

(** The effect of one event on the page.  The handlers set [className]
    only on the status line and use [classList] only on the results
    block, so the two views of the class attribute are kept apart. *)
Definition apply (st : State) (ev : Event) : State :=
  match ev with
  | SetTextContent el s =>
      mkState (disabled st) (upd (textContent st) el s) (className st)
              (classList st) (upd (items st) el [])
  | SetClassName el s =>
      mkState (disabled st) (textContent st) (upd (className st) el s)
              (classList st) (items st)
  | ClassListAdd el tok =>
      mkState (disabled st) (textContent st) (className st)
              (upd (classList st) el
                   (if existsb (str_eqb tok) (classList st el)
                    then classList st el
                    else classList st el ++ [tok]))
              (items st)
  | ClassListRemove el tok =>
      mkState (disabled st) (textContent st) (className st)
              (upd (classList st) el (remove_tok tok (classList st el)))
              (items st)
  | ClearContent el =>
      mkState (disabled st) (upd (textContent st) el []) (className st)
              (classList st) (upd (items st) el [])
  | AppendLi el s =>
      mkState (disabled st) (textContent st) (className st)
              (classList st) (upd (items st) el (items st el ++ [s]))
  | SetDisabled el b =>
      mkState (upd (disabled st) el b) (textContent st) (className st)
              (classList st) (items st)
  | PreventDefault | Delay _ | Fetch _ => st
  end.

Definition run (st : State) (evs : list Event) : State := fold_left apply evs st.

End Page.

(* ================================================================== *)
(** * [src/netlify/functions/psi.js]: the PageSpeed Insights proxy *)
(* ================================================================== *)

Module Psi.

(** A request, by what [new URL(req.url)] makes of it: the name-value
    pairs of its query, in order ([url.searchParams]), or the error the
    constructor throws. *)
Record Request := mkRequest {
  req_url : Result (list (jsstring * jsstring))
}.

(** [searchParams.get(name)]: the value of the first pair of that name. *)
Fixpoint get (params : list (jsstring * jsstring)) (name : jsstring) : option jsstring :=
  match params with
  | [] => None
  | (n, v) :: rest => if str_eqb n name then Some v else get rest name
  end.

(** [process.env] *)
Record Env := mkEnv {
  PSI_API_KEY : option jsstring
}.

(** What the upstream answers. *)
Record UpstreamResponse := mkUpstream {
  status : N;
  json : Result value       (* await psiRes.json() *)
}.

(** [psiRes.ok] *)
Definition ok (res : UpstreamResponse) : bool :=
  ((200 <=? status res) && (status res <=? 299))%N.

Inductive FetchOutcome : Type :=
| Resolved (res : UpstreamResponse)
| Rejected (e : Error).

Definition Upstream := jsstring -> FetchOutcome.

(** [new Response(JSON.stringify(body), { status, headers })]; the body is
    kept as the value that is serialised. *)
Record HttpResponse := mkHttp {
  http_status : N;
  headers : list (jsstring * jsstring);
  body : value
}.

Definition content_type : jsstring * jsstring :=
  (lit "Content-Type", lit "application/json").

Definition cache_control : jsstring * jsstring :=
  (lit "Cache-Control", lit "public, max-age=300").

(** A computation of the handler: the endpoints fetched so far, and the
    value or the error thrown. *)
Definition Eff (A : Type) : Type := list jsstring * Result A.

Definition ret {A} (a : A) : Eff A := ([], Ok a).

Definition lift {A} (r : Result A) : Eff A := ([], r).

Definition bindE {A B} (m : Eff A) (k : A -> Eff B) : Eff B :=
  match snd m with
  | Ok a => (fst m ++ fst (k a), snd (k a))
  | Throw e => (fst m, Throw e)
  end.

(** [await fetch(endpoint)] *)
Definition fetch (net : Upstream) (endpoint : jsstring) : Eff UpstreamResponse :=
  ([endpoint],
   match net endpoint with
   | Resolved res => Ok res
   | Rejected e => Throw e
   end).

Section Handler.
Context `{Platform}.

(** The statuses that go without a body. *)
Definition null_body_status (status : N) : bool :=
  ((status =? 101) || (status =? 103) || (status =? 204) || (status =? 205)
   || (status =? 304))%N.

(** [new Response(JSON.stringify(body), { status, headers })]: a
    [RangeError] for a status outside 200..599, and, the body being
    there, a [TypeError] for a null body status. *)
Definition Response_new (status : N) (headers : list (jsstring * jsstring))
           (body : value) : Result HttpResponse :=
  if ((status <? 200) || (599 <? status))%N then Throw (Response_RangeError status)
  else if null_body_status status then Throw (Response_TypeError status)
  else Ok (mkHttp status headers body).

Definition strategy : jsstring := lit "mobile".

Definition endpoint (target apiKey : jsstring) : jsstring :=
  lit "https://www.googleapis.com/pagespeedonline/v5/runPagespeed"
    ++ lit "?url=" ++ encodeURIComponent target
    ++ lit "&strategy=" ++ strategy
    ++ lit "&key=" ++ apiKey.

(** The [try] block. *)
Definition try_block (req : Request) (env : Env) (net : Upstream) : Eff HttpResponse :=
  bindE (lift (req_url req)) (fun searchParams =>
  match get searchParams (lit "url") with
  | None | Some [] =>
      lift (Response_new 400 [content_type]
              (VObj [ (lit "ok", VBool false);
                      (lit "error", VStr (lit "Missing ?url=")) ]))
  | Some target =>
      match PSI_API_KEY env with
      | None | Some [] =>
          lift (Response_new 500 [content_type]
                  (VObj [ (lit "ok", VBool false);
                          (lit "error", VStr (lit "Server missing PSI_API_KEY env var")) ]))
      | Some apiKey =>
          bindE (fetch net (endpoint target apiKey)) (fun psiRes =>
          bindE (lift (json psiRes)) (fun data =>
          if negb (ok psiRes) then
            lift (Response_new (status psiRes) [content_type]
                    (VObj [ (lit "ok", VBool false);
                            (lit "error", VStr (lit "PSI request failed"));
                            (lit "details", data) ]))
          else
            lift (Response_new 200 [content_type; cache_control] data)))
      end
  end).

(** The [catch] block; its status 500 goes with a body. *)
Definition catch_block (err : Error) : HttpResponse :=
  mkHttp 500 [content_type]
    (VObj [ (lit "ok", VBool false); (lit "error", VStr (message err)) ]).

(** The exported handler: the endpoints it fetched and its response. *)
Definition handler (req : Request) (env : Env) (net : Upstream)
  : list jsstring * HttpResponse :=
  let r := try_block req env net in
  (fst r, match snd r with
          | Ok response => response
          | Throw err => catch_block err
          end).

End Handler.
End Psi.

(* ================================================================== *)
(** * A platform for the examples *)
(* ================================================================== *)

Module Sample.

(** [encodeURIComponent]: the UTF-8 bytes of every code point outside
    [A-Z a-z 0-9 - _ . ! ~ * ' ( )], each as [%XX]. *)
Definition unreserved (c : char16) : bool :=
  ((65 <=? c) && (c <=? 90) || (97 <=? c) && (c <=? 122) || (48 <=? c) && (c <=? 57)
   || existsb (N.eqb c) [45; 95; 46; 33; 126; 42; 39; 40; 41])%N.

Definition hex_digit (n : N) : char16 := (if n <? 10 then 48 + n else 55 + n)%N.

Definition percent (b : N) : jsstring :=
  [37%N; hex_digit (b / 16); hex_digit (b mod 16)].

Definition utf8 (cp : N) : list N :=
  (if cp <? 128 then [cp]
   else if cp <? 2048 then [192 + cp / 64; 128 + cp mod 64]
   else if cp <? 65536 then
     [224 + cp / 4096; 128 + (cp / 64) mod 64; 128 + cp mod 64]
   else
     [240 + cp / 262144; 128 + (cp / 4096) mod 64; 128 + (cp / 64) mod 64;
      128 + cp mod 64])%N.

Definition is_high (c : char16) : bool := ((55296 <=? c) && (c <=? 56319))%N.
Definition is_low (c : char16) : bool := ((56320 <=? c) && (c <=? 57343))%N.

Definition escape (cp : N) : jsstring := flat_map percent (utf8 cp).

(** A lone surrogate, on which the function of the platform throws, is
    written as U+FFFD here. *)
Fixpoint encode (s : jsstring) : jsstring :=
  match s with
  | [] => []
  | c :: rest =>
      if unreserved c then c :: encode rest
      else if is_high c then
        match rest with
        | d :: rest' =>
            if is_low d
            then escape (65536 + (c - 55296) * 1024 + (d - 56320))%N ++ encode rest'
            else escape 65533%N ++ encode rest
        | [] => escape 65533%N
        end
      else if is_low c then escape 65533%N ++ encode rest
      else escape c ++ encode rest
  end.

(** A small URL parser: [http://] or [https://], then a host of
    lower-case letters with single dots between its labels, then at most
    one slash.  It knows no other URL and rejects the rest; the record
    it makes is the serialisation, which ends in the slash. *)
Definition is_lower (c : char16) : bool := ((97 <=? c) && (c <=? 122))%N.

Fixpoint host_ok (after_letter : bool) (s : jsstring) : bool :=
  match s with
  | [] => after_letter
  | c :: rest =>
      if is_lower c then host_ok true rest
      else if N.eqb c 46 then after_letter && host_ok false rest
      else false
  end.

Definition SLASH : char16 := 47%N.

(** [rest] without its final slash. *)
Definition host_part (rest : jsstring) : jsstring :=
  match rev rest with
  | c :: r => if N.eqb c SLASH then rev r else rest
  | [] => rest
  end.

Definition parse_with (scheme s : jsstring) : option jsstring :=
  if startsWith s scheme then
    let h := host_part (skipn (List.length scheme) s) in
    if host_ok false h then Some (scheme ++ h ++ [SLASH]) else None
  else None.

Definition parse (s : jsstring) : Result jsstring :=
  match parse_with (lit "https://") s with
  | Some u => Ok u
  | None =>
      match parse_with (lit "http://") s with
      | Some u => Ok u
      | None => Throw (mkError (lit "Invalid URL"))
      end
  end.

(** Number::toString on a finite Number [m * 2^e] that is no small
    integer: the shortest decimal [d * 10^(n-k)] of [k] digits that
    rounds to the Number, the closest one when there are several, laid
    out plainly for [-6 < n <= 21] and with an exponent elsewhere.  The
    arithmetic is exact, on rationals. *)
#[local] Open Scope Z_scope.

Definition Q := QArith_base.Q.
Definition Qpow (b : Z) (t : Z) : Q :=
  if 0 <=? t then QArith_base.Qmake (b ^ t) 1
  else QArith_base.Qmake 1 (Z.to_pos (b ^ (- t))).
Definition Qle (a b : Q) : bool := QArith_base.Qle_bool a b.
Definition Qlt (a b : Q) : bool := negb (QArith_base.Qle_bool b a).
Definition Qhalf (a : Q) : Q := QArith_base.Qmult a (QArith_base.Qmake 1 2).
Definition Qabs_diff (a b : Q) : Q :=
  if Qle a b then QArith_base.Qminus b a else QArith_base.Qminus a b.

Definition value_of (m : positive) (e : Z) : Q :=
  QArith_base.Qmult (QArith_base.Qmake (Z.pos m) 1) (Qpow 2 e).

(** The reals that round to [m * 2^e]: those within half a step, the
    ends included when [m] is even. *)
Definition rounds_to (m : positive) (e : Z) (c : Q) : bool :=
  let v := value_of m e in
  let up := Qpow 2 e in
  let down := if Pos.eqb m 4503599627370496 && (-1074 <? e) then Qpow 2 (e - 1) else Qpow 2 e in
  let lo := QArith_base.Qminus v (Qhalf down) in
  let hi := QArith_base.Qplus v (Qhalf up) in
  if Z.even (Z.pos m) then Qle lo c && Qle c hi else Qlt lo c && Qlt c hi.

(** The [n] with [10^(n-1) <= v < 10^n], searched upwards. *)
Fixpoint decade (fuel : nat) (n : Z) (v : Q) : Z :=
  match fuel with
  | O => n
  | S f => if Qlt v (Qpow 10 n) then n else decade f (n + 1) v
  end.

(** The two decimals of [k] digits next to [v]. *)
Definition candidates (v : Q) (n10 k : Z) : list (Z * Z) :=
  let s0 := Qround.Qfloor (QArith_base.Qdiv v (Qpow 10 (n10 - k))) in
  [ (s0, n10); if s0 + 1 <? 10 ^ k then (s0 + 1, n10) else (10 ^ (k - 1), n10 + 1) ].

Definition cand_value (k : Z) (c : Z * Z) : Q :=
  QArith_base.Qmult (QArith_base.Qmake (fst c) 1) (Qpow 10 (snd c - k)).

Definition better (v : Q) (k : Z) (a b : Z * Z) : Z * Z :=
  let da := Qabs_diff (cand_value k a) v in
  let db := Qabs_diff (cand_value k b) v in
  if Qlt da db then a else if Qlt db da then b else if Z.even (fst a) then a else b.

(** The digits, the decimal exponent and the number of digits. *)
Fixpoint shortest (fuel : nat) (k : Z) (m : positive) (e : Z) (n10 : Z) : Z * Z * Z :=
  match fuel with
  | O => (0, 0, k)
  | S f =>
      let v := value_of m e in
      match filter (fun c => rounds_to m e (cand_value k c)) (candidates v n10 k) with
      | [] => shortest f (k + 1) m e n10
      | [c] => (fst c, snd c, k)
      | a :: b :: _ => let c := better v k a b in (fst c, snd c, k)
      end
  end.

Definition zeros (n : Z) : jsstring := repeat 48%N (Z.to_nat n).

Definition exponent (e : Z) : jsstring :=
  lit "e" ++ (if e <? 0 then lit "-" else lit "+") ++ decimal (Z.to_N (Z.abs e)).

Definition layout (s n k : Z) : jsstring :=
  let ds := decimal (Z.to_N s) in
  if (k <=? n) && (n <=? 21) then ds ++ zeros (n - k)
  else if (0 <? n) && (n <=? 21) then
    firstn (Z.to_nat n) ds ++ lit "." ++ skipn (Z.to_nat n) ds
  else if (-6 <? n) && (n <=? 0) then lit "0." ++ zeros (- n) ++ ds
  else if k =? 1 then ds ++ exponent (n - 1)
  else firstn 1 ds ++ lit "." ++ skipn 1 ds ++ exponent (n - 1).

(** The digits of [x], signed. *)
Definition digits (x : float) : jsstring :=
  match Prim2SF x with
  | S754_finite s m e =>
      let '(d, n, k) := shortest 17 1 m e (decade 640 (-323) (value_of m e)) in
      sign_prefix s ++ layout d n k
  | _ => []
  end.

#[local] Close Scope Z_scope.

(** The messages of the three errors, as one engine words them. *)
Definition platform : Platform := {|
  URL := jsstring;
  URL_new := parse;
  URL_toString := fun u => u;
  encodeURIComponent := encode;
  Number_digits := digits;
  NotPrimitive := mkError (lit "Cannot convert object to primitive value");
  Response_RangeError := fun status =>
    mkError (lit "The status provided (" ++ decimal status
               ++ lit ") is outside the range [200, 599].");
  Response_TypeError := fun _ =>
    mkError (lit "Response with null body status cannot have body")
|}.

End Sample.

(* ================================================================== *)
(** * The properties, as definitions *)
(* ================================================================== *)

Module Spec.
Import Report.

(** ** Opportunity extraction *)

(** [audit.score] is a number of at least 0.9. *)
Definition good (audit : value) : bool :=
  match optMember audit (lit "score") with
  | VNum x => 0.9 <=? x
  | _ => false
  end.

(** The entry of [k] is an own property of [audits]. *)
Definition present (audits : value) (k : jsstring) : bool :=
  match audits with
  | VObj props => match lookup k props with Some _ => true | None => false end
  | _ => false
  end.

(** The extraction in the words of the specification: every key, in the
    order of the list, whose entry is present gives the title of its
    audit unless the score of the audit is a number of at least 0.9; the
    first five; the fallback when there is none. *)
Definition claimed_opportunities (lighthouseResult : value) : list value :=
  let audits := optMember lighthouseResult (lit "audits") in
  let shown :=
    filter (fun k => present audits k && negb (good (getOwn audits k))) keys in
  match map (fun k => optMember (getOwn audits k) (lit "title")) shown with
  | [] => [VStr FALLBACK]
  | titles => firstn 5 titles
  end.

(** The extraction of the code: the entry has to be truthy, and the key
    stands in for a title that is missing or falsy. *)
Definition shown (audits : value) (k : jsstring) : bool :=
  truthy (getOwn audits k) && negb (good (getOwn audits k)).

Definition title_of (audits : value) (k : jsstring) : value :=
  or_else (getOwn (getOwn audits k) (lit "title")) (VStr k).

Definition opportunities (lighthouseResult : value) : list value :=
  let audits := optMember lighthouseResult (lit "audits") in
  match map (title_of audits) (filter (shown audits) keys) with
  | [] => [VStr FALLBACK]
  | titles => firstn 5 titles
  end.

(** ** Sanitised text *)

(** No [<] of [s] has a [>] behind it: [<[^>]*>] matches nowhere in [s]. *)
Fixpoint no_tag (s : jsstring) : bool :=
  match s with
  | [] => true
  | c :: rest =>
      (negb (N.eqb c LT) || negb (existsb (N.eqb GT) rest)) && no_tag rest
  end.

(** Every white-space code unit of [s] is a space, and none follows
    another. *)
Fixpoint single_spaced (s : jsstring) : bool :=
  match s with
  | [] => true
  | c :: rest =>
      (negb (isWhiteSpace c)
       || N.eqb c SPACE
          && match rest with
             | d :: _ => negb (isWhiteSpace d)
             | [] => true
             end)
      && single_spaced rest
  end.

(** [s] neither starts nor ends with white space. *)
Definition trimmed (s : jsstring) : Prop :=
  match s with
  | c :: _ => isWhiteSpace c = false /\ isWhiteSpace (last s c) = false
  | [] => True
  end.

(** [p] is a prefix of [s]. *)
Definition prefix_of (p s : jsstring) : Prop := exists t, s = p ++ t.

(** [s] occurs in [t]. *)
Definition contains (t s : jsstring) : Prop := exists a b, t = a ++ s ++ b.

(** ** What idempotence of [normalizeUrl] asks of the URL parser

    Three facts of the WHATWG parser and serialiser: a serialisation
    carries no white space at its ends; the serialisation of what was
    parsed from an [http://] or [https://] string starts with one of the
    two; and a serialisation parses again, to a record of the same
    serialisation. *)
Class URLLaws (P : Platform) : Prop := {
  href_trimmed : forall s u,
    URL_new s = Ok u -> trim (URL_toString u) = URL_toString u;
  href_scheme : forall s u,
    URL_new s = Ok u ->
    startsWith s (lit "http://") || startsWith s (lit "https://") = true ->
    startsWith (URL_toString u) (lit "http://")
      || startsWith (URL_toString u) (lit "https://") = true;
  href_reparse : forall s u,
    URL_new s = Ok u ->
    exists u', URL_new (URL_toString u) = Ok u'
               /\ URL_toString u' = URL_toString u
}.

(** ** The button of the form *)

(** [ev] writes [runBtn.disabled]. *)
Definition writes_disabled (ev : Event) : bool :=
  match ev with
  | SetDisabled runBtn _ => true
  | _ => false
  end.

Definition is_fetch (ev : Event) : bool :=
  match ev with
  | Fetch _ => true
  | _ => false
  end.

(** ** Helpers of the statements *)

(** The two replacements of the [catch] block. *)
Definition strip (s : jsstring) : jsstring := replaceAll match_tag [] 0%nat s.
Definition collapse (s : jsstring) : jsstring := replaceAll match_ws [SPACE] 0%nat s.

(** The string [normalizeUrl] hands to the parser. *)
Definition withScheme (t : jsstring) : jsstring :=
  if startsWith t (lit "http://") || startsWith t (lit "https://")
  then t
  else lit "https://" ++ t.

(** An audit with an empty title, and a key whose entry is [null]. *)
Definition empty_title : value :=
  VObj [ (lit "audits",
          VObj [ (lit "unused-javascript",
                  VObj [ (lit "score", VNum 0.5); (lit "title", VStr []) ]) ]) ].

Definition null_entry : value :=
  VObj [ (lit "audits", VObj [ (lit "offscreen-images", VNull) ]) ].

(** The score of the mock report for a seed. *)
Definition mock_score (s : N) (base : float) : float :=
  App.clamp01 (base + Number_of_N s / 100).

(** A Number clamped to the unit interval, in the words of the
    specification: 0 below 0, 1 above 1, the Number itself between. *)
Definition clamped (x : float) : float :=
  if x <? 0 then 0 else if 1 <? x then 1 else x.

Definition mock_categories : list (string * float) :=
  [ ("performance", 0.72); ("accessibility", 0.88);
    ("best-practices", 0.86); ("seo", 0.84) ]%string.

Definition seeds : list N := map N.of_nat (seq 0 20).

(** ** The bodies and the examples of the proxy *)

(** [{ ok: false, error: msg }] *)
Definition error_body (msg : jsstring) : value :=
  VObj [ (lit "ok", VBool false); (lit "error", VStr msg) ].

(** [{ ok: false, error: "PSI request failed", details: data }] *)
Definition failed_body (data : value) : value :=
  VObj [ (lit "ok", VBool false);
         (lit "error", VStr (lit "PSI request failed"));
         (lit "details", data) ].

(** A request for [?url=https://example.com/] and one for [?url=]. *)
Definition request_example : Psi.Request :=
  Psi.mkRequest (Ok [ (lit "url", lit "https://example.com/") ]).

Definition request_empty_url : Psi.Request :=
  Psi.mkRequest (Ok [ (lit "url", []) ]).

Definition env_with_key : Psi.Env := Psi.mkEnv (Some (lit "secret")).
Definition env_without_key : Psi.Env := Psi.mkEnv None.

(** An upstream that answers 502 with a page that is no JSON. *)
Definition bad_gateway : Psi.UpstreamResponse :=
  Psi.mkUpstream 502
    (Throw (mkError (lit "Unexpected token < in JSON at position 0"))).

(** An upstream that answers 404 with a JSON body. *)
Definition not_found_json : Psi.UpstreamResponse :=
  Psi.mkUpstream 404
    (Ok (VObj [ (lit "error", VObj [ (lit "code", VNum 404) ]) ])).

(** ** What a Core Web Vitals slot shows *)

Section Shown.
Context `{Platform}.

(** The text for a metric object and a unit. *)
Definition cwv_text (m : value) (unit : jsstring) : jsstring :=
  if truthy m then
    match getOwn m (lit "percentile") with
    | VNum p =>
        if str_eqb unit (lit "ms") then Number_toString p ++ lit " ms"
        else if str_eqb unit (lit "s") then toFixed1 (p / 1000) ++ lit " s"
        else Number_toString p
    | _ => EM_DASH
    end
  else EM_DASH.

End Shown.

(** Field data with the legacy metric and without INP. *)
Definition fid_only : value :=
  VObj [ (lit "loadingExperience",
          VObj [ (lit "metrics",
                  VObj [ (lit "FIRST_INPUT_DELAY_MS", App.percentile 12) ]) ]) ].

(** [data?.loadingExperience?.metrics?.[name]] *)
Definition metric (data : value) (name : string) : value :=
  optMember (optMember (optMember data (lit "loadingExperience")) (lit "metrics"))
            (lit name).

(** ** The examples of the client *)

(** The live mode, with an endpoint. *)
Definition live_config : App.Config :=
  App.mkConfig (lit "live") (lit "/.netlify/functions/psi").

(** A proxy that answers 404 with the text [Not Found]. *)
Definition not_found : Response :=
  mkResponse 404 (Ok (lit "Not Found"))
             (Throw (mkError (lit "Unexpected token N in JSON at position 0"))).

(** The page before a submission: nothing disabled, nothing shown. *)
Definition idle : Page.State :=
  Page.mkState (fun _ => false) (fun _ => []) (fun _ => []) (fun _ => [])
               (fun _ => []).

(** An event that leaves [runBtn.disabled] alone. *)
Definition quiet (ev : Event) : Prop := writes_disabled ev = false.

(** The first effects of every submission: the results are hidden and
    the list of opportunities is emptied. *)
Definition clearing : list Event :=
  [ PreventDefault; ClassListAdd results (lit "hidden"); ClearContent oppsList ].

(** [normalizeUrl] rejected the input, as the handler tests it. *)
Definition rejected (normalized : option jsstring) : Prop :=
  normalized = None \/ normalized = Some [].

(** What an accepted submission does before its [try] block. *)
Definition running : list Event :=
  setLoading true ++ setStatus (lit "Running mobile Lighthouse audit" ++ ELLIPSIS) [].

End Spec.

(* ================================================================== *)
(** * Runs of the handlers, as data *)
(* ================================================================== *)

Module Notions.
Import Report Spec.

(** ** What a run leaves on the page, one field at a time *)

(** The URLs a run fetched, in program order. *)
Fixpoint fetches (evs : list Event) : list jsstring :=
  match evs with
  | [] => []
  | Fetch url :: rest => url :: fetches rest
  | _ :: rest => fetches rest
  end.

(** [el.textContent] after an event. *)
Definition text_step (el : Elem) (t : jsstring) (ev : Event) : jsstring :=
  match ev with
  | SetTextContent el' s => if Page.Elem_eq_dec el el' then s else t
  | ClearContent el' => if Page.Elem_eq_dec el el' then [] else t
  | _ => t
  end.

Definition text_after (el : Elem) (t : jsstring) (evs : list Event) : jsstring :=
  fold_left (text_step el) evs t.

(** [el.className] after an event. *)
Definition class_step (el : Elem) (c : jsstring) (ev : Event) : jsstring :=
  match ev with
  | SetClassName el' s => if Page.Elem_eq_dec el el' then s else c
  | _ => c
  end.

Definition class_after (el : Elem) (c : jsstring) (evs : list Event) : jsstring :=
  fold_left (class_step el) evs c.

(** The [li] children of [el] after an event. *)
Definition items_step (el : Elem) (l : list jsstring) (ev : Event) : list jsstring :=
  match ev with
  | SetTextContent el' _ | ClearContent el' => if Page.Elem_eq_dec el el' then [] else l
  | AppendLi el' s => if Page.Elem_eq_dec el el' then l ++ [s] else l
  | _ => l
  end.

Definition items_after (el : Elem) (l : list jsstring) (evs : list Event)
  : list jsstring :=
  fold_left (items_step el) evs l.

(** The results block carries the class [hidden]. *)
Definition hidden (st : Page.State) : bool :=
  existsb (str_eqb (lit "hidden")) (Page.classList st results).

Definition hidden_step (h : bool) (ev : Event) : bool :=
  match ev with
  | ClassListAdd results tok => h || str_eqb (lit "hidden") tok
  | ClassListRemove results tok => h && negb (str_eqb (lit "hidden") tok)
  | _ => h
  end.

Definition hidden_after (h : bool) (evs : list Event) : bool :=
  fold_left hidden_step evs h.

(** ** The status lines of the clients *)

Definition INVALID : jsstring :=
  CROSS_MARK ++ lit " Please enter a valid URL (example: https://example.com).".

Definition DEMO_DONE : jsstring := CHECK_MARK ++ lit " Demo report complete (mock data).".

Definition LIVE_RUNNING : jsstring := lit "Running live mobile Lighthouse audit" ++ ELLIPSIS.

Definition LIVE_DONE : jsstring := CHECK_MARK ++ lit " Live report complete.".

Definition REPORT_DONE : jsstring := CHECK_MARK ++ lit " Report complete.".

Definition NOT_CONFIGURED : jsstring := lit "Live mode is not configured yet.".

Definition NO_FIELD_DATA : jsstring :=
  lit "Field (real-user) data was not available for this URL. Scores above are still useful as a lab audit.".

Definition DEMO_NOTE : jsstring :=
  lit "Demo mode: values shown are realistic mock data to preview the report layout.".

Definition FIELD_NOTE : jsstring :=
  lit "Field data availability depends on whether Chrome has enough real-user samples for this page/origin.".

(** The message of the error thrown for a response that is no success. *)
Definition failure_text (res : Response) : Result jsstring :=
  match text res with
  | Throw e => Throw e
  | Ok [] => Ok (lit "Request failed: " ++ decimal (status res))
  | Ok body => Ok body
  end.

(** What a response gives the [try] block: the data, or the error. *)
Definition data_of (res : Response) : Result value :=
  if ok res then json res
  else match failure_text res with
       | Ok msg => Throw (mkError msg)
       | Throw e => Throw e
       end.

Definition answer (net : Network) (url : jsstring) : Result value :=
  match net url with
  | Resolved res => data_of res
  | Rejected e => Throw e
  end.

Section Client.
Context `{Platform}.

(** The list loop, as data: the texts of the items it appends, which
    are those of the values before the first one whose conversion
    throws, and the error that ends it. *)
Fixpoint texts (opps : list value) : list jsstring :=
  match opps with
  | [] => []
  | t :: rest =>
      match textContent_value t with
      | Ok s => s :: texts rest
      | Throw _ => []
      end
  end.

Fixpoint stops (opps : list value) : Result unit :=
  match opps with
  | [] => Ok tt
  | t :: rest =>
      match textContent_value t with
      | Ok _ => stops rest
      | Throw e => Throw e
      end
  end.

(** How the rendering of [data] ends. *)
Definition finish (data : value) : Result unit :=
  stops (opportunities (optMember data (lit "lighthouseResult"))).

(** How a [try] block ends that got [r] from the network or the mock. *)
Definition done (r : Result value) : Result unit :=
  match r with
  | Ok data => finish data
  | Throw e => Throw e
  end.

(** The four scores and the three metrics, as both clients write them;
    [inp] is the text of the INP slot. *)
Definition slots (data : value) (inp : jsstring) : list Event :=
  let lh := optMember data (lit "lighthouseResult") in
  [ SetTextContent perfScore (toPercent (App.category_score lh "performance"));
    SetTextContent a11yScore (toPercent (App.category_score lh "accessibility"));
    SetTextContent bpScore (toPercent (App.category_score lh "best-practices"));
    SetTextContent seoScore (toPercent (App.category_score lh "seo"));
    SetTextContent lcpEl (cwv_text (metric data "LARGEST_CONTENTFUL_PAINT_MS") (lit "s"));
    SetTextContent inpEl inp;
    SetTextContent clsEl (cwv_text (metric data "CUMULATIVE_LAYOUT_SHIFT_SCORE") (lit "raw")) ].

(** The list items of the opportunities of [data]. *)
Definition listed (data : value) : list Event :=
  map (AppendLi oppsList)
      (texts (opportunities (optMember data (lit "lighthouseResult")))).

(** What follows the list loop when it did not throw. *)
Definition after_list (data : value) (evs : list Event) : list Event :=
  match finish data with
  | Ok _ => evs
  | Throw _ => []
  end.

Definition has_metrics (data : value) : bool :=
  truthy (optMember (optMember data (lit "loadingExperience")) (lit "metrics")).

Section App.
Variable cfg : App.Config.

(** The URL the live mode fetches. *)
Definition live_url (normalized : jsstring) : jsstring :=
  App.LIVE_ENDPOINT cfg ++ lit "?url=" ++ encodeURIComponent normalized.

(** The data of a run, or the error its [try] block throws. *)
Definition outcome (normalized : jsstring) (net : Network) : Result value :=
  if App.demo cfg then Ok (App.getMockPsiResponse normalized)
  else match App.LIVE_ENDPOINT cfg with
       | [] => Throw (mkError NOT_CONFIGURED)
       | _ => answer net (live_url normalized)
       end.

(** The effects of the [try] block before the data is there. *)
Definition before : list Event :=
  if App.demo cfg then [ Delay 800 ]
  else match App.LIVE_ENDPOINT cfg with
       | [] => []
       | _ => setStatus LIVE_RUNNING []
       end.

Definition fetched (normalized : jsstring) : list Event :=
  if App.demo cfg then []
  else match App.LIVE_ENDPOINT cfg with
       | [] => []
       | _ => [ Fetch (live_url normalized) ]
       end.

Definition note (data : value) : jsstring :=
  if negb (has_metrics data) then NO_FIELD_DATA
  else if App.demo cfg then DEMO_NOTE
  else FIELD_NOTE.

(** The effects of rendering [data]. *)
Definition rendered (data : value) : list Event :=
  slots data (cwv_text (metric data "INTERACTION_TO_NEXT_PAINT") (lit "ms"))
    ++ [ SetTextContent cwvNote (note data); ClearContent oppsList ]
    ++ listed data
    ++ after_list data [ ClassListRemove results (lit "hidden") ].

(** The effects of a [try] block that got [data]. *)
Definition completed (data : value) : list Event :=
  setStatus (if App.demo cfg then DEMO_DONE else LIVE_DONE) (lit "good")
    ++ rendered data.

(** What a run does once its [try] block has the data or an error, up
    to the [finally] block. *)
Definition ending (r : Result value) : list Event :=
  match r with
  | Ok data =>
      completed data
        ++ match finish data with
           | Ok _ => []
           | Throw err => App.catch_block err
           end
  | Throw err => App.catch_block err
  end.

End App.

(** The same for the live-only client. *)
Definition proxy_url (normalized : jsstring) : jsstring :=
  lit "/.netlify/functions/psi?url=" ++ encodeURIComponent normalized.

(** The text of its INP slot: INP, or the legacy FID when INP is missing. *)
Definition inp_text (data : value) : jsstring :=
  if truthy (metric data "INTERACTION_TO_NEXT_PAINT")
  then cwv_text (metric data "INTERACTION_TO_NEXT_PAINT") (lit "ms")
  else cwv_text (metric data "FIRST_INPUT_DELAY_MS") (lit "ms").

Definition live_rendered (data : value) : list Event :=
  slots data (inp_text data)
    ++ [ SetTextContent cwvNote (if negb (has_metrics data) then NO_FIELD_DATA else FIELD_NOTE) ]
    ++ listed data
    ++ after_list data
         ([ ClassListRemove results (lit "hidden") ] ++ setStatus REPORT_DONE (lit "good")).

Definition live_ending (r : Result value) : list Event :=
  match r with
  | Ok data =>
      live_rendered data
        ++ match finish data with
           | Ok _ => []
           | Throw err => LiveOnly.catch_block err
           end
  | Throw err => LiveOnly.catch_block err
  end.

End Client.

(** What a run without a report leaves behind: the results hidden, the
    list empty, and the scores, the metrics and the note as they were. *)
Definition untouched (st final : Page.State) : Prop :=
  hidden final = true
  /\ Page.items final oppsList = []
  /\ Forall (fun el => Page.textContent final el = Page.textContent st el)
            [perfScore; a11yScore; bpScore; seoScore; lcpEl; inpEl; clsEl; cwvNote].

(** What a run leaves whose rendering of [data] threw in the list loop:
    the results hidden, the scores, LCP, CLS and the note of [data]
    written, and the items that were converted before the throw. *)
Definition half_rendered `{Platform} (note : jsstring) (data : value)
           (final : Page.State) : Prop :=
  let lh := optMember data (lit "lighthouseResult") in
  hidden final = true
  /\ Page.items final oppsList = texts (opportunities lh)
  /\ map (Page.textContent final) [perfScore; a11yScore; bpScore; seoScore]
     = map (fun name => toPercent (App.category_score lh name))
           ["performance"; "accessibility"; "best-practices"; "seo"]%string
  /\ map (Page.textContent final) [lcpEl; clsEl]
     = [ cwv_text (metric data "LARGEST_CONTENTFUL_PAINT_MS") (lit "s");
         cwv_text (metric data "CUMULATIVE_LAYOUT_SHIFT_SCORE") (lit "raw") ]
  /\ Page.textContent final cwvNote = note.

(** ** Examples *)

Definition blank (s : jsstring) : Prop := forallb isWhiteSpace s = true.

(** A report whose one opportunity has an object for a title, with a
    key [toString]: valid JSON that has no string. *)
Definition odd_title : value :=
  VObj [ (lit "lighthouseResult",
          VObj [ (lit "audits",
                  VObj [ (lit "unused-javascript",
                          VObj [ (lit "score", VNum 0.4);
                                 (lit "title",
                                  VObj [ (lit "toString", VNum 1) ]) ]) ]) ]) ].

(** A proxy that answers 200 with that report. *)
Definition odd_reply : Response :=
  mkResponse 200 (Ok (lit "{...}")) (Ok odd_title).

(** An upstream that answers 999 with the JSON body [{}]. *)
Definition status_999 : Psi.UpstreamResponse :=
  Psi.mkUpstream 999 (Ok (VObj [])).

(** A report with one audit of the list and one that is not on it. *)
Definition one_audit : value :=
  VObj [ (lit "audits",
          VObj [ (lit "unused-javascript", App.audit 0.4 "Reduce unused JavaScript") ]) ].

Definition one_audit_and_more : value :=
  VObj [ (lit "audits",
          VObj [ (lit "unused-javascript", App.audit 0.4 "Reduce unused JavaScript");
                 (lit "uses-long-cache-ttl", App.audit 0.1 "Serve static assets with an efficient cache policy") ]) ].

(** A proxy that answers 404 with a page. *)
Definition not_found_page : Response :=
  mkResponse 404 (Ok (lit "<h1>Not Found</h1>"))
             (Throw (mkError (lit "Unexpected token < in JSON at position 0"))).

(** A proxy that answers 200 with field data that has the legacy metric
    only; the text of the body stands for its serialisation, which a
    success does not read. *)
Definition fid_reply : Response :=
  mkResponse 200 (Ok (lit "{...}")) (Ok fid_only).

(** The live mode without an endpoint. *)
Definition unconfigured : App.Config := App.mkConfig (lit "live") [].

End Notions.

(* ================================================================== *)
(** * Facts about strings *)
(* ================================================================== *)

Module StringFacts.
Import Spec.

#[local] Arguments N.eqb : simpl never.
#[local] Open Scope nat_scope.

Lemma str_eqb_eq (a b : jsstring) : str_eqb a b = true <-> a = b.
Proof.
  unfold str_eqb. destruct (list_eq_dec N.eq_dec a b); split; congruence.
Qed.

Lemma str_eqb_refl (a : jsstring) : str_eqb a a = true.
Proof. now apply str_eqb_eq. Qed.

Lemma startsWith_prefix (p s : jsstring) :
  startsWith s p = true <-> prefix_of p s.
Proof.
  revert s. induction p as [|a p IH]; intros s; simpl.
  - split; [intros _; now exists s | reflexivity].
  - destruct s as [|b s].
    + split; [discriminate | intros [t Ht]; discriminate].
    + rewrite andb_true_iff, N.eqb_eq, IH. split.
      * intros [-> [t ->]]. now exists t.
      * intros [t Ht]. injection Ht as -> ->. split; [reflexivity | now exists t].
Qed.

(** ** [trim] *)

Lemma trimStart_split (s : jsstring) :
  exists ws, s = ws ++ trimStart s /\ forallb isWhiteSpace ws = true.
Proof.
  induction s as [|c s [ws [E W]]]; simpl.
  - now exists [].
  - destruct (isWhiteSpace c) eqn:C.
    + exists (c :: ws). simpl. rewrite C, W. split; [now f_equal | reflexivity].
    + now exists [].
Qed.

Lemma trimStart_head (s : jsstring) :
  match trimStart s with
  | c :: _ => isWhiteSpace c = false
  | [] => True
  end.
Proof.
  induction s as [|c s IH]; simpl; [exact I|].
  destruct (isWhiteSpace c) eqn:C; [exact IH | exact C].
Qed.

Lemma trimStart_blank (s : jsstring) :
  forallb isWhiteSpace s = true <-> trimStart s = [].
Proof.
  induction s as [|c s IH]; simpl; [tauto|].
  destruct (isWhiteSpace c); simpl; [exact IH|].
  split; discriminate.
Qed.

Lemma trimStart_fixed (c : char16) (s : jsstring) :
  isWhiteSpace c = false -> trimStart (c :: s) = c :: s.
Proof. intros C. simpl. now rewrite C. Qed.

Lemma trimEnd_split (s : jsstring) :
  exists ws, s = trimEnd s ++ ws /\ forallb isWhiteSpace ws = true.
Proof.
  unfold trimEnd. destruct (trimStart_split (rev s)) as [ws [E W]].
  exists (rev ws). split.
  - rewrite <- rev_app_distr, <- E. symmetry. apply rev_involutive.
  - rewrite forallb_forall in *. intros x Hx. apply W. now apply in_rev.
Qed.

Lemma trimEnd_last (s : jsstring) (d : char16) :
  trimEnd s <> [] -> isWhiteSpace (last (trimEnd s) d) = false.
Proof.
  unfold trimEnd. pose proof (trimStart_head (rev s)) as Hh.
  destruct (trimStart (rev s)) as [|c t]; simpl.
  - intros Hn. now contradiction Hn.
  - intros _. now rewrite last_last.
Qed.

(** The end that [trimEnd] removes lies behind the first code unit when
    that one is no white space. *)
Lemma trimEnd_cons (c : char16) (s : jsstring) :
  isWhiteSpace c = false -> exists t, trimEnd (c :: s) = c :: t.
Proof.
  intros C. destruct (trimEnd_split (c :: s)) as [ws [E W]].
  destruct (trimEnd (c :: s)) as [|c' t] eqn:T.
  - simpl in E. subst ws. simpl in W. now rewrite C in W.
  - injection E as -> _. now exists t.
Qed.

Lemma trim_split (s : jsstring) :
  exists a b, s = a ++ trim s ++ b
              /\ forallb isWhiteSpace a = true /\ forallb isWhiteSpace b = true.
Proof.
  destruct (trimStart_split s) as [a [Ea Wa]].
  destruct (trimEnd_split (trimStart s)) as [b [Eb Wb]].
  exists a, b. unfold trim. now rewrite <- Eb, <- Ea.
Qed.

Lemma trim_trimmed (s : jsstring) : trimmed (trim s).
Proof.
  unfold trim, trimmed.
  pose proof (trimStart_head s) as Hh.
  destruct (trimStart s) as [|c t] eqn:T.
  - now compute.
  - destruct (trimEnd_cons c t Hh) as [t' Et]. rewrite Et. split; [exact Hh|].
    rewrite <- Et. apply trimEnd_last. rewrite Et. discriminate.
Qed.

Lemma trim_blank (s : jsstring) :
  forallb isWhiteSpace s = true <-> trim s = [].
Proof.
  split.
  - intros W. unfold trim. apply trimStart_blank in W. now rewrite W.
  - intros T. destruct (trim_split s) as [a [b [E [Wa Wb]]]].
    rewrite T in E. rewrite E, forallb_app, Wa. exact Wb.
Qed.

(** ** [replace] with a global regular expression *)

Lemma replaceAll_skip (m : jsstring -> option nat) (r : jsstring) (s : jsstring) :
  forall k, replaceAll m r k s = replaceAll m r 0 (skipn k s).
Proof.
  induction s as [|c s IH]; intros [|k]; simpl; try reflexivity.
  apply IH.
Qed.

(** ** The two patterns *)


Lemma indexOfGT_none (s : jsstring) :
  indexOfGT s = None -> existsb (N.eqb GT) s = false.
Proof.
  induction s as [|c s IH]; simpl; [reflexivity|].
  rewrite (N.eqb_sym GT c). destruct (N.eqb c GT); [discriminate|].
  destruct (indexOfGT s); [discriminate|]. intros _. now apply IH.
Qed.

Lemma strip_keeps_absent (x : char16) (s : jsstring) :
  forall k, existsb (N.eqb x) s = false ->
            existsb (N.eqb x) (replaceAll match_tag [] k s) = false.
Proof.
  induction s as [|c s IH]; intros k; simpl; [reflexivity|].
  intros E. apply orb_false_iff in E as [E1 E2].
  destruct k as [|k]; [|now apply IH].
  destruct (N.eqb c LT); simpl.
  - destruct (indexOfGT s); simpl; [now apply IH|]. now rewrite E1, IH.
  - now rewrite E1, IH.
Qed.

Lemma strip_no_tag (s : jsstring) :
  forall k, no_tag (replaceAll match_tag [] k s) = true.
Proof.
  induction s as [|c s IH]; intros k; simpl; [reflexivity|].
  destruct k as [|k]; [|apply IH].
  destruct (N.eqb c LT) eqn:C; simpl.
  - destruct (indexOfGT s) eqn:G; simpl; [apply IH|].
    rewrite C, IH. simpl.
    now rewrite (strip_keeps_absent GT s 0 (indexOfGT_none s G)).
  - now rewrite C, IH.
Qed.

Lemma replaceAll_ws_cons (c : char16) (s : jsstring) :
  replaceAll match_ws [SPACE] 0 (c :: s) =
  if isWhiteSpace c then SPACE :: replaceAll match_ws [SPACE] (spanWhiteSpace s) s
  else c :: replaceAll match_ws [SPACE] 0 s.
Proof.
  cbn [replaceAll]. unfold match_ws at 1. cbn [spanWhiteSpace].
  now destruct (isWhiteSpace c).
Qed.

Lemma collapse_keeps_absent (x : char16) (s : jsstring) :
  N.eqb x SPACE = false ->
  forall k, existsb (N.eqb x) s = false ->
            existsb (N.eqb x) (replaceAll match_ws [SPACE] k s) = false.
Proof.
  intros X. induction s as [|c s IH]; intros k E; [reflexivity|].
  cbn [existsb] in E. apply orb_false_iff in E as [E1 E2].
  destruct k as [|k]; [|cbn [replaceAll]; now apply IH].
  rewrite replaceAll_ws_cons. destruct (isWhiteSpace c); cbn [existsb].
  - now rewrite X, IH.
  - now rewrite E1, IH.
Qed.

Lemma collapse_no_tag (s : jsstring) :
  forall k, no_tag s = true -> no_tag (replaceAll match_ws [SPACE] k s) = true.
Proof.
  induction s as [|c s IH]; intros k E; [reflexivity|].
  cbn [no_tag] in E. apply andb_true_iff in E as [E1 E2].
  destruct k as [|k]; [|cbn [replaceAll]; now apply IH].
  rewrite replaceAll_ws_cons. destruct (isWhiteSpace c); cbn [no_tag].
  - now apply IH.
  - rewrite (IH 0 E2), andb_true_r.
    destruct (N.eqb c LT); simpl in *; [|reflexivity].
    apply negb_true_iff in E1. apply negb_true_iff.
    now apply collapse_keeps_absent.
Qed.

Lemma no_tag_app (a b : jsstring) :
  no_tag (a ++ b) = true -> no_tag a = true /\ no_tag b = true.
Proof.
  induction a as [|c a IH]; simpl; [now split|].
  intros E. apply andb_true_iff in E as [E1 E2].
  destruct (IH E2) as [Ha Hb]. split; [|exact Hb].
  rewrite Ha, andb_true_r.
  destruct (N.eqb c LT); simpl in *; [|reflexivity].
  rewrite existsb_app in E1. apply negb_true_iff in E1.
  apply orb_false_iff in E1 as [E1 _]. apply negb_true_iff. exact E1.
Qed.

Lemma collapse_cons (c : char16) (s : jsstring) :
  collapse (c :: s) =
  if isWhiteSpace c then SPACE :: collapse (skipn (spanWhiteSpace s) s)
  else c :: collapse s.
Proof.
  unfold collapse. rewrite replaceAll_ws_cons.
  destruct (isWhiteSpace c); [|reflexivity].
  now rewrite replaceAll_skip.
Qed.

Lemma skip_span_head (s : jsstring) :
  match skipn (spanWhiteSpace s) s with
  | d :: _ => isWhiteSpace d = false
  | [] => True
  end.
Proof.
  induction s as [|c s IH]; simpl; [exact I|].
  destruct (isWhiteSpace c) eqn:C; simpl; [exact IH | exact C].
Qed.

Lemma skip_span_length (s : jsstring) :
  List.length (skipn (spanWhiteSpace s) s) <= List.length s.
Proof. rewrite length_skipn. lia. Qed.

Lemma collapse_single_spaced (s : jsstring) : single_spaced (collapse s) = true.
Proof.
  remember (List.length s) as n eqn:Hn.
  assert (Hle : List.length s <= n) by lia. clear Hn.
  revert s Hle. induction n as [|n IH]; intros s Hle.
  - destruct s; [reflexivity | simpl in Hle; lia].
  - destruct s as [|c s]; [reflexivity|]. simpl in Hle.
    rewrite collapse_cons. destruct (isWhiteSpace c) eqn:C.
    + pose proof (skip_span_head s) as Hh. pose proof (skip_span_length s) as Hl.
      set (r := skipn (spanWhiteSpace s) s) in *.
      assert (Hr : single_spaced (collapse r) = true) by (apply IH; lia).
      change (single_spaced (SPACE :: collapse r)) with
        ((negb (isWhiteSpace SPACE)
          || N.eqb SPACE SPACE
             && match collapse r with
                | d :: _ => negb (isWhiteSpace d)
                | [] => true
                end) && single_spaced (collapse r)).
      rewrite Hr, andb_true_r. apply orb_true_iff. right. simpl.
      destruct r as [|d r']; [reflexivity|].
      rewrite collapse_cons, Hh. simpl. now rewrite Hh.
    + change (single_spaced (c :: collapse s)) with
        ((negb (isWhiteSpace c)
          || N.eqb c SPACE
             && match collapse s with
                | d :: _ => negb (isWhiteSpace d)
                | [] => true
                end) && single_spaced (collapse s)).
      rewrite C. simpl. apply IH. lia.
Qed.

Lemma single_spaced_app (a b : jsstring) :
  single_spaced (a ++ b) = true -> single_spaced a = true /\ single_spaced b = true.
Proof.
  induction a as [|c a IH]; [now split|].
  change (single_spaced ((c :: a) ++ b)) with
    ((negb (isWhiteSpace c)
      || N.eqb c SPACE
         && match a ++ b with
            | d :: _ => negb (isWhiteSpace d)
            | [] => true
            end) && single_spaced (a ++ b)).
  intros E. apply andb_true_iff in E as [E1 E2].
  destruct (IH E2) as [Ha Hb]. split; [|exact Hb].
  change (single_spaced (c :: a)) with
    ((negb (isWhiteSpace c)
      || N.eqb c SPACE
         && match a with
            | d :: _ => negb (isWhiteSpace d)
            | [] => true
            end) && single_spaced a).
  rewrite Ha, andb_true_r.
  destruct (negb (isWhiteSpace c)); [reflexivity|]. simpl in *.
  destruct (N.eqb c SPACE); [|discriminate]. simpl in *.
  destruct a; [reflexivity | exact E1].
Qed.

End StringFacts.

(* ================================================================== *)
(** * Opportunity extraction *)
(* ================================================================== *)

Module Opportunities.
Import Report Spec StringFacts.

#[local] Open Scope nat_scope.

Lemma truthy_not_nullish (v : value) : truthy v = true -> nullish v = false.
Proof. destruct v; simpl; congruence. Qed.

Lemma falsy_getOwn (v : value) (k : jsstring) :
  truthy v = false -> getOwn v k = VUndefined.
Proof. destruct v; simpl; congruence. Qed.

Lemma member_ok (o : value) (k : jsstring) :
  nullish o = false -> member o k = Ok (getOwn o k).
Proof. unfold member. now intros ->. Qed.

Lemma optMember_getOwn (o : value) (k : jsstring) :
  nullish o = false -> optMember o k = getOwn o k.
Proof. unfold optMember. now intros ->. Qed.

Lemma optMember_nullish (o : value) (k : jsstring) :
  nullish o = true -> optMember o k = getOwn o k.
Proof. unfold optMember. intros E. rewrite E. now destruct o. Qed.

(** [o?.k] is the own property where there is one, [undefined] elsewhere. *)
Lemma optMember_eq (o : value) (k : jsstring) : optMember o k = getOwn o k.
Proof.
  destruct (nullish o) eqn:E;
    [now apply optMember_nullish | now apply optMember_getOwn].
Qed.

(** One step of the loop. *)
Lemma visit_spec (audits : value) (k : jsstring) (items : list value) :
  nullish audits = false ->
  visit audits k items =
  Ok (if shown audits k then items ++ [title_of audits k] else items).
Proof.
  intros Hn. unfold visit, shown, title_of, good.
  rewrite (member_ok audits k Hn). cbn [bind].
  destruct (truthy (getOwn audits k)) eqn:T; cbn [negb andb]; [|reflexivity].
  pose proof (truthy_not_nullish _ T) as Hna.
  rewrite (member_ok _ (lit "score") Hna), (optMember_getOwn _ (lit "score") Hna).
  cbn [bind].
  destruct (getOwn (getOwn audits k) (lit "score")) as [| | |x| | |];
    cbn [is_number andb negb];
    try (rewrite (member_ok _ (lit "title") Hna); reflexivity).
  destruct (0.9 <=? x)%float; cbn [negb]; [reflexivity|].
  now rewrite (member_ok _ (lit "title") Hna).
Qed.

(** The loop is a filter followed by a map. *)
Lemma forEach_spec (audits : value) (ks : list jsstring) :
  nullish audits = false ->
  forall items,
    forEach ks audits items =
    Ok (items ++ map (title_of audits) (filter (shown audits) ks)).
Proof.
  intros Hn. induction ks as [|k ks IH]; intros items; cbn [forEach filter map].
  - now rewrite app_nil_r.
  - rewrite (visit_spec audits k items Hn). cbn [bind]. rewrite IH.
    destruct (shown audits k); cbn [map]; [|reflexivity].
    now rewrite <- app_assoc.
Qed.

Lemma audits_or_empty (a : value) :
  nullish (or_else a (VObj [])) = false
  /\ forall k, getOwn (or_else a (VObj [])) k = getOwn a k.
Proof.
  unfold or_else. destruct (truthy a) eqn:T.
  - split; [now apply truthy_not_nullish | reflexivity].
  - split; [reflexivity|]. intros k. now rewrite (falsy_getOwn a k T).
Qed.

Lemma getTopOpportunities_eq (lighthouseResult : value) :
  getTopOpportunities lighthouseResult = Ok (opportunities lighthouseResult).
Proof.
  unfold getTopOpportunities, opportunities.
  set (a := optMember lighthouseResult (lit "audits")).
  destruct (audits_or_empty a) as [Hn Hg].
  rewrite (forEach_spec _ keys Hn []). cbn [bind app].
  assert (Hs : forall k, shown (or_else a (VObj [])) k = shown a k)
    by (intros k; unfold shown; now rewrite Hg).
  assert (Ht : forall k, title_of (or_else a (VObj [])) k = title_of a k)
    by (intros k; unfold title_of; now rewrite Hg).
  rewrite (filter_ext _ _ Hs), (map_ext _ _ Ht).
  now destruct (map (title_of a) (filter (shown a) keys)).
Qed.

Lemma opportunities_length (lighthouseResult : value) :
  1 <= List.length (opportunities lighthouseResult) <= 5.
Proof.
  unfold opportunities.
  destruct (map _ _) as [|t ts] eqn:E; [simpl; lia|].
  rewrite length_firstn. simpl List.length. lia.
Qed.


(** C1, as stated, fails: with an empty title the code lists the key and
    not the title, and an entry that is present but [null] is passed
    over, which leaves the fallback. *)
Lemma claimed_opportunities_counterexample :
  (getTopOpportunities empty_title = Ok [VStr (lit "unused-javascript")]
   /\ claimed_opportunities empty_title = [VStr []])
  /\ (getTopOpportunities null_entry = Ok [VStr FALLBACK]
      /\ claimed_opportunities null_entry = [VUndefined])
  /\ getTopOpportunities empty_title <> Ok (claimed_opportunities empty_title)
  /\ getTopOpportunities null_entry <> Ok (claimed_opportunities null_entry).
Proof.
  assert (E1 : getTopOpportunities empty_title = Ok [VStr (lit "unused-javascript")])
    by (vm_compute; reflexivity).
  assert (E2 : claimed_opportunities empty_title = [VStr []])
    by (vm_compute; reflexivity).
  assert (E3 : getTopOpportunities null_entry = Ok [VStr FALLBACK])
    by (vm_compute; reflexivity).
  assert (E4 : claimed_opportunities null_entry = [VUndefined])
    by (vm_compute; reflexivity).
  repeat split; try assumption.
  - rewrite E1, E2. discriminate.
  - rewrite E3, E4. discriminate.
Qed.

(** C1, amended: for every value [getTopOpportunities] returns, without
    throwing, the titles of the keys of the fixed list whose entry is
    truthy and whose score is not a number of at least 0.9, in the order
    of the list, the key standing in for a title that is missing or
    falsy; at most the first five of them; and the one-element fallback
    list, never an empty list, when no key is shown. *)
Theorem getTopOpportunities_spec (lighthouseResult : value) :
  let audits := optMember lighthouseResult (lit "audits") in
  let titles := map (title_of audits) (filter (shown audits) keys) in
  exists items,
    getTopOpportunities lighthouseResult = Ok items
    /\ items = match titles with
               | [] => [VStr FALLBACK]
               | _ => firstn 5 titles
               end
    /\ 1 <= List.length items <= 5
    /\ (filter (shown audits) keys = [] <-> items = [VStr FALLBACK] /\ titles = []).
Proof.
  intros audits titles. exists (opportunities lighthouseResult).
  split; [apply getTopOpportunities_eq|].
  split; [unfold opportunities; subst titles audits; now destruct (map _ _)|].
  split; [apply opportunities_length|].
  unfold opportunities. subst titles audits. split.
  - intros E. rewrite E. now split.
  - intros [_ E].
    destruct (filter _ keys); [reflexivity | discriminate].
Qed.

End Opportunities.

(* ================================================================== *)
(** * URL normalisation *)
(* ================================================================== *)

Module Normalize.
Import Report Spec StringFacts.

#[local] Open Scope nat_scope.

Section WithPlatform.
Context `{P : Platform}.


Lemma normalizeUrl_unfold (raw : jsstring) :
  normalizeUrl raw =
  match trim raw with
  | [] => None
  | _ => match URL_new (withScheme (trim raw)) with
         | Ok u => Some (URL_toString u)
         | Throw _ => None
         end
  end.
Proof. reflexivity. Qed.

Lemma withScheme_scheme (t : jsstring) :
  startsWith (withScheme t) (lit "http://")
    || startsWith (withScheme t) (lit "https://") = true.
Proof.
  unfold withScheme.
  destruct (startsWith t (lit "http://") || startsWith t (lit "https://")) eqn:E.
  - exact E.
  - apply orb_true_iff. right. apply startsWith_prefix. now exists t.
Qed.

(** C2, amended: [normalizeUrl] trims the white space of its input and
    rejects every empty or blank input; to a trimmed input that does not
    start with [http://] or [https://] it prepends [https://]; when the
    parser accepts that string, what [normalizeUrl] returns is the
    serialisation of the URL the parser made of it, never the string
    itself; and it rejects when the parser fails, which it can do on a
    prefixed input as well. *)
Theorem normalizeUrl_spec (raw : jsstring) :
  let t := trim raw in
  (exists a b, raw = a ++ t ++ b
               /\ forallb isWhiteSpace a = true /\ forallb isWhiteSpace b = true
               /\ trimmed t)
  /\ (forallb isWhiteSpace raw = true -> normalizeUrl raw = None)
  /\ (~ prefix_of (lit "http://") t -> ~ prefix_of (lit "https://") t ->
      withScheme t = lit "https://" ++ t)
  /\ (prefix_of (lit "http://") t \/ prefix_of (lit "https://") t ->
      withScheme t = t)
  /\ (t <> [] ->
      normalizeUrl raw = match URL_new (withScheme t) with
                         | Ok u => Some (URL_toString u)
                         | Throw _ => None
                         end)
  /\ (forall out, normalizeUrl raw = Some out ->
        t <> [] /\ exists u, URL_new (withScheme t) = Ok u /\ out = URL_toString u)
  /\ (forall e, URL_new (withScheme t) = Throw e -> normalizeUrl raw = None).
Proof.
  intros t. repeat split.
  - destruct (trim_split raw) as [a [b [E [Wa Wb]]]].
    exists a, b. repeat split; try assumption. apply trim_trimmed.
  - intros W. rewrite normalizeUrl_unfold. apply trim_blank in W. now rewrite W.
  - intros N1 N2. unfold withScheme.
    destruct (startsWith t (lit "http://")) eqn:E1;
      [exfalso; now apply N1, startsWith_prefix|].
    destruct (startsWith t (lit "https://")) eqn:E2;
      [exfalso; now apply N2, startsWith_prefix|].
    reflexivity.
  - intros [Hp | Hp]; apply startsWith_prefix in Hp; unfold withScheme;
      rewrite Hp; [reflexivity | now rewrite orb_true_r].
  - intros Ht. rewrite normalizeUrl_unfold. fold t. now destruct t.
  - rewrite normalizeUrl_unfold in H. fold t in H. now destruct t.
  - rewrite normalizeUrl_unfold in H. fold t in H.
    destruct t; [discriminate|].
    destruct (URL_new (withScheme (c :: t))) as [u|e]; [|discriminate].
    exists u. split; [reflexivity | congruence].
  - intros e E. rewrite normalizeUrl_unfold. fold t. rewrite E. now destruct t.
Qed.

Lemma startsWith_nonempty (s p : jsstring) :
  p <> [] -> startsWith s p = true -> s <> [].
Proof. destruct p; [congruence|]. destruct s; simpl; congruence. Qed.

(** C10: on its successes [normalizeUrl] is idempotent, for a URL parser
    whose serialisations carry no outer white space, keep the [http] or
    [https] scheme of what was parsed, and parse again to the same
    serialisation. *)
Theorem normalizeUrl_idempotent (L : URLLaws P) (s out : jsstring) :
  normalizeUrl s = Some out -> normalizeUrl out = Some out.
Proof.
  intros E. rewrite normalizeUrl_unfold in E.
  destruct (trim s) as [|c t] eqn:T; [discriminate|].
  destruct (URL_new (withScheme (c :: t))) as [u|e] eqn:U; [|discriminate].
  injection E as <-.
  pose proof (href_trimmed _ _ U) as Ht.
  pose proof (href_scheme _ _ U (withScheme_scheme (c :: t))) as Hs.
  destruct (href_reparse _ _ U) as [u' [U' Eu]].
  rewrite normalizeUrl_unfold, Ht.
  assert (Hne : URL_toString u <> []).
  { apply orb_true_iff in Hs as [Hs | Hs];
      eapply startsWith_nonempty; try exact Hs; discriminate. }
  unfold withScheme. rewrite Hs, U', Eu.
  destruct (URL_toString u); [congruence | reflexivity].
Qed.

End WithPlatform.

(** ** The parser of the examples keeps the three laws *)

Lemma trim_fixed (c : char16) (s : jsstring) :
  isWhiteSpace c = false -> isWhiteSpace (last (c :: s) c) = false ->
  trim (c :: s) = c :: s.
Proof.
  intros Hc Hl. unfold trim. rewrite (trimStart_fixed c s Hc). unfold trimEnd.
  destruct (rev (c :: s)) as [|d r] eqn:R.
  - apply (f_equal (@rev _)) in R. rewrite rev_involutive in R. discriminate.
  - assert (Hd : last (c :: s) c = d).
    { apply (f_equal (@rev _)) in R. rewrite rev_involutive in R.
      rewrite R. simpl rev. apply last_last. }
    rewrite Hd in Hl. rewrite (trimStart_fixed d r Hl), <- R.
    apply rev_involutive.
Qed.

Lemma host_part_slash (h : jsstring) : Sample.host_part (h ++ [Sample.SLASH]) = h.
Proof.
  unfold Sample.host_part. rewrite rev_app_distr. simpl.
  apply rev_involutive.
Qed.

Lemma parse_with_ok (scheme s u : jsstring) :
  Sample.parse_with scheme s = Some u ->
  exists h, u = scheme ++ h ++ [Sample.SLASH] /\ Sample.host_ok false h = true.
Proof.
  unfold Sample.parse_with. destruct (startsWith s scheme); [|discriminate].
  destruct (Sample.host_ok false _) eqn:Hh; [|discriminate].
  intros [= <-]. eexists. split; [reflexivity | exact Hh].
Qed.

Lemma parse_ok (s u : jsstring) :
  Sample.parse s = Ok u ->
  exists scheme h,
    (scheme = lit "https://" \/ scheme = lit "http://")
    /\ u = scheme ++ h ++ [Sample.SLASH] /\ Sample.host_ok false h = true.
Proof.
  unfold Sample.parse.
  destruct (Sample.parse_with (lit "https://") s) as [v|] eqn:E1.
  - intros [= <-]. destruct (parse_with_ok _ _ _ E1) as [h [Eu Hh]].
    exists (lit "https://"), h. auto.
  - destruct (Sample.parse_with (lit "http://") s) as [v|] eqn:E2; [|discriminate].
    intros [= <-]. destruct (parse_with_ok _ _ _ E2) as [h [Eu Hh]].
    exists (lit "http://"), h. auto.
Qed.

Lemma parse_href (scheme h : jsstring) :
  scheme = lit "https://" \/ scheme = lit "http://" ->
  Sample.host_ok false h = true ->
  Sample.parse (scheme ++ h ++ [Sample.SLASH]) = Ok (scheme ++ h ++ [Sample.SLASH]).
Proof.
  intros [-> | ->] Hh; unfold Sample.parse, Sample.parse_with.
  - change (startsWith (lit "https://" ++ h ++ [Sample.SLASH]) (lit "https://"))
      with true.
    change (skipn (List.length (lit "https://")) (lit "https://" ++ h ++ [Sample.SLASH]))
      with (h ++ [Sample.SLASH]).
    cbv iota. now rewrite host_part_slash, Hh.
  - change (startsWith (lit "http://" ++ h ++ [Sample.SLASH]) (lit "https://"))
      with false.
    change (startsWith (lit "http://" ++ h ++ [Sample.SLASH]) (lit "http://"))
      with true.
    change (skipn (List.length (lit "http://")) (lit "http://" ++ h ++ [Sample.SLASH]))
      with (h ++ [Sample.SLASH]).
    cbv iota. now rewrite host_part_slash, Hh.
Qed.

Lemma sample_laws : URLLaws Sample.platform.
Proof.
  split; cbn [URL_new URL_toString Sample.platform]; intros s u E;
    destruct (parse_ok _ _ E) as [scheme [h [Hs [-> Hh]]]].
  - assert (Hl : forall c, last ((scheme ++ h) ++ [Sample.SLASH]) c = Sample.SLASH)
      by (intros c; apply last_last).
    rewrite <- app_assoc in Hl.
    destruct Hs as [-> | ->].
    + apply trim_fixed; [reflexivity|].
      change (lit "https://" ++ h ++ [Sample.SLASH])
        with (104%N :: (skipn 1 (lit "https://") ++ h ++ [Sample.SLASH])) in Hl.
      now rewrite Hl.
    + apply trim_fixed; [reflexivity|].
      change (lit "http://" ++ h ++ [Sample.SLASH])
        with (104%N :: (skipn 1 (lit "http://") ++ h ++ [Sample.SLASH])) in Hl.
      now rewrite Hl.
  - intros _. destruct Hs as [-> | ->]; reflexivity.
  - exists (scheme ++ h ++ [Sample.SLASH]). split; [|reflexivity].
    now apply parse_href.
Qed.

(** C2, as stated, fails: [a b] is not empty and has no scheme, and with
    [https://] before it it does not parse (a space is no code point of
    a host, for the parser of the platform as for the one of the
    examples): [normalizeUrl] rejects it. *)
Lemma normalizeUrl_counterexample :
  trim (lit "a b") = lit "a b"
  /\ startsWith (lit "a b") (lit "http://") || startsWith (lit "a b") (lit "https://")
     = false
  /\ withScheme (lit "a b") = lit "https://a b"
  /\ @URL_new Sample.platform (lit "https://a b") = Throw (mkError (lit "Invalid URL"))
  /\ @normalizeUrl Sample.platform (lit "a b") = None.
Proof. repeat split. Qed.

(** The input [example.com]: normalised to [https://example.com/], and
    normalised again to the same. *)
Lemma normalizeUrl_idempotent_witness :
  @normalizeUrl Sample.platform (lit "example.com") = Some (lit "https://example.com/")
  /\ @normalizeUrl Sample.platform (lit "https://example.com/")
     = Some (lit "https://example.com/").
Proof.
  assert (E : @normalizeUrl Sample.platform (lit "example.com")
              = Some (lit "https://example.com/")) by (vm_compute; reflexivity).
  split; [exact E|].
  exact (@normalizeUrl_idempotent Sample.platform sample_laws
           (lit "example.com") (lit "https://example.com/") E).
Defined.

End Normalize.

(* ================================================================== *)
(** * The mock report of the demo mode *)
(* ================================================================== *)

Module Mock.
Import Report Spec App.

Lemma seed_mod (url : jsstring) :
  seed url = (N.of_nat (List.length url) mod 20)%N.
Proof.
  unfold seed. apply N.min_r.
  pose proof (N.mod_lt (N.of_nat (List.length url)) 20). lia.
Qed.

Lemma seed_lt (url : jsstring) : (seed url < 20)%N.
Proof. rewrite seed_mod. apply N.mod_lt. discriminate. Qed.

Lemma seed_in (url : jsstring) : In (seed url) seeds.
Proof.
  unfold seeds. rewrite <- (N2Nat.id (seed url)). apply in_map, in_seq.
  pose proof (seed_lt url). lia.
Qed.

(** Every seed, every category: the score lies between 0 and 1. *)
Lemma mock_scores_bounded :
  forallb (fun s =>
    forallb (fun nb => (0 <=? mock_score s (snd nb)) && (mock_score s (snd nb) <=? 1))
            mock_categories) seeds = true.
Proof. vm_compute. reflexivity. Qed.

(** Every seed, every category: the percentage shown is the base plus the
    seed, and 100 at most. *)
Lemma mock_percent `{Platform} :
  forallb (fun s =>
    forallb (fun b =>
      str_eqb (toPercent (VNum (mock_score s (fst b))))
              (decimal (N.min 100 (snd b + s))))
      [ (0.72, 72%N); (0.88, 88%N); (0.86, 86%N); (0.84, 84%N) ]) seeds = true.
Proof. vm_compute. reflexivity. Qed.

(** Every seed, every category: [clamp01] clamps, and the lower bound
    is never met. *)
Lemma mock_clamped (s : N) (name : string) (base : float) :
  In s seeds -> In (name, base) mock_categories ->
  let x := base + Number_of_N s / 100 in
  clamp01 x = clamped x
  /\ clamped x = (if 1 <? x then 1 else x)
  /\ (0 <=? clamped x) = true
  /\ (clamped x <=? 1) = true.
Proof.
  intros Hs Hb. unfold seeds in Hs. cbn [seq map In] in Hs.
  cbn [mock_categories In] in Hb.
  repeat (destruct Hs as [<- | Hs];
          [ repeat (destruct Hb as [[= <- <-] | Hb];
                    [vm_compute; repeat split; reflexivity|]);
            destruct Hb |]).
  destruct Hs.
Qed.

(** C3: the mock report is a function of the URL, and of its length
    alone; the offset is the length modulo 20, hence below 20; the score
    of each category is its base plus the offset in hundredths, clamped
    to the unit interval, which here is: set to 1 where the sum is above
    1; and each score lies between 0 and 1. *)
Theorem getMockPsiResponse_scores (url : jsstring) :
  let s := seed url in
  let lh := optMember (getMockPsiResponse url) (lit "lighthouseResult") in
  s = (N.of_nat (List.length url) mod 20)%N
  /\ (s < 20)%N
  /\ (forall name base, In (name, base) mock_categories ->
        let x := base + Number_of_N s / 100 in
        category_score lh name = VNum (clamped x)
        /\ clamped x = (if 1 <? x then 1 else x)
        /\ (0 <=? clamped x) = true
        /\ (clamped x <=? 1) = true)
  /\ (forall url', List.length url' = List.length url ->
        getMockPsiResponse url' = getMockPsiResponse url).
Proof.
  intros s lh. split; [apply seed_mod|]. split; [apply seed_lt|]. split.
  - intros name base Hin x.
    destruct (mock_clamped s name base (seed_in url) Hin) as [C [I [Hlo Hhi]]].
    fold x in C, I, Hlo, Hhi.
    split; [|split; [exact I | split; [exact Hlo | exact Hhi]]].
    rewrite <- C. subst x. simpl in Hin.
    destruct Hin as [E | [E | [E | [E | []]]]]; injection E as <- <-; reflexivity.
  - intros url' Hlen. unfold getMockPsiResponse, score01, seed. now rewrite Hlen.
Qed.

End Mock.

(* ================================================================== *)
(** * The proxy *)
(* ================================================================== *)

Module Proxy.
Import Spec Psi.

Section WithPlatform.
Context `{P : Platform}.

(** C5, amended: when the query has no [url] the handler answers 400
    with [{ ok: false, error: "Missing ?url=" }]; when it has a [url]
    that is not empty and the key of the server is unset (or empty) the
    handler answers 500 with an [ok: false] body, whatever the [url];
    neither case fetches anything.  An empty [url] counts as missing. *)
Theorem handler_guards (params : list (jsstring * jsstring)) (env : Env)
        (net : Upstream) :
  let req := mkRequest (Ok params) in
  (get params (lit "url") = None \/ get params (lit "url") = Some [] ->
   handler req env net
   = ([], mkHttp 400 [content_type] (error_body (lit "Missing ?url="))))
  /\ (forall target,
        get params (lit "url") = Some target -> target <> [] ->
        PSI_API_KEY env = None \/ PSI_API_KEY env = Some [] ->
        handler req env net
        = ([], mkHttp 500 [content_type]
                 (error_body (lit "Server missing PSI_API_KEY env var")))).
Proof.
  intros req. split.
  - intros [E | E]; unfold handler, try_block; cbn [req_url req lift bindE snd fst];
      rewrite E; reflexivity.
  - intros target E Hne K.
    unfold handler, try_block; cbn [req_url req lift bindE snd fst]. rewrite E.
    destruct target as [|c t]; [congruence|].
    destruct K as [-> | ->]; reflexivity.
Qed.

(** C4, amended: once the request has a [url] and the server a key, the
    handler fetches the one endpoint and relays: 500 with
    [{ ok: false, error: message }] when the fetch fails, and also when
    the body of the upstream is no JSON, whatever its status; 200 with
    the body and [Cache-Control: public, max-age=300] when the upstream
    succeeded with a JSON body; and when the status of the upstream is
    no success and the body is JSON, that status with
    [{ ok: false, error: "PSI request failed", details: body }],
    provided [new Response] takes the status: for a status outside
    200..599, and for 304, which goes without a body, the constructor
    throws and the answer is 500 with the message of its error. *)
Theorem handler_relay (params : list (jsstring * jsstring)) (env : Env)
        (net : Upstream) (target apiKey : jsstring) :
  get params (lit "url") = Some target -> target <> [] ->
  PSI_API_KEY env = Some apiKey -> apiKey <> [] ->
  let r := handler (mkRequest (Ok params)) env net in
  fst r = [endpoint target apiKey]
  /\ match net (endpoint target apiKey) with
     | Rejected err =>
         snd r = mkHttp 500 [content_type] (error_body (message err))
     | Resolved res =>
         match json res with
         | Throw err =>
             snd r = mkHttp 500 [content_type] (error_body (message err))
         | Ok data =>
             if ok res
             then snd r = mkHttp 200 [content_type; cache_control] data
             else if ((status res <? 200) || (599 <? status res))%N
             then snd r = mkHttp 500 [content_type]
                            (error_body (message (Response_RangeError (status res))))
             else if (status res =? 304)%N
             then snd r = mkHttp 500 [content_type]
                            (error_body (message (Response_TypeError 304)))
             else snd r = mkHttp (status res) [content_type] (failed_body data)
         end
     end.
Proof.
  intros E Hne K Hk r. subst r.
  unfold handler, try_block; cbn [req_url lift bindE snd fst]. rewrite E.
  destruct target as [|c t]; [congruence|]. rewrite K.
  destruct apiKey as [|k ks]; [congruence|].
  unfold fetch, bindE. cbn [fst snd].
  destruct (net (endpoint (c :: t) (k :: ks))) as [res | err]; cbn [fst snd lift].
  - destruct (json res) as [data | err]; cbn [fst snd].
    + destruct (ok res) eqn:O; cbn [negb ret fst snd]; [split; reflexivity|].
      split; [now rewrite app_nil_r|]. unfold Response_new.
      destruct ((status res <? 200) || (599 <? status res))%N eqn:R;
        [reflexivity|].
      apply orb_false_iff in R as [R1 R2].
      apply N.ltb_ge in R1. apply N.ltb_ge in R2.
      unfold ok in O. apply andb_false_iff in O.
      assert (L : (300 <= status res)%N).
      { destruct O as [O | O]; [apply N.leb_gt in O | apply N.leb_gt in O]; lia. }
      unfold null_body_status.
      destruct (N.eqb_spec (status res) 304) as [-> | N304]; [reflexivity|].
      destruct (N.eqb_spec (status res) 101); [lia|].
      destruct (N.eqb_spec (status res) 103); [lia|].
      destruct (N.eqb_spec (status res) 204); [lia|].
      destruct (N.eqb_spec (status res) 205); [lia|].
      reflexivity.
    + split; reflexivity.
  - split; reflexivity.
Qed.

End WithPlatform.

(** C5, as stated, fails: with [?url=] the parameter is present, the key
    is unset, and the answer is 400, not 500. *)
Lemma handler_guards_counterexample :
  get [ (lit "url", []) ] (lit "url") = Some []
  /\ PSI_API_KEY env_without_key = None
  /\ http_status (snd (@handler Sample.platform request_empty_url env_without_key
                         (fun _ => Resolved not_found_json))) = 400%N
  /\ http_status (snd (@handler Sample.platform request_empty_url env_without_key
                         (fun _ => Resolved not_found_json))) <> 500%N.
Proof. repeat split. discriminate. Qed.

(** C4, as stated, fails: the upstream answers 502, no success, with a
    body that is no JSON, and the proxy answers 500 with the message of
    the parse error, not 502 with the details.  It fails as well for an
    upstream that answers 999 with a JSON body: [new Response] refuses
    the status, and the proxy answers 500. *)
Lemma handler_relay_counterexample :
  let r := snd (@handler Sample.platform request_example env_with_key
                  (fun _ => Resolved bad_gateway)) in
  let r' := snd (@handler Sample.platform request_example env_with_key
                   (fun _ => Resolved Notions.status_999)) in
  ok bad_gateway = false
  /\ http_status r = 500%N
  /\ http_status r <> status bad_gateway
  /\ (forall data, body r <> failed_body data)
  /\ ok Notions.status_999 = false
  /\ json Notions.status_999 = Ok (VObj [])
  /\ http_status r' = 500%N
  /\ http_status r' <> status Notions.status_999.
Proof. repeat split; try discriminate. Qed.

(** A 404 of the upstream with a JSON body is relayed as a 404. *)
Lemma handler_relay_witness :
  snd (@handler Sample.platform request_example env_with_key
         (fun _ => Resolved not_found_json))
  = mkHttp 404 [content_type]
      (failed_body (VObj [ (lit "error", VObj [ (lit "code", VNum 404) ]) ])).
Proof.
  pose proof (@handler_relay Sample.platform
                [ (lit "url", lit "https://example.com/") ] env_with_key
                (fun _ => Resolved not_found_json)
                (lit "https://example.com/") (lit "secret")
                eq_refl ltac:(discriminate) eq_refl ltac:(discriminate)) as [_ R].
  exact R.
Defined.

End Proxy.

(* ================================================================== *)
(** * Core Web Vitals formatting *)
(* ================================================================== *)

Module Vitals.
Import Report Spec Opportunities.

Section WithPlatform.
Context `{P : Platform}.

Lemma formatCwvMetric_text (m : value) (unit : jsstring) :
  formatCwvMetric m unit = Ok (cwv_text m unit).
Proof.
  unfold formatCwvMetric, cwv_text.
  destruct (truthy m) eqn:T; cbn [negb]; [|reflexivity].
  rewrite (member_ok m (lit "percentile") (truthy_not_nullish m T)). cbn [bind].
  destruct (getOwn m (lit "percentile")); try reflexivity.
  destruct (str_eqb unit (lit "ms")); [reflexivity|].
  now destruct (str_eqb unit (lit "s")).
Qed.

(** The call sites of both clients. *)
Lemma app_cwv_text (m : value) (unit : string) :
  App.cwv m unit = ret (cwv_text m (lit unit)).
Proof.
  unfold App.cwv. destruct (truthy m) eqn:T.
  - now rewrite formatCwvMetric_text.
  - unfold cwv_text. now rewrite T.
Qed.

Lemma live_cwv_text (m : value) (unit : string) :
  LiveOnly.cwv m unit = ret (cwv_text m (lit unit)).
Proof.
  unfold LiveOnly.cwv. destruct (truthy m) eqn:T.
  - now rewrite formatCwvMetric_text.
  - unfold cwv_text. now rewrite T.
Qed.

Lemma inp_or_fid_text (inp fid : value) :
  LiveOnly.inp_or_fid inp fid =
  ret (if truthy inp then cwv_text inp (lit "ms") else cwv_text fid (lit "ms")).
Proof.
  unfold LiveOnly.inp_or_fid. destruct (truthy inp) eqn:T.
  - now rewrite formatCwvMetric_text.
  - destruct (truthy fid) eqn:F.
    + now rewrite formatCwvMetric_text.
    + unfold cwv_text. now rewrite F.
Qed.

Lemma decimal_digit (d : N) : (d < 10)%N -> decimal d = [(48 + d)%N].
Proof.
  intros Hd.
  assert (Hin : In d (map N.of_nat (seq 0 10))).
  { rewrite <- (N2Nat.id d). apply in_map, in_seq. lia. }
  simpl in Hin.
  repeat (destruct Hin as [<- | Hin]; [reflexivity|]). destruct Hin.
Qed.

(** [toFixed(1)] of a finite Number below 10^21: digits, a point, and
    one digit. *)
Lemma toFixed1_shape (x : float) (s : bool) (m : positive) (e : Z) :
  Prim2SF x = S754_finite s m e -> (1e21 <=? abs x) = false ->
  exists (a d : N),
    (d < 10)%N
    /\ toFixed1 x = sign_prefix s ++ decimal a ++ lit "." ++ [(48 + d)%N].
Proof.
  intros E B. unfold toFixed1. rewrite E, B.
  set (n := if (0 <=? e)%Z then (10 * Z.pos m * 2 ^ e)%Z
            else ((20 * Z.pos m + 2 ^ (- e)) / 2 ^ (1 - e))%Z).
  exists (Z.to_N (n / 10)), (Z.to_N (n mod 10)).
  assert (Hd : (Z.to_N (n mod 10) < 10)%N).
  { pose proof (Z.mod_pos_bound n 10 eq_refl). lia. }
  split; [exact Hd|]. now rewrite (decimal_digit _ Hd).
Qed.

(** Number::toString of a whole number of at most 2^53: its digits. *)
Lemma Number_toString_whole (p : float) (s : bool) (m : positive) (e : Z) :
  Prim2SF p = S754_finite s m e ->
  ((0 <= e)%Z -> (Z.pos m * 2 ^ e <= 2 ^ 53)%Z ->
   Number_toString p = sign_prefix s ++ decimal (Z.to_N (Z.pos m * 2 ^ e)))
  /\ ((e < 0)%Z -> forall n : N, Z.pos m = (Z.of_N n * 2 ^ (- e))%Z ->
      Number_toString p = sign_prefix s ++ decimal n).
Proof.
  intros E. unfold Number_toString, integral. rewrite E. split.
  - intros He Hb. apply Z.leb_le in He, Hb. now rewrite He, Hb.
  - intros He n Hn. apply Z.leb_gt in He. rewrite He.
    assert (Hp : (0 < 2 ^ (- e))%Z) by (apply Z.pow_pos_nonneg; lia).
    rewrite Hn, Z.mod_mul, Z.div_mul by lia. cbn [Z.eqb].
    now rewrite N2Z.id.
Qed.

(** C6, amended: a slot shows the percentile of its metric with the unit
    of the metric: LCP in seconds through [toFixed(1)], which is digits,
    a point and one decimal whenever the magnitude of the seconds is
    below 10^21; INP in milliseconds and CLS without a unit, the number
    printed as it is, which is its decimal digits when the percentile,
    [m * 2^e] up to its sign, is a whole number of magnitude at most
    2^53; the live-only client shows
    FID in milliseconds when INP is absent; and a metric that is absent,
    or whose percentile is no number, shows the placeholder. *)
Theorem formatCwvMetric_spec (data : value) :
  let lcp := metric data "LARGEST_CONTENTFUL_PAINT_MS" in
  let inp := metric data "INTERACTION_TO_NEXT_PAINT" in
  let cls := metric data "CUMULATIVE_LAYOUT_SHIFT_SCORE" in
  let fid := metric data "FIRST_INPUT_DELAY_MS" in
  (* the function *)
  (forall m unit,
     formatCwvMetric m unit = Ok (cwv_text m unit)
     /\ (truthy m = false -> cwv_text m unit = EM_DASH)
     /\ (is_number (getOwn m (lit "percentile")) = false -> cwv_text m unit = EM_DASH)
     /\ (forall p, truthy m = true -> getOwn m (lit "percentile") = VNum p ->
           cwv_text m (lit "s") = toFixed1 (p / 1000) ++ lit " s"
           /\ cwv_text m (lit "ms") = Number_toString p ++ lit " ms"
           /\ cwv_text m (lit "raw") = Number_toString p))
  (* its call sites *)
  /\ App.cwv lcp "s" = ret (cwv_text lcp (lit "s"))
  /\ App.cwv inp "ms" = ret (cwv_text inp (lit "ms"))
  /\ App.cwv cls "raw" = ret (cwv_text cls (lit "raw"))
  /\ LiveOnly.cwv lcp "s" = ret (cwv_text lcp (lit "s"))
  /\ LiveOnly.cwv cls "raw" = ret (cwv_text cls (lit "raw"))
  /\ LiveOnly.inp_or_fid inp fid
     = ret (if truthy inp then cwv_text inp (lit "ms") else cwv_text fid (lit "ms"))
  (* one decimal *)
  /\ (forall x s m e,
        Prim2SF x = S754_finite s m e -> (1e21 <=? abs x) = false ->
        exists a d, (d < 10)%N
                    /\ toFixed1 x = sign_prefix s ++ decimal a ++ lit "." ++ [(48 + d)%N])
  /\ (forall x s, Prim2SF x = S754_zero s -> toFixed1 x = lit "0.0")
  (* whole numbers *)
  /\ (forall p s m e,
        Prim2SF p = S754_finite s m e ->
        ((0 <= e)%Z -> (Z.pos m * 2 ^ e <= 2 ^ 53)%Z ->
         Number_toString p = sign_prefix s ++ decimal (Z.to_N (Z.pos m * 2 ^ e)))
        /\ ((e < 0)%Z -> forall n : N, Z.pos m = (Z.of_N n * 2 ^ (- e))%Z ->
            Number_toString p = sign_prefix s ++ decimal n))
  /\ (forall p s, Prim2SF p = S754_zero s -> Number_toString p = lit "0")
  (* the percentiles of the specification *)
  /\ cwv_text (App.percentile 2500) (lit "s") = lit "2.5 s"
  /\ cwv_text (App.percentile 190) (lit "ms") = lit "190 ms"
  /\ cwv_text (App.percentile 8) (lit "raw") = lit "8".
Proof.
  intros lcp inp cls fid.
  split.
  { intros m unit. split; [apply formatCwvMetric_text|].
    split; [unfold cwv_text; now intros ->|].
    split.
    - unfold cwv_text. destruct (truthy m); [|reflexivity].
      now destruct (getOwn m (lit "percentile")).
    - intros p T E. unfold cwv_text. rewrite T, E. now repeat split. }
  split; [apply app_cwv_text|]. split; [apply app_cwv_text|].
  split; [apply app_cwv_text|]. split; [apply live_cwv_text|].
  split; [apply live_cwv_text|]. split; [apply inp_or_fid_text|].
  split; [exact toFixed1_shape|].
  split; [intros x s E; unfold toFixed1; now rewrite E|].
  split.
  { exact Number_toString_whole. }
  split; [intros p s E; unfold Number_toString; now rewrite E|].
  repeat split; vm_compute; reflexivity.
Qed.

End WithPlatform.

(** C6, as stated, fails: a percentile of 190.5 is shown as [190.5 ms],
    which is no whole number of milliseconds; a percentile of 10^30 is
    shown as [1e+27 s], with no decimal; and where INP is absent and
    FID present, the call site of [src/app.js] shows the placeholder,
    while the one of the live-only client shows FID. *)
Lemma formatCwvMetric_counterexample :
  @cwv_text Sample.platform (App.percentile 190.5) (lit "ms") = lit "190.5 ms"
  /\ @cwv_text Sample.platform (App.percentile 1e30) (lit "s") = lit "1e+27 s"
  /\ @App.cwv Sample.platform (metric fid_only "INTERACTION_TO_NEXT_PAINT") "ms"
     = ret EM_DASH
  /\ @LiveOnly.inp_or_fid Sample.platform
       (metric fid_only "INTERACTION_TO_NEXT_PAINT")
       (metric fid_only "FIRST_INPUT_DELAY_MS")
     = ret (lit "12 ms").
Proof. repeat split; vm_compute; reflexivity. Qed.

End Vitals.

(* ================================================================== *)
(** * Percentages *)
(* ================================================================== *)

Module Percent.
Import Report Spec.

#[local] Open Scope Z_scope.

(** ** The rounding of a binary64 product

    [SFmul] rounds with [binary_round_aux]: a shift to the right that
    keeps what falls off as a location, a rounding to nearest even, and a
    second shift for the carry.  What is needed here is that the result
    stays below a bound that is itself representable at every exponent. *)

Lemma iter_pos_nat {A} (f : A -> A) (p : positive) (x : A) :
  SpecFloat.iter_pos f p x = Nat.iter (Pos.to_nat p) f x.
Proof.
  revert x. induction p as [p IH | p IH |]; intros x; cbn [SpecFloat.iter_pos].
  - rewrite !IH, Pos2Nat.inj_xI.
    replace (S (2 * Pos.to_nat p))%nat with (Pos.to_nat p + (Pos.to_nat p + 1))%nat by lia.
    now rewrite !Nat.iter_add.
  - rewrite !IH, Pos2Nat.inj_xO.
    replace (2 * Pos.to_nat p)%nat with (Pos.to_nat p + Pos.to_nat p)%nat by lia.
    now rewrite Nat.iter_add.
  - reflexivity.
Qed.

Lemma shr_1_m (mrs : shr_record) :
  0 <= shr_m mrs ->
  shr_m (shr_1 mrs) = shr_m mrs / 2
  /\ (Z.even (shr_m mrs) = true -> shr_r mrs = false -> shr_s mrs = false ->
      shr_r (shr_1 mrs) = false /\ shr_s (shr_1 mrs) = false).
Proof.
  destruct mrs as [m r s]. simpl. intros Hm.
  destruct m as [|p|p]; [| |lia].
  - split; [reflexivity|]. intros _ -> ->. now split.
  - destruct p as [p|p|]; simpl.
    + split; [|discriminate]. rewrite Pos2Z.inj_xI. 
      apply Z.div_unique with (r := 1); lia.
    + split; [|intros _ -> ->; now split]. rewrite Pos2Z.inj_xO.
      apply Z.div_unique with (r := 0); lia.
    + split; [reflexivity | discriminate].
Qed.

Lemma shr_iter (M : Z) (k : nat) :
  0 <= M ->
  let mrs := Nat.iter k shr_1 (Build_shr_record M false false) in
  shr_m mrs = M / 2 ^ Z.of_nat k
  /\ (M mod 2 ^ Z.of_nat k = 0 -> shr_r mrs = false /\ shr_s mrs = false).
Proof.
  intros HM. induction k as [|k [IHm IHe]].
  - simpl. split; [now rewrite Z.div_1_r | now split].
  - cbn zeta in *. rewrite Nat.iter_succ.
    set (mrs := Nat.iter k shr_1 _) in *.
    assert (Hpos : 0 <= shr_m mrs) by (rewrite IHm; apply Z.div_pos; lia).
    destruct (shr_1_m mrs Hpos) as [Hm He].
    rewrite Nat2Z.inj_succ, Z.pow_succ_r by lia.
    split.
    + rewrite Hm, IHm, Z.div_div by lia. f_equal. lia.
    + intros Hmod.
      assert (H2 : M mod 2 ^ Z.of_nat k = 0).
      { apply Z.mod_divide in Hmod; [|lia]. apply Z.mod_divide; [lia|].
        destruct Hmod as [q Hq]. exists (q * 2). lia. }
      destruct (IHe H2) as [Hr Hs]. apply He; try assumption.
      rewrite IHm. apply Z.mod_divide in Hmod; [|lia]. destruct Hmod as [q Hq].
      rewrite Hq. replace (q * (2 * 2 ^ Z.of_nat k)) with ((q * 2) * 2 ^ Z.of_nat k) by lia.
      rewrite Z.div_mul by lia. rewrite Z.even_mul. simpl. apply orb_true_r.
Qed.

Lemma digits2_pos_bounds (p : positive) :
  2 ^ (Z.pos (digits2_pos p) - 1) <= Z.pos p < 2 ^ Z.pos (digits2_pos p).
Proof.
  induction p as [p IH | p IH |]; cbn [digits2_pos].
  - rewrite Pos2Z.inj_succ. change (Z.pos p~1) with (2 * Z.pos p + 1).
    replace (Z.succ (Z.pos (digits2_pos p)) - 1) with (Z.succ (Z.pos (digits2_pos p) - 1)) by lia.
    rewrite !Z.pow_succ_r by lia.
    generalize dependent (2 ^ (Z.pos (digits2_pos p) - 1)).
    generalize dependent (2 ^ Z.pos (digits2_pos p)). intros; lia.
  - rewrite Pos2Z.inj_succ. change (Z.pos p~0) with (2 * Z.pos p).
    replace (Z.succ (Z.pos (digits2_pos p)) - 1) with (Z.succ (Z.pos (digits2_pos p) - 1)) by lia.
    rewrite !Z.pow_succ_r by lia.
    generalize dependent (2 ^ (Z.pos (digits2_pos p) - 1)).
    generalize dependent (2 ^ Z.pos (digits2_pos p)). intros; lia.
  - simpl. lia.
Qed.

Lemma round_nearest_even_bounds (m : Z) (l : location) :
  m <= round_nearest_even m l <= m + 1.
Proof.
  destruct l as [|[| |]]; simpl; try lia. destruct (Z.even m); lia.
Qed.

Lemma shr_fexp_bound (B m0 e0 : Z) (mrs : shr_record) (e1 : Z) :
  0 < B < 2 ^ 53 -> 0 <= m0 -> e0 <= 0 -> m0 <= B * 2 ^ (- e0) ->
  shr_fexp prec emax m0 e0 loc_Exact = (mrs, e1) ->
  e1 <= 0
  /\ 0 <= shr_m mrs <= B * 2 ^ (- e1)
  /\ 0 <= round_nearest_even (shr_m mrs) (loc_of_shr_record mrs) <= B * 2 ^ (- e1).
Proof.
  intros HB Hm0 He0 Hle. unfold shr_fexp, shr.
  assert (Hd : Zdigits2 m0 + e0 <= 53).
  { destruct m0 as [|q|q]; [simpl; lia | | lia].
    cbn [Zdigits2]. pose proof (digits2_pos_bounds q) as [Hlo _].
    assert (Hlt : 2 ^ (Z.pos (digits2_pos q) - 1) < 2 ^ (53 - e0)).
    { replace (53 - e0) with (53 + - e0) by lia. rewrite Z.pow_add_r by lia.
      assert (0 < 2 ^ (- e0)) by (apply Z.pow_pos_nonneg; lia). nia. }
    apply Z.pow_lt_mono_r_iff in Hlt; lia. }
  set (n := fexp prec emax (Zdigits2 m0 + e0) - e0).
  assert (Hn : e0 + n <= 0) by (subst n; unfold fexp, SpecFloat.emin, prec, emax; lia).
  cbn [shr_record_of_loc].
  destruct n as [|p|p] eqn:En.
  - intros [= <- <-]. cbn. lia.
  - intros [= <- <-]. rewrite iter_pos_nat.
    destruct (shr_iter m0 (Pos.to_nat p) Hm0) as [Hm Hex].
    rewrite positive_nat_Z in Hm, Hex.
    set (r := Nat.iter (Pos.to_nat p) shr_1 _) in *.
    set (K := B * 2 ^ (- (e0 + Z.pos p))).
    assert (HK : B * 2 ^ (- e0) = K * 2 ^ Z.pos p).
    { unfold K. rewrite <- Z.mul_assoc, <- Z.pow_add_r by lia. do 2 f_equal. lia. }
    assert (Hp : 0 < 2 ^ Z.pos p) by (apply Z.pow_pos_nonneg; lia).
    assert (Hm1 : 0 <= shr_m r <= K).
    { rewrite Hm. split; [apply Z.div_pos; lia|].
      apply Z.div_le_upper_bound; lia. }
    split; [exact Hn|]. split; [exact Hm1|].
    pose proof (round_nearest_even_bounds (shr_m r) (loc_of_shr_record r)) as Hr.
    split; [lia|].
    destruct (Z.eq_dec (m0 mod 2 ^ Z.pos p) 0) as [Hz | Hnz].
    + destruct (Hex Hz) as [Hrr Hrs]. destruct r as [rm rr rs]. cbn in *.
      subst rr rs. cbn. lia.
    + assert (Hlt : m0 < K * 2 ^ Z.pos p).
      { destruct (Z.eq_dec m0 (K * 2 ^ Z.pos p)) as [Heq | Hne]; [|lia].
        exfalso. apply Hnz. rewrite Heq. apply Z.mod_mul. lia. }
      assert (shr_m r < K) by (rewrite Hm; apply Z.div_lt_upper_bound; lia).
      lia.
  - intros [= <- <-]. cbn. lia.
Qed.

Lemma binary_round_aux_bound (B M E : Z) :
  0 < B < 2 ^ 53 -> 0 <= M -> E <= 0 -> M <= B * 2 ^ (- E) ->
  binary_round_aux prec emax false M E loc_Exact = S754_zero false
  \/ exists m e,
       binary_round_aux prec emax false M E loc_Exact = S754_finite false m e
       /\ e <= 0 /\ Z.pos m <= B * 2 ^ (- e).
Proof.
  intros HB HM HE Hle. unfold binary_round_aux.
  destruct (shr_fexp prec emax M E loc_Exact) as [mrs1 e1] eqn:S1.
  destruct (shr_fexp_bound B M E mrs1 e1 HB HM HE Hle S1) as [He1 [_ Hr1]].
  set (m1 := round_nearest_even (shr_m mrs1) (loc_of_shr_record mrs1)) in *.
  destruct (shr_fexp prec emax m1 e1 loc_Exact) as [mrs2 e2] eqn:S2.
  destruct (shr_fexp_bound B m1 e1 mrs2 e2 HB (proj1 Hr1) He1 (proj2 Hr1) S2)
    as [He2 [Hm2 _]].
  destruct (shr_m mrs2) as [|m|m]; [now left | | lia].
  right. exists m, e2.
  assert (Hle2 : (e2 <=? emax - prec) = true) by (apply Z.leb_le; unfold emax, prec; lia).
  rewrite Hle2. repeat split; [exact He2 | lia].
Qed.

(** ** Numbers of the unit interval, and their hundredfold *)

Lemma unit_interval (x : float) :
  (0 <=? x)%float = true -> (x <=? 1)%float = true ->
  (exists s, Prim2SF x = S754_zero s)
  \/ (exists m e, Prim2SF x = S754_finite false m e
                  /\ e <= -52 /\ Z.pos m <= 2 ^ (- e)).
Proof.
  rewrite !leb_spec.
  change (Prim2SF 0%float) with (S754_zero false).
  change (Prim2SF 1%float) with (S754_finite false 4503599627370496 (-52)).
  pose proof (Prim2SF_valid x) as V.
  destruct (Prim2SF x) as [s | s | | s m e]; unfold SFleb; cbn [SFcompare].
  - intros _ _. left. now exists s.
  - destruct s; discriminate.
  - discriminate.
  - destruct s; [discriminate|]. intros _ H. right. exists m, e.
    split; [reflexivity|].
    cbn [valid_binary] in V. unfold bounded, canonical_mantissa in V.
    apply andb_true_iff in V as [V _]. apply Z.eqb_eq in V.
    unfold fexp, SpecFloat.emin, prec, emax in V.
    pose proof (digits2_pos_bounds m) as [_ Hm].
    destruct (Z.compare_spec e (-52)) as [-> | Hlt | Hgt].
    + split; [lia|]. change (2 ^ (- -52)) with 4503599627370496.
      rewrite Pos.compare_cont_spec in H. cbn [Pos.switch_Eq] in H.
      clear V Hm.
      destruct (Pos.compare_spec m 4503599627370496) as [Hc | Hc | Hc];
        [ | | discriminate].
      * rewrite Hc. reflexivity.
      * apply Pos2Z.pos_lt_pos in Hc. apply Z.lt_le_incl. exact Hc.
    + split; [lia|].
      assert (Hd : Z.pos (digits2_pos m) <= - e).
      { change IntDef.Z.max with Z.max in V. lia. }
      apply (Z.pow_le_mono_r 2) in Hd; [|lia].
      apply Z.lt_le_incl. eapply Z.lt_le_trans; [exact Hm | exact Hd].
    + discriminate.
Qed.

Lemma hundredfold (x : float) :
  (0 <=? x)%float = true -> (x <=? 1)%float = true ->
  (exists s, Prim2SF (x * 100)%float = S754_zero s)
  \/ (exists m e, Prim2SF (x * 100)%float = S754_finite false m e
                  /\ e <= 0 /\ Z.pos m <= 100 * 2 ^ (- e)).
Proof.
  intros H0 H1. rewrite mul_spec.
  change (Prim2SF 100%float) with (S754_finite false 7036874417766400 (-46)).
  destruct (unit_interval x H0 H1) as [[s ->] | [m [e [-> [He Hm]]]]].
  - left. exists (xorb s false). reflexivity.
  - unfold SF64mul, SFmul. cbn [xorb].
    destruct (binary_round_aux_bound 100 (Z.pos (m * 7036874417766400)) (e + -46))
      as [Hz | Hf].
    + split; [lia | reflexivity].
    + lia.
    + lia.
    + rewrite Pos2Z.inj_mul.
      replace (- (e + -46)) with (46 + - e) by lia.
      rewrite Z.pow_add_r by lia. change (2 ^ 46) with 70368744177664. lia.
    + left. now exists false.
    + right. exact Hf.
Qed.

(** ** [toPercent] *)

Section WithPlatform.
Context `{P : Platform}.

(** The integers up to 100, as Numbers: their digits are the decimal
    digits, and each equals itself. *)
Lemma small_numbers :
  forallb (fun n => str_eqb (Number_toString (Number_of_N n)) (decimal n)
                    && (Number_of_N n =? Number_of_N n)%float)
          (map N.of_nat (seq 0 101)) = true.
Proof. vm_compute. reflexivity. Qed.

Lemma small_number (n : N) :
  (n <= 100)%N ->
  Number_toString (Number_of_N n) = decimal n
  /\ (Number_of_N n =? Number_of_N n)%float = true.
Proof.
  intros Hn. pose proof small_numbers as S. rewrite forallb_forall in S.
  assert (Hin : In n (map N.of_nat (seq 0 101))).
  { rewrite <- (N2Nat.id n). apply in_map, in_seq. lia. }
  apply S, andb_true_iff in Hin as [H1 H2].
  split; [now apply StringFacts.str_eqb_eq | exact H2].
Qed.

Lemma round_small (p : float) (m : positive) (e : Z) :
  Prim2SF p = S754_finite false m e -> e < 0 -> Z.pos m <= 100 * 2 ^ (- e) ->
  exists n, (n <= 100)%N
            /\ Number_toString (Math_round p) = decimal n
            /\ (Math_round p =? Number_of_N n)%float = true.
Proof.
  intros E He Hm. unfold Math_round. rewrite E.
  destruct (Z.leb_spec 0 e) as [Hge | _]; [lia|]. cbv zeta.
  assert (HD : 0 < 2 ^ (- e)) by (apply Z.pow_pos_nonneg; lia).
  set (D := 2 ^ (- e)) in *.
  assert (Hn : 0 <= (2 * Z.pos m + D) / (2 * D) <= 100).
  { split; [apply Z.div_pos; lia|].
    assert ((2 * Z.pos m + D) / (2 * D) < 101); [|lia].
    apply Z.div_lt_upper_bound; lia. }
  destruct ((2 * Z.pos m + D) / (2 * D)) as [|q|q]; [| |lia].
  - exists 0%N. split; [lia|]. split; vm_compute; reflexivity.
  - exists (N.pos q). assert (Hq : (N.pos q <= 100)%N) by lia.
    split; [exact Hq|]. exact (small_number (N.pos q) Hq).
Qed.

(** C8: [toPercent] shows the placeholder for every value that is no
    number; for a number it shows the digits of [Math.round(score * 100)];
    and for a score between 0 and 1 that is an integer between 0 and
    100, written in decimal.  It is a total function: there is no input
    on which it throws. *)
Theorem toPercent_spec (score01 : value) :
  (is_number score01 = false -> toPercent score01 = EM_DASH)
  /\ (forall x, score01 = VNum x ->
        toPercent score01 = Number_toString (Math_round (x * 100))
        /\ ((0 <=? x)%float = true -> (x <=? 1)%float = true ->
            exists n, (n <= 100)%N
                      /\ toPercent score01 = decimal n
                      /\ (Math_round (x * 100) =? Number_of_N n)%float = true)).
Proof.
  split.
  - now destruct score01.
  - intros x ->. split; [reflexivity|]. intros H0 H1. cbn [toPercent].
    destruct (hundredfold x H0 H1) as [[s E] | [m [e [E [He Hm]]]]].
    + exists 0%N. split; [lia|].
      unfold Math_round, Number_toString. rewrite E. cbn iota. rewrite E.
      split; [reflexivity|]. rewrite FloatAxioms.eqb_spec, E. now destruct s.
    + destruct (Z.eq_dec e 0) as [-> | Hne].
      * exfalso. pose proof (Prim2SF_valid (x * 100)%float) as V.
        rewrite E in V. cbn [valid_binary] in V.
        unfold bounded, canonical_mantissa in V.
        apply andb_true_iff in V as [V _]. apply Z.eqb_eq in V.
        unfold fexp, SpecFloat.emin, prec, emax in V.
        change IntDef.Z.max with Z.max in V.
        assert (Hd : Z.pos (digits2_pos m) - 1 = 52) by lia.
        pose proof (digits2_pos_bounds m) as [Hlo _]. rewrite Hd in Hlo.
        change (2 ^ 52) with 4503599627370496 in Hlo.
        change (100 * 2 ^ (- 0)) with 100 in Hm. lia.
      * apply (round_small _ _ _ E); [lia | exact Hm].
Qed.

End WithPlatform.

End Percent.

(* ================================================================== *)
(** * The submit handler *)
(* ================================================================== *)

Module Submit.
Import Report Spec Notions StringFacts Opportunities Vitals.

#[local] Open Scope nat_scope.

(** ** What the [catch] block shows *)

Lemma sanitize_eq (raw : jsstring) :
  App.sanitize raw = firstn 220 (trim (collapse (strip raw))).
Proof. reflexivity. Qed.

Lemma sanitize_length (raw : jsstring) : List.length (App.sanitize raw) <= 220.
Proof. rewrite sanitize_eq, length_firstn. lia. Qed.

Lemma sanitize_no_tag (raw : jsstring) : no_tag (App.sanitize raw) = true.
Proof.
  rewrite sanitize_eq.
  pose proof (collapse_no_tag (strip raw) 0 (strip_no_tag raw 0)) as H.
  fold (collapse (strip raw)) in H.
  destruct (trim_split (collapse (strip raw))) as [a [b [E _]]].
  rewrite E in H. apply no_tag_app in H as [_ H]. apply no_tag_app in H as [H _].
  rewrite <- (firstn_skipn 220 (trim (collapse (strip raw)))) in H.
  now apply no_tag_app in H as [H _].
Qed.

Lemma sanitize_single_spaced (raw : jsstring) :
  single_spaced (App.sanitize raw) = true.
Proof.
  rewrite sanitize_eq.
  pose proof (collapse_single_spaced (strip raw)) as H.
  destruct (trim_split (collapse (strip raw))) as [a [b [E _]]].
  rewrite E in H. apply single_spaced_app in H as [_ H].
  apply single_spaced_app in H as [H _].
  rewrite <- (firstn_skipn 220 (trim (collapse (strip raw)))) in H.
  now apply single_spaced_app in H as [H _].
Qed.

Lemma sanitize_trimmed (raw : jsstring) :
  exists t, trimmed t /\ App.sanitize raw = firstn 220 t.
Proof.
  exists (trim (collapse (strip raw))). split; [apply trim_trimmed | reflexivity].
Qed.

(** ** The list loop *)

Section ListLoop.
Context `{P : Platform}.

(** ToString throws one error only. *)
Lemma ToString_throws : forall (v : value) (e : Error),
  ToString v = Throw e -> e = NotPrimitive.
Proof.
  fix IH 1. intros v e.
  destruct v as [| | b | x | s | elems | props]; cbn [ToString]; try discriminate.
  - revert e. induction elems as [|a l IHl]; intros e H; [discriminate H|].
    destruct (if nullish a then Ok [] else ToString a) as [s | e0] eqn:Ta;
      cbn [bind] in H.
    + destruct l as [|a' l']; [discriminate H|].
      match type of H with
      | bind ?j _ = _ => destruct j as [r | e'] eqn:J
      end; cbn [bind] in H; [discriminate H|].
      injection H as <-. exact (IHl e' eq_refl).
    + injection H as <-. destruct (nullish a); [discriminate Ta|].
      exact (IH a e0 Ta).
  - destruct (lookup (lit "toString") props); [|discriminate]. now intros [= <-].
Qed.

Lemma textContent_value_throws (t : value) (e : Error) :
  textContent_value t = Throw e -> e = NotPrimitive.
Proof.
  unfold textContent_value. destruct (nullish t); [discriminate|].
  apply ToString_throws.
Qed.

Lemma append_items_eq (opps : list value) :
  append_items opps = (map (AppendLi oppsList) (texts opps), stops opps).
Proof.
  induction opps as [|t rest IH]; [reflexivity|].
  cbn [append_items texts stops]. unfold bindE at 1, lift. cbn [fst snd].
  destruct (textContent_value t) as [s | e]; [|reflexivity].
  unfold bindE, emit. cbn [fst snd]. now rewrite IH.
Qed.

(** The loop throws at a value that has no text. *)
Lemma stops_throws (opps : list value) (e : Error) :
  stops opps = Throw e ->
  e = NotPrimitive /\ exists t, In t opps /\ textContent_value t = Throw e.
Proof.
  induction opps as [|t rest IH]; [discriminate|]. cbn [stops].
  destruct (textContent_value t) as [s | e0] eqn:T.
  - intros H. destruct (IH H) as [E [t' [Hin Ht']]].
    split; [exact E|]. exists t'. split; [now right | exact Ht'].
  - intros [= <-]. split; [exact (textContent_value_throws t e0 T)|].
    exists t. split; [now left | exact T].
Qed.

Lemma stops_ok (opps : list value) :
  stops opps = Ok tt <-> Forall (fun t => exists s, textContent_value t = Ok s) opps.
Proof.
  induction opps as [|t rest IH]; [split; [constructor | reflexivity]|].
  cbn [stops]. destruct (textContent_value t) as [s | e] eqn:T.
  - rewrite IH. split; [intros H; constructor; [now exists s | exact H]|].
    intros H. now inversion H.
  - split; [discriminate|]. intros H. inversion H as [|? ? [s Hs] ?]. congruence.
Qed.

Lemma texts_ok (opps : list value) :
  stops opps = Ok tt -> List.length (texts opps) = List.length opps.
Proof.
  induction opps as [|t rest IH]; [reflexivity|]. cbn [stops texts].
  destruct (textContent_value t); [|discriminate].
  intros H. cbn [List.length]. now rewrite (IH H).
Qed.

Lemma texts_short (opps : list value) (e : Error) :
  stops opps = Throw e -> List.length (texts opps) < List.length opps.
Proof.
  induction opps as [|t rest IH]; [discriminate|]. cbn [stops texts].
  destruct (textContent_value t); cbn [List.length]; [|lia].
  intros H. specialize (IH H). lia.
Qed.

Lemma texts_length (opps : list value) :
  List.length (texts opps) <= List.length opps.
Proof.
  induction opps as [|t rest IH]; [reflexivity|]. cbn [texts].
  destruct (textContent_value t); cbn [List.length]; lia.
Qed.

End ListLoop.

(** ** The effects of a handler, one bind at a time *)

Lemma bindE_quiet {A B} (m : Eff A) (k : A -> Eff B) :
  Forall quiet (fst m) -> (forall a, Forall quiet (fst (k a))) ->
  Forall quiet (fst (bindE m k)).
Proof.
  intros Hm Hk. unfold bindE. destruct (snd m); cbn [fst]; [|exact Hm].
  apply Forall_app. split; [exact Hm | apply Hk].
Qed.

Lemma emit_items_quiet (l : list jsstring) :
  Forall quiet (map (AppendLi oppsList) l).
Proof. induction l; constructor; [reflexivity | assumption]. Qed.

Lemma append_items_quiet `{P : Platform} (opps : list value) :
  Forall quiet (fst (append_items opps)).
Proof. rewrite append_items_eq. apply emit_items_quiet. Qed.

Ltac quiet_step :=
  match goal with
  | |- Forall quiet (fst (bindE _ _)) => apply bindE_quiet; [|intros]
  | |- Forall quiet (fst (append_items _)) => apply append_items_quiet
  | |- Forall quiet (fst (if ?b then _ else _)) => destruct b
  | |- Forall quiet (fst (match ?l with [] => _ | _ :: _ => _ end)) => destruct l
  | |- Forall quiet _ => cbn [fst emit ret throw lift fetch]; repeat constructor
  end.

Section WithPlatform.
Context `{P : Platform}.
Variable cfg : App.Config.

Lemma cwv_quiet (m : value) (unit : string) : Forall quiet (fst (App.cwv m unit)).
Proof. rewrite app_cwv_text. constructor. Qed.

Lemma render_quiet (data : value) : Forall quiet (fst (App.render cfg data)).
Proof.
  unfold App.render.
  repeat first [ apply cwv_quiet | quiet_step ].
Qed.

Lemma try_block_quiet (normalized : jsstring) (net : Network) :
  Forall quiet (fst (App.try_block cfg normalized net)).
Proof.
  unfold App.try_block.
  repeat first [ apply render_quiet | quiet_step ].
Qed.

Lemma catch_block_quiet (err : Error) : Forall quiet (App.catch_block err).
Proof. unfold App.catch_block, setStatus. repeat constructor. Qed.

(** Rendering ends as its list loop ends. *)
Lemma render_ends (data : value) : snd (App.render cfg data) = finish data.
Proof.
  unfold App.render, finish.
  rewrite !app_cwv_text, getTopOpportunities_eq.
  unfold bindE, emit, ret, lift. cbn [fst snd]. rewrite append_items_eq.
  cbn [fst snd]. now destruct (stops _) as [[]|].
Qed.

(** The mock report has strings for titles. *)
Lemma mock_finish (url : jsstring) : finish (App.getMockPsiResponse url) = Ok tt.
Proof. reflexivity. Qed.

(** The failures of the [try] block: none in the demo mode; in the live
    mode the missing endpoint, the rejection of the fetch, the body of a
    response that is no success, the body of a success that is no JSON,
    and the title of an opportunity that has no text. *)
Lemma try_block_throws (normalized : jsstring) (net : Network) (err : Error) :
  snd (App.try_block cfg normalized net) = Throw err ->
  App.demo cfg = false
  /\ match App.LIVE_ENDPOINT cfg with
     | [] => err = mkError (lit "Live mode is not configured yet.")
     | endpoint =>
         match net (endpoint ++ lit "?url=" ++ encodeURIComponent normalized) with
         | Rejected e => err = e
         | Resolved res =>
             if ok res then
               match json res with
               | Throw e => err = e
               | Ok data =>
                   err = NotPrimitive
                   /\ exists t,
                        In t (opportunities (optMember data (lit "lighthouseResult")))
                        /\ textContent_value t = Throw err
               end
             else match text res with
                  | Throw e => err = e
                  | Ok [] => err = mkError (lit "Request failed: " ++ decimal (status res))
                  | Ok body => err = mkError body
                  end
         end
     end.
Proof.
  unfold App.try_block. intros H. destruct (App.demo cfg) eqn:D.
  - exfalso. revert H. unfold bindE at 1. cbn [snd fst emit ret bindE].
    rewrite render_ends, mock_finish. discriminate.
  - split; [reflexivity|].
    destruct (App.LIVE_ENDPOINT cfg) as [|c endpoint] eqn:L; revert H.
    + unfold bindE, throw. cbn [snd fst]. now intros [= <-].
    + unfold bindE, fetch. cbn [snd fst emit].
      destruct (net _) as [res | e]; cbn [snd fst]; [|now intros [= <-]].
      destruct (ok res); cbn [negb].
      * destruct (json res) as [data | e]; cbn [snd fst lift emit ret throw];
          [|now intros [= <-]].
        rewrite render_ends. unfold finish. apply stops_throws.
      * destruct (text res) as [[|b body] | e]; cbn [snd fst lift emit ret throw];
          now intros [= <-].
Qed.

(** ** The shape of a run *)

Lemma submit_accepted (input normalized : jsstring) (net : Network) :
  normalizeUrl input = Some normalized -> normalized <> [] ->
  App.submit cfg input net =
  clearing ++ running
    ++ try_catch_finally (App.try_block cfg normalized net) App.catch_block
         (setLoading false).
Proof.
  intros E Hne. unfold App.submit, running. rewrite E.
  destruct normalized; [congruence|]. now rewrite <- app_assoc.
Qed.

Lemma submit_rejected (input : jsstring) (net : Network) :
  rejected (normalizeUrl input) ->
  App.submit cfg input net =
  clearing
    ++ setStatus (CROSS_MARK ++ lit " Please enter a valid URL (example: https://example.com).")
         (lit "bad").
Proof. intros [E | E]; unfold App.submit; now rewrite E. Qed.

Lemma accepted_or_rejected (input : jsstring) :
  rejected (normalizeUrl input)
  \/ exists normalized, normalizeUrl input = Some normalized /\ normalized <> [].
Proof.
  unfold rejected. destruct (normalizeUrl input) as [[|c t]|]; auto.
  right. exists (c :: t). split; [reflexivity | discriminate].
Qed.

End WithPlatform.

(** ** The page after a run *)

Lemma run_app (st : Page.State) (a b : list Event) :
  Page.run st (a ++ b) = Page.run (Page.run st a) b.
Proof. apply fold_left_app. Qed.

Lemma apply_quiet (st : Page.State) (ev : Event) :
  quiet ev -> Page.disabled (Page.apply st ev) runBtn = Page.disabled st runBtn.
Proof.
  unfold quiet. destruct ev; try reflexivity.
  destruct el; cbn; try reflexivity. discriminate.
Qed.

Lemma run_quiet (evs : list Event) :
  Forall quiet evs ->
  forall st, Page.disabled (Page.run st evs) runBtn = Page.disabled st runBtn.
Proof.
  induction 1 as [|ev evs Hq _ IH]; intros st; [reflexivity|].
  cbn [Page.run fold_left]. change (fold_left Page.apply evs ?s) with (Page.run s evs).
  now rewrite IH, apply_quiet.
Qed.

(** A run that went past the validation ends with the button enabled,
    whatever the page was before. *)
Lemma loading_ends (st : Page.State) (mid : list Event) :
  Forall quiet mid ->
  Page.disabled (Page.run st (clearing ++ setLoading true ++ mid ++ setLoading false))
                runBtn = false.
Proof. intros Hq. now rewrite !run_app. Qed.

(** Until then the button is disabled, whatever the page was before. *)
Lemma loading_holds (st : Page.State) (a : list Event) :
  Forall quiet a ->
  Page.disabled (Page.run st (clearing ++ setLoading true ++ a)) runBtn = true.
Proof.
  intros Hq. rewrite app_assoc, run_app, (run_quiet a Hq). now rewrite run_app.
Qed.

(** The first effects hide the results and empty the list. *)
Lemma clearing_clears (st : Page.State) :
  hidden (Page.run st clearing) = true
  /\ Page.items (Page.run st clearing) oppsList = [].
Proof.
  split; [|reflexivity]. unfold hidden, clearing.
  cbn [Page.run fold_left Page.apply Page.classList]. unfold Page.upd.
  destruct (Page.Elem_eq_dec results results) as [_ | N]; [|congruence].
  destruct (existsb (str_eqb (lit "hidden")) (Page.classList st results)) eqn:X;
    [exact X|].
  rewrite existsb_app. cbn [existsb]. rewrite str_eqb_refl. now rewrite orb_true_r.
Qed.

Section Claims.
Context `{P : Platform}.
Variable cfg : App.Config.

(** C7: a failure of the [try] block ends as the status line: the cross
    and the message of the error, with the tags removed, the white space
    collapsed to single spaces, trimmed, and cut to 220 code units.  The
    failures are, in the live mode only: the missing endpoint; the
    rejection of the fetch; a response that is no success, whose error
    carries its body, or [Request failed: status] when the body is
    empty; a success whose body is no JSON; and the [TypeError] of the
    list loop at an opportunity whose title has no text. *)
Theorem failure_status (input normalized : jsstring) (net : Network)
        (st : Page.State) (err : Error) :
  normalizeUrl input = Some normalized -> normalized <> [] ->
  snd (App.try_block cfg normalized net) = Throw err ->
  let raw := App.raw_message err in
  let safe := App.sanitize raw in
  let final := Page.run st (App.submit cfg input net) in
  Page.textContent final statusEl = CROSS_MARK ++ lit " " ++ safe
  /\ Page.className final statusEl = lit "status bad"
  /\ (raw = message err
      \/ message err = [] /\ raw = lit "Something went wrong. Try again.")
  /\ App.demo cfg = false
  /\ match App.LIVE_ENDPOINT cfg with
     | [] => err = mkError (lit "Live mode is not configured yet.")
     | endpoint =>
         match net (endpoint ++ lit "?url=" ++ encodeURIComponent normalized) with
         | Rejected e => err = e
         | Resolved res =>
             if ok res then
               match json res with
               | Throw e => err = e
               | Ok data =>
                   err = NotPrimitive
                   /\ exists t,
                        In t (opportunities (optMember data (lit "lighthouseResult")))
                        /\ textContent_value t = Throw err
               end
             else match text res with
                  | Throw e => err = e
                  | Ok [] => err = mkError (lit "Request failed: " ++ decimal (status res))
                  | Ok body => err = mkError body
                  end
         end
     end
  /\ safe = firstn 220 (trim (collapse (strip raw)))
  /\ List.length safe <= 220
  /\ no_tag safe = true
  /\ single_spaced safe = true
  /\ (exists t, trimmed t /\ safe = firstn 220 t).
Proof.
  intros E Hne T raw safe final.
  split; [|split].
  - subst final. rewrite (submit_accepted cfg input normalized net E Hne).
    unfold try_catch_finally. rewrite T, !run_app. reflexivity.
  - subst final. rewrite (submit_accepted cfg input normalized net E Hne).
    unfold try_catch_finally. rewrite T, !run_app. reflexivity.
  - split.
    { subst raw. unfold App.raw_message. destruct (message err); auto. }
    split; [exact (proj1 (try_block_throws cfg normalized net err T))|].
    split; [exact (proj2 (try_block_throws cfg normalized net err T))|].
    split; [reflexivity|].
    split; [apply sanitize_length|].
    split; [apply sanitize_no_tag|].
    split; [apply sanitize_single_spaced | apply sanitize_trimmed].
Qed.

(** C9: the button of the form.  A run first hides the results and
    empties the list, before any fetch.  A rejected input then writes
    the status only: the button is never written and nothing is
    fetched, so that the button is at every moment what it was.  An
    accepted input disables the button, does its work, where every
    fetch lies and during all of which the button is disabled, and
    enables the button as its last effect, on success and on failure
    alike and whatever the button was before.  A run that starts with
    the button enabled hence ends with it enabled. *)
Theorem submit_button (input : jsstring) (net : Network) (st : Page.State) :
  let evs := App.submit cfg input net in
  (Page.disabled st runBtn = false -> Page.disabled (Page.run st evs) runBtn = false)
  /\ (exists rest, evs = clearing ++ rest)
  /\ Forall (fun ev => is_fetch ev = false) (clearing ++ setLoading true)
  /\ hidden (Page.run st clearing) = true
  /\ Page.items (Page.run st clearing) oppsList = []
  /\ (rejected (normalizeUrl input) ->
      Forall quiet evs /\ Forall (fun ev => is_fetch ev = false) evs
      /\ forall a b, evs = a ++ b ->
                     Page.disabled (Page.run st a) runBtn = Page.disabled st runBtn)
  /\ (~ rejected (normalizeUrl input) ->
      exists mid,
        evs = clearing ++ setLoading true ++ mid ++ setLoading false
        /\ Forall quiet mid
        /\ (forall a b, mid = a ++ b ->
              Page.disabled (Page.run st (clearing ++ setLoading true ++ a)) runBtn
              = true)
        /\ Page.disabled (Page.run st evs) runBtn = false).
Proof.
  intros evs.
  assert (Hrej : rejected (normalizeUrl input) ->
                 Forall quiet evs /\ Forall (fun ev => is_fetch ev = false) evs
                 /\ forall a b, evs = a ++ b ->
                      Page.disabled (Page.run st a) runBtn = Page.disabled st runBtn).
  { intros R. subst evs. rewrite (submit_rejected cfg input net R).
    assert (Q : Forall quiet
                  (clearing
                     ++ setStatus
                          (CROSS_MARK
                             ++ lit " Please enter a valid URL (example: https://example.com).")
                          (lit "bad"))) by repeat constructor.
    split; [exact Q|]. split; [repeat constructor|].
    intros a b Hab. rewrite Hab in Q. apply Forall_app in Q as [Qa _].
    now apply run_quiet. }
  assert (Hacc : ~ rejected (normalizeUrl input) ->
                 exists mid,
                   evs = clearing ++ setLoading true ++ mid ++ setLoading false
                   /\ Forall quiet mid
                   /\ (forall a b, mid = a ++ b ->
                         Page.disabled
                           (Page.run st (clearing ++ setLoading true ++ a)) runBtn
                         = true)
                   /\ Page.disabled (Page.run st evs) runBtn = false).
  { intros NR. destruct (accepted_or_rejected input) as [R | [n [E Hne]]];
      [contradiction|].
    subst evs. rewrite (submit_accepted cfg input n net E Hne).
    unfold running, try_catch_finally.
    set (mid := setStatus (lit "Running mobile Lighthouse audit" ++ ELLIPSIS) []
                ++ fst (App.try_block cfg n net)
                ++ match snd (App.try_block cfg n net) with
                   | Ok _ => []
                   | Throw err => App.catch_block err
                   end).
    assert (Q : Forall quiet mid).
    { apply Forall_app. split; [repeat constructor|].
      apply Forall_app. split; [apply try_block_quiet|].
      destruct (snd (App.try_block cfg n net));
        [constructor | apply catch_block_quiet]. }
    assert (S : clearing
                  ++ (setLoading true
                        ++ setStatus (lit "Running mobile Lighthouse audit" ++ ELLIPSIS) [])
                  ++ fst (App.try_block cfg n net)
                  ++ match snd (App.try_block cfg n net) with
                     | Ok _ => []
                     | Throw err => App.catch_block err
                     end ++ setLoading false
                = clearing ++ setLoading true ++ mid ++ setLoading false).
    { subst mid. now rewrite <- !app_assoc. }
    exists mid. split; [exact S|]. split; [exact Q|]. split.
    - intros a b Hab. rewrite Hab in Q. apply Forall_app in Q as [Qa _].
      now apply loading_holds.
    - rewrite S. now apply loading_ends. }
  split; [|split; [|split; [repeat constructor
                           |split; [apply clearing_clears
                                   |split; [apply clearing_clears
                                           |split; assumption]]]]].
  - intros Hst. destruct (accepted_or_rejected input) as [R | [n [E Hne]]].
    + rewrite (run_quiet evs (proj1 (Hrej R))). exact Hst.
    + assert (NR : ~ rejected (normalizeUrl input)).
      { intros [R | R]; rewrite E in R; [discriminate|]. injection R as ->. congruence. }
      destruct (Hacc NR) as [mid [_ [_ [_ H]]]]. exact H.
  - unfold evs, App.submit. eexists. reflexivity.
Qed.

End Claims.

(** The reply 404 [Not Found] of the proxy in the live mode: the status
    line reads the cross and [Not Found]. *)
Lemma failure_status_witness :
  Page.textContent
    (Page.run idle (@App.submit Sample.platform live_config (lit "example.com")
                      (fun _ => Resolved not_found)))
    statusEl
  = CROSS_MARK ++ lit " Not Found"
  /\ contains (CROSS_MARK ++ lit " Not Found") (lit "Not Found").
Proof.
  split.
  - pose proof (@failure_status Sample.platform live_config
                  (lit "example.com") (lit "https://example.com/")
                  (fun _ => Resolved not_found) idle (mkError (lit "Not Found"))
                  eq_refl ltac:(discriminate) eq_refl) as [H _].
    exact H.
  - exists (CROSS_MARK ++ lit " "), []. reflexivity.
Defined.

(** The demo mode on [example.com], from the idle page. *)
Lemma submit_button_witness :
  Page.disabled
    (Page.run idle (@App.submit Sample.platform App.source_config (lit "example.com")
                      (fun _ => Rejected (mkError (lit "offline")))))
    runBtn = false.
Proof.
  exact (proj1 (@submit_button Sample.platform App.source_config (lit "example.com")
                  (fun _ => Rejected (mkError (lit "offline"))) idle) eq_refl).
Defined.

(** A 404 page: the tags go, the white space collapses. *)
Lemma sanitize_page :
  App.sanitize (lit "<html>" ++ [10%N] ++ lit "  <body><h1>404   Not Found</h1>"
                  ++ [13%N; 10%N] ++ lit "</body></html>" ++ [10%N])
  = lit "404 Not Found".
Proof. vm_compute. reflexivity. Qed.

(** A title that has no text: the status line reads the cross and the
    message of the [TypeError], and the results stay hidden. *)
Lemma odd_title_run :
  let final :=
    Page.run idle (@App.submit Sample.platform live_config (lit "example.com")
                     (fun _ => Resolved odd_reply)) in
  Page.textContent final statusEl
  = CROSS_MARK ++ lit " Cannot convert object to primitive value"
  /\ Page.className final statusEl = lit "status bad"
  /\ hidden final = true
  /\ Page.items final oppsList = [].
Proof. repeat split; vm_compute; reflexivity. Qed.

(** ** The live-only client *)

Section LiveOnlyClient.
Context `{P : Platform}.

Lemma live_cwv_quiet (m : value) (unit : string) :
  Forall quiet (fst (LiveOnly.cwv m unit)).
Proof. rewrite live_cwv_text. constructor. Qed.

Lemma live_inp_quiet (inp fid : value) :
  Forall quiet (fst (LiveOnly.inp_or_fid inp fid)).
Proof. rewrite inp_or_fid_text. constructor. Qed.

Lemma live_try_block_quiet (normalized : jsstring) (net : Network) :
  Forall quiet (fst (LiveOnly.try_block normalized net)).
Proof.
  unfold LiveOnly.try_block, LiveOnly.render.
  repeat first [ apply live_cwv_quiet | apply live_inp_quiet | quiet_step ].
Qed.

Lemma live_catch_block_quiet (err : Error) : Forall quiet (LiveOnly.catch_block err).
Proof. unfold LiveOnly.catch_block, setStatus. repeat constructor. Qed.

(** The button of the live-only client: the same discipline. *)
Lemma live_submit_button (input : jsstring) (net : Network) (st : Page.State) :
  Page.disabled st runBtn = false ->
  Page.disabled (Page.run st (LiveOnly.submit input net)) runBtn = false
  /\ (forall normalized,
        normalizeUrl input = Some normalized -> normalized <> [] ->
        exists mid,
          LiveOnly.submit input net
          = clearing ++ setLoading true ++ mid ++ setLoading false
          /\ Forall quiet mid).
Proof.
  intros Hst. split.
  - unfold LiveOnly.submit. destruct (normalizeUrl input) as [[|c t]|].
    + rewrite run_quiet; [exact Hst | repeat constructor].
    + unfold try_catch_finally. rewrite !app_assoc, run_app. reflexivity.
    + rewrite run_quiet; [exact Hst | repeat constructor].
  - intros n E Hne. unfold LiveOnly.submit. rewrite E.
    destruct n as [|c t]; [congruence|]. unfold try_catch_finally.
    exists (setStatus (lit "Running mobile Lighthouse audit" ++ ELLIPSIS) []
            ++ fst (LiveOnly.try_block (c :: t) net)
            ++ match snd (LiveOnly.try_block (c :: t) net) with
               | Ok _ => []
               | Throw err => LiveOnly.catch_block err
               end).
    split; [now rewrite <- !app_assoc|].
    apply Forall_app. split; [repeat constructor|].
    apply Forall_app. split; [apply live_try_block_quiet|].
    destruct (snd (LiveOnly.try_block (c :: t) net));
      [constructor | apply live_catch_block_quiet].
Qed.

End LiveOnlyClient.

(** The [catch] block of the live-only client shows the message as it
    is, tags included. *)
Lemma live_catch_block_as_is :
  LiveOnly.catch_block (mkError (lit "<h1>Not Found</h1>"))
  = setStatus (CROSS_MARK ++ lit " <h1>Not Found</h1>") (lit "bad")
  /\ App.catch_block (mkError (lit "<h1>Not Found</h1>"))
     = setStatus (CROSS_MARK ++ lit " Not Found") (lit "bad").
Proof. split; vm_compute; reflexivity. Qed.

(** ** The demo run of the specification

    [example.com] in the demo mode: the normalised URL has 20 code units,
    the offset is 0, and the page shows 72, 88, 86 and 84, [2.5 s],
    [190 ms], [8] and the five opportunities of the mock report. *)
Lemma demo_run :
  let final :=
    Page.run idle (@App.submit Sample.platform App.source_config (lit "example.com")
                     (fun _ => Rejected (mkError (lit "offline")))) in
  map (Page.textContent final) [perfScore; a11yScore; bpScore; seoScore]
  = [lit "72"; lit "88"; lit "86"; lit "84"]
  /\ map (Page.textContent final) [lcpEl; inpEl; clsEl]
     = [lit "2.5 s"; lit "190 ms"; lit "8"]
  /\ Page.items final oppsList
     = [ lit "Improve Largest Contentful Paint";
         lit "Eliminate render-blocking resources";
         lit "Reduce unused JavaScript";
         lit "Reduce unused CSS";
         lit "Defer offscreen images" ]
  /\ Page.classList final results = []
  /\ Page.disabled final runBtn = false
  /\ Page.textContent final statusEl
     = CHECK_MARK ++ lit " Demo report complete (mock data).".
Proof. repeat split; vm_compute; reflexivity. Qed.

End Submit.

(* ================================================================== *)
(** * More about the input and the messages *)
(* ================================================================== *)

Module Inputs.
Import Report Spec Notions StringFacts.

#[local] Arguments N.eqb : simpl never.
#[local] Open Scope nat_scope.

(** ** White space around a string *)

Lemma trimStart_app_blank (a s : jsstring) :
  blank a -> trimStart (a ++ s) = trimStart s.
Proof.
  unfold blank. induction a as [|c a IH]; [reflexivity|].
  cbn [forallb app trimStart]. intros H. apply andb_prop in H as [Hc Ha].
  rewrite Hc. auto.
Qed.

Lemma trimStart_app_keep (s b : jsstring) :
  trimStart s <> [] -> trimStart (s ++ b) = trimStart s ++ b.
Proof.
  induction s as [|c s IH]; [now intros []|].
  cbn [app trimStart]. destruct (isWhiteSpace c); [exact IH | reflexivity].
Qed.

Lemma blank_rev (s : jsstring) : blank s -> blank (rev s).
Proof.
  unfold blank. rewrite !forallb_forall. intros H x Hx. apply H.
  now apply in_rev.
Qed.

Lemma trimEnd_app_blank (s b : jsstring) :
  blank b -> trimEnd (s ++ b) = trimEnd s.
Proof.
  intros Hb. unfold trimEnd. rewrite rev_app_distr.
  now rewrite trimStart_app_blank by now apply blank_rev.
Qed.

Lemma trim_outer (a s b : jsstring) :
  blank a -> blank b -> trim (a ++ s ++ b) = trim s.
Proof.
  intros Ha Hb. unfold trim. rewrite (trimStart_app_blank a _ Ha).
  destruct (trimStart s) as [|c t] eqn:E.
  - apply trimStart_blank in E.
    rewrite (trimStart_app_blank s b E).
    now rewrite (proj1 (trimStart_blank b) Hb).
  - rewrite trimStart_app_keep by (rewrite E; discriminate).
    rewrite E. now apply trimEnd_app_blank.
Qed.

(** A code unit that is no white space shields what is before it. *)
Lemma trimEnd_keep (a b : jsstring) (c : char16) :
  isWhiteSpace c = false -> trimEnd (a ++ c :: b) = a ++ c :: trimEnd b.
Proof.
  intros Hc. unfold trimEnd.
  rewrite rev_app_distr. cbn [rev]. rewrite <- app_assoc. cbn [app].
  destruct (trimStart (rev b)) as [|d t] eqn:E.
  - apply trimStart_blank in E. rewrite (trimStart_app_blank _ _ E).
    cbn [trimStart]. rewrite Hc. cbn [rev]. now rewrite rev_involutive.
  - rewrite trimStart_app_keep by (rewrite E; discriminate).
    rewrite E, rev_app_distr. cbn [rev]. rewrite rev_involutive, <- !app_assoc.
    reflexivity.
Qed.

Lemma trimEnd_fixed (s : jsstring) (d : char16) :
  s <> [] -> isWhiteSpace (last s d) = false -> trimEnd s = s.
Proof.
  intros Hne Hl. destruct (exists_last Hne) as [a [c ->]].
  rewrite last_last in Hl.
  change (a ++ [c]) with (a ++ c :: []). now rewrite trimEnd_keep.
Qed.

Lemma trim_of_trimmed (s : jsstring) : trimmed s -> trim s = s.
Proof.
  destruct s as [|c t]; [reflexivity|]. intros [H1 H2].
  now apply Normalize.trim_fixed.
Qed.

Section WithPlatform.
Context `{P : Platform}.

(** X1: white space before and after the input is of no account:
    [normalizeUrl] gives the same for an input and for that input with
    white space of any kind and length put before and after it. *)
Theorem normalizeUrl_outer_space (a s b : jsstring) :
  blank a -> blank b -> normalizeUrl (a ++ s ++ b) = normalizeUrl s.
Proof.
  intros Ha Hb. rewrite !Normalize.normalizeUrl_unfold.
  now rewrite (trim_outer a s b Ha Hb).
Qed.

End WithPlatform.

(** Two spaces before [example.com], a tab and a line feed after it. *)
Lemma normalizeUrl_outer_space_witness :
  @normalizeUrl Sample.platform (lit "  " ++ lit "example.com" ++ [9%N; 10%N])
  = @normalizeUrl Sample.platform (lit "example.com").
Proof.
  apply (@normalizeUrl_outer_space Sample.platform (lit "  ") (lit "example.com")
           [9%N; 10%N]); reflexivity.
Defined.

(** ** The class of the status line *)

(** X2: [setStatus] writes the message and a class that starts with
    [status] and carries no white space at its ends: [status] alone for
    a type that is empty or blank, [status] and the type, one space
    between them, for a type that is trimmed. *)
Theorem setStatus_class (msg type : jsstring) :
  exists c,
    setStatus msg type = [ SetTextContent statusEl msg; SetClassName statusEl c ]
    /\ prefix_of (lit "status") c
    /\ trimmed c
    /\ (blank type -> c = lit "status")
    /\ (type <> [] -> trimmed type -> c = lit "status " ++ type).
Proof.
  exists (trim (lit "status " ++ type)).
  assert (E : trim (lit "status " ++ type) = lit "status" ++ trimEnd (SPACE :: type)).
  { unfold trim. change (lit "status " ++ type) with (115%N :: lit "tatus " ++ type).
    rewrite trimStart_fixed by reflexivity.
    change (115%N :: lit "tatus " ++ type)
      with (lit "statu" ++ 115%N :: SPACE :: type).
    now rewrite trimEnd_keep by reflexivity. }
  split; [reflexivity|]. split; [|split; [|split]].
  - rewrite E. now exists (trimEnd (SPACE :: type)).
  - apply trim_trimmed.
  - intros Hb. rewrite E.
    change (SPACE :: type) with ([] ++ [SPACE] ++ type).
    rewrite <- (app_nil_r ([] ++ [SPACE] ++ type)).
    enough (T : trimEnd (([] ++ [SPACE] ++ type) ++ []) = []) by now rewrite T.
    cbn [app]. rewrite app_nil_r.
    change (SPACE :: type) with ([] ++ (SPACE :: type)).
    rewrite trimEnd_app_blank; [reflexivity|].
    unfold blank. cbn [forallb]. now rewrite Hb.
  - intros Hne Ht. rewrite E. destruct type as [|c t]; [congruence|].
    destruct Ht as [_ Hl].
    rewrite (trimEnd_fixed (SPACE :: c :: t) c); [reflexivity | discriminate |].
    exact Hl.
Qed.

(** ** The sanitised message *)

Lemma replaceAll_length (m : jsstring -> option nat) (r s : jsstring) :
  List.length r <= 1 ->
  forall k, List.length (replaceAll m r k s) <= List.length s.
Proof.
  intros Hr. induction s as [|c s IH]; intros k; [reflexivity|].
  cbn [replaceAll]. destruct k as [|k].
  - destruct (m (c :: s)) as [[|l]|]; cbn [List.length];
      try (specialize (IH 0); lia).
    rewrite length_app. specialize (IH l). lia.
  - specialize (IH k). cbn [List.length]. lia.
Qed.

Lemma strip_in (x : char16) (s : jsstring) :
  forall k, In x (replaceAll match_tag [] k s) -> In x s.
Proof.
  induction s as [|c s IH]; intros k; [intros []|].
  cbn [replaceAll]. destruct k as [|k].
  - destruct (match_tag (c :: s)) as [[|l]|]; cbn [app In]; intros H;
      try (destruct H as [H | H]; [now left | right; now apply (IH 0)]).
    right. now apply (IH l).
  - intros H. right. now apply (IH k).
Qed.

Lemma collapse_in (x : char16) (s : jsstring) :
  forall k, In x (replaceAll match_ws [SPACE] k s) -> x = SPACE \/ In x s.
Proof.
  induction s as [|c s IH]; intros k; [intros []|].
  destruct k as [|k].
  - rewrite replaceAll_ws_cons. destruct (isWhiteSpace c); cbn [In]; intros [H | H].
    + now left.
    + destruct (IH _ H); auto.
    + auto.
    + destruct (IH _ H); auto.
  - cbn [replaceAll]. intros H. destruct (IH _ H); auto. right. now right.
Qed.

Lemma trim_in (x : char16) (s : jsstring) : In x (trim s) -> In x s.
Proof.
  intros H. destruct (trim_split s) as [a [b [E _]]]. rewrite E.
  apply in_or_app. right. apply in_or_app. now left.
Qed.

Lemma firstn_in (x : char16) (n : nat) (s : jsstring) : In x (firstn n s) -> In x s.
Proof.
  intros H. rewrite <- (firstn_skipn n s). apply in_or_app. now left.
Qed.

Lemma trim_length (s : jsstring) : List.length (trim s) <= List.length s.
Proof.
  destruct (trim_split s) as [a [b [E _]]]. rewrite E at 2.
  rewrite !length_app. lia.
Qed.

(** X3: the [catch] block only takes away: what it shows is never
    longer than the message, and each of its code units is a code unit
    of the message or a space. *)
Theorem sanitize_takes_away (raw : jsstring) :
  List.length (App.sanitize raw) <= List.length raw
  /\ forall c, In c (App.sanitize raw) -> c = SPACE \/ In c raw.
Proof.
  rewrite Submit.sanitize_eq. split.
  - rewrite length_firstn.
    pose proof (trim_length (collapse (strip raw))) as H1.
    pose proof (replaceAll_length match_ws [SPACE] (strip raw) (le_n 1) 0) as H2.
    pose proof (replaceAll_length match_tag [] raw (le_S _ _ (le_n 0)) 0) as H3.
    fold (strip raw) in H3. fold (collapse (strip raw)) in H2. lia.
  - intros c H. apply firstn_in, trim_in in H.
    apply collapse_in in H as [H | H]; [now left | right].
    now apply strip_in in H.
Qed.

Lemma indexOfGT_absent (s : jsstring) :
  existsb (N.eqb GT) s = false -> indexOfGT s = None.
Proof.
  induction s as [|c s IH]; [reflexivity|].
  cbn [existsb indexOfGT]. intros E. apply orb_false_iff in E as [E1 E2].
  rewrite N.eqb_sym in E1. rewrite E1, (IH E2). reflexivity.
Qed.

Lemma strip_fixed (s : jsstring) : no_tag s = true -> strip s = s.
Proof.
  unfold strip. induction s as [|c s IH]; [reflexivity|].
  cbn [no_tag]. intros E. apply andb_true_iff in E as [E1 E2].
  cbn [replaceAll match_tag]. destruct (N.eqb c LT); cbn [negb orb] in E1.
  - apply negb_true_iff in E1. rewrite (indexOfGT_absent s E1). cbn [option_map].
    now rewrite (IH E2).
  - now rewrite (IH E2).
Qed.

Lemma collapse_fixed (s : jsstring) : single_spaced s = true -> collapse s = s.
Proof.
  induction s as [|c s IH]; [reflexivity|].
  change (single_spaced (c :: s)) with
    ((negb (isWhiteSpace c)
      || N.eqb c SPACE
         && match s with d :: _ => negb (isWhiteSpace d) | [] => true end)
     && single_spaced s).
  intros E. apply andb_true_iff in E as [E1 E2].
  rewrite collapse_cons. destruct (isWhiteSpace c); cbn [negb orb] in E1.
  - apply andb_true_iff in E1 as [C D]. apply N.eqb_eq in C. subst c.
    destruct s as [|d s]; [reflexivity|].
    apply negb_true_iff in D. cbn [spanWhiteSpace]. rewrite D. cbn [skipn].
    now rewrite (IH E2).
  - now rewrite (IH E2).
Qed.

(** X4: a message that is clean already is shown as it is: no [<]
    with a [>] behind it, white space only as single spaces between
    words, none at the ends, and at most 220 code units. *)
Theorem sanitize_fixed (raw : jsstring) :
  no_tag raw = true -> single_spaced raw = true -> trimmed raw ->
  List.length raw <= 220 ->
  App.sanitize raw = raw.
Proof.
  intros H1 H2 H3 H4. rewrite Submit.sanitize_eq.
  rewrite (strip_fixed raw H1), (collapse_fixed raw H2), (trim_of_trimmed raw H3).
  now apply firstn_all2.
Qed.

Lemma sanitize_fixed_witness : App.sanitize (lit "Not Found") = lit "Not Found".
Proof.
  apply (sanitize_fixed (lit "Not Found")); [reflexivity | reflexivity | | ].
  - split; reflexivity.
  - simpl. lia.
Defined.

(** X5: what a second pass of the sanitiser would change is one space
    at the end, which the cut to 220 code units can leave behind a
    word: the second pass is [trimEnd] of the first, and changes nothing
    when the first pass had nothing to cut. *)
Theorem sanitize_twice (raw : jsstring) :
  App.sanitize (App.sanitize raw) = trimEnd (App.sanitize raw)
  /\ (List.length (trim (collapse (strip raw))) <= 220 ->
      App.sanitize (App.sanitize raw) = App.sanitize raw).
Proof.
  assert (A : App.sanitize (App.sanitize raw) = trimEnd (App.sanitize raw)).
  { rewrite (Submit.sanitize_eq (App.sanitize raw)).
    rewrite (strip_fixed _ (Submit.sanitize_no_tag raw)).
    rewrite (collapse_fixed _ (Submit.sanitize_single_spaced raw)).
    rewrite firstn_all2.
    2:{ pose proof (trim_length (App.sanitize raw)).
        pose proof (Submit.sanitize_length raw). lia. }
    unfold trim. f_equal.
    rewrite Submit.sanitize_eq.
    pose proof (trim_trimmed (collapse (strip raw))) as T.
    destruct (trim (collapse (strip raw))) as [|c t]; [reflexivity|].
    destruct T as [T _]. cbn [firstn]. now apply trimStart_fixed. }
  split; [exact A|].
  intros L. rewrite A, Submit.sanitize_eq, firstn_all2 by exact L.
  pose proof (trim_trimmed (collapse (strip raw))) as T.
  destruct (trim (collapse (strip raw))) as [|c t] eqn:E; [reflexivity|].
  destruct T as [_ T]. apply (trimEnd_fixed _ c); [discriminate | exact T].
Qed.

End Inputs.

(* ================================================================== *)
(** * More about the runs of the clients *)
(* ================================================================== *)

Module Runs.
Import Report Spec Notions StringFacts Opportunities Vitals.

#[local] Open Scope nat_scope.

(** ** The fields of the page after a run *)

Lemma text_run (el : Elem) (evs : list Event) :
  forall st, Page.textContent (Page.run st evs) el
             = text_after el (Page.textContent st el) evs.
Proof.
  induction evs as [|ev evs IH]; intros st; [reflexivity|].
  unfold Page.run, text_after. cbn [fold_left].
  change (fold_left Page.apply evs ?s) with (Page.run s evs).
  change (fold_left (text_step el) evs ?t) with (text_after el t evs).
  rewrite IH. f_equal.
  destruct ev; cbn [Page.apply Page.textContent text_step]; try reflexivity;
    unfold Page.upd; destruct (Page.Elem_eq_dec el el0); reflexivity.
Qed.

Lemma class_run (el : Elem) (evs : list Event) :
  forall st, Page.className (Page.run st evs) el
             = class_after el (Page.className st el) evs.
Proof.
  induction evs as [|ev evs IH]; intros st; [reflexivity|].
  unfold Page.run, class_after. cbn [fold_left].
  change (fold_left Page.apply evs ?s) with (Page.run s evs).
  change (fold_left (class_step el) evs ?t) with (class_after el t evs).
  rewrite IH. f_equal.
  destruct ev; cbn [Page.apply Page.className class_step]; try reflexivity;
    unfold Page.upd; destruct (Page.Elem_eq_dec el el0); reflexivity.
Qed.

Lemma items_run (el : Elem) (evs : list Event) :
  forall st, Page.items (Page.run st evs) el
             = items_after el (Page.items st el) evs.
Proof.
  induction evs as [|ev evs IH]; intros st; [reflexivity|].
  unfold Page.run, items_after. cbn [fold_left].
  change (fold_left Page.apply evs ?s) with (Page.run s evs).
  change (fold_left (items_step el) evs ?t) with (items_after el t evs).
  rewrite IH. f_equal.
  destruct ev; cbn [Page.apply Page.items items_step]; try reflexivity;
    unfold Page.upd; destruct (Page.Elem_eq_dec el el0) as [<- | N];
    try reflexivity.
Qed.

Lemma existsb_hidden_app (l : list jsstring) (tok : jsstring) :
  existsb (str_eqb (lit "hidden")) (l ++ [tok])
  = existsb (str_eqb (lit "hidden")) l || str_eqb (lit "hidden") tok.
Proof. rewrite existsb_app. cbn [existsb]. now rewrite orb_false_r. Qed.

Lemma existsb_hidden_remove (l : list jsstring) (tok : jsstring) :
  existsb (str_eqb (lit "hidden")) (Page.remove_tok tok l)
  = existsb (str_eqb (lit "hidden")) l && negb (str_eqb (lit "hidden") tok).
Proof.
  unfold Page.remove_tok. induction l as [|t l IH]; [reflexivity|].
  cbn [filter existsb].
  destruct (str_eqb t tok) eqn:E; cbn [negb existsb].
  - apply str_eqb_eq in E. subst t. rewrite IH.
    destruct (str_eqb (lit "hidden") tok); cbn [orb negb];
      [now rewrite !andb_false_r | now rewrite andb_true_r].
  - rewrite IH. destruct (str_eqb (lit "hidden") t) eqn:T; cbn [orb]; [|reflexivity].
    apply str_eqb_eq in T. subst t.
    rewrite E. cbn [negb]. now rewrite andb_true_r.
Qed.

Lemma hidden_run (evs : list Event) :
  forall st, hidden (Page.run st evs) = hidden_after (hidden st) evs.
Proof.
  induction evs as [|ev evs IH]; intros st; [reflexivity|].
  unfold Page.run, hidden_after. cbn [fold_left].
  change (fold_left Page.apply evs ?s) with (Page.run s evs).
  change (fold_left hidden_step evs ?t) with (hidden_after t evs).
  rewrite IH. f_equal. unfold hidden.
  destruct ev; try reflexivity;
    destruct el; try reflexivity;
    cbn [Page.apply Page.classList hidden_step]; unfold Page.upd;
    (destruct (Page.Elem_eq_dec results results) as [_ | N]; [|congruence]).
  - destruct (existsb (str_eqb tok) (Page.classList st results)) eqn:X.
    + destruct (str_eqb (lit "hidden") tok) eqn:T; [|now rewrite orb_false_r].
      apply str_eqb_eq in T. subst tok. now rewrite X.
    + apply existsb_hidden_app.
  - apply existsb_hidden_remove.
Qed.

Lemma fetches_app (a b : list Event) : fetches (a ++ b) = fetches a ++ fetches b.
Proof.
  induction a as [|ev a IH]; [reflexivity|].
  destruct ev; cbn [app fetches]; now rewrite IH.
Qed.

Lemma text_after_app (el : Elem) (t : jsstring) (a b : list Event) :
  text_after el t (a ++ b) = text_after el (text_after el t a) b.
Proof. apply fold_left_app. Qed.

Lemma class_after_app (el : Elem) (c : jsstring) (a b : list Event) :
  class_after el c (a ++ b) = class_after el (class_after el c a) b.
Proof. apply fold_left_app. Qed.

Lemma items_after_app (el : Elem) (l : list jsstring) (a b : list Event) :
  items_after el l (a ++ b) = items_after el (items_after el l a) b.
Proof. apply fold_left_app. Qed.

Lemma hidden_after_app (h : bool) (a b : list Event) :
  hidden_after h (a ++ b) = hidden_after (hidden_after h a) b.
Proof. apply fold_left_app. Qed.

(** The list items leave everything but the list alone. *)
Section Listed.
Context `{P : Platform}.
Variable data : value.

Lemma fetches_listed : fetches (listed data) = [].
Proof. unfold listed. now induction (texts _). Qed.

Lemma text_after_listed (el : Elem) (t : jsstring) :
  text_after el t (listed data) = t.
Proof. unfold listed. now induction (texts _). Qed.

Lemma class_after_listed (el : Elem) (c : jsstring) :
  class_after el c (listed data) = c.
Proof. unfold listed. now induction (texts _). Qed.

Lemma hidden_after_listed (h : bool) : hidden_after h (listed data) = h.
Proof. unfold listed. now induction (texts _). Qed.

Lemma items_after_listed (l : list jsstring) :
  items_after oppsList l (listed data)
  = l ++ texts (opportunities (optMember data (lit "lighthouseResult"))).
Proof.
  unfold listed. revert l.
  induction (texts _) as [|t ts IH]; intros l; [now rewrite app_nil_r|].
  cbn [map]. unfold items_after. cbn [fold_left items_step].
  change (fold_left (items_step oppsList) ?e ?x) with (items_after oppsList x e).
  destruct (Page.Elem_eq_dec oppsList oppsList) as [_ | N]; [|congruence].
  now rewrite IH, <- app_assoc.
Qed.

End Listed.

(** The items of a loop that did not throw are the texts of the values. *)
Lemma texts_all `{P : Platform} (opps : list value) :
  stops opps = Ok tt ->
  Forall2 (fun t s => textContent_value t = Ok s) opps (texts opps).
Proof.
  induction opps as [|t rest IH]; [constructor|]. cbn [stops texts].
  destruct (textContent_value t) as [s | e] eqn:T; [|discriminate].
  intros H. constructor; [exact T | exact (IH H)].
Qed.

(** ** The handlers, one equation each *)

Section Equations.
Context `{P : Platform}.
Variable cfg : App.Config.

Lemma render_eq (data : value) : App.render cfg data = (rendered cfg data, finish data).
Proof.
  unfold App.render, rendered, listed, after_list, finish.
  rewrite !app_cwv_text, getTopOpportunities_eq.
  unfold bindE, emit, ret, lift. cbn [fst snd]. rewrite Submit.append_items_eq.
  cbn [fst snd]. destruct (stops _) as [[]|]; cbn [fst snd app];
    now rewrite ?app_nil_r.
Qed.

Lemma try_block_eq (normalized : jsstring) (net : Network) :
  App.try_block cfg normalized net
  = (before cfg ++ fetched cfg normalized
       ++ match outcome cfg normalized net with
          | Ok data => completed cfg data
          | Throw _ => []
          end,
     done (outcome cfg normalized net)).
Proof.
  unfold App.try_block, before, fetched, outcome, completed.
  destruct (App.demo cfg) eqn:D.
  - unfold bindE at 1. cbn [snd fst emit ret bindE app]. now rewrite render_eq.
  - destruct (App.LIVE_ENDPOINT cfg) as [|c endpoint] eqn:L; [reflexivity|].
    unfold answer, live_url. rewrite L.
    unfold bindE, fetch. cbn [snd fst emit].
    destruct (net _) as [res | e]; cbn [snd fst]; [|now rewrite app_nil_r].
    unfold data_of, failure_text.
    destruct (ok res); cbn [negb].
    + destruct (json res) as [data | e]; cbn [snd fst lift emit ret throw done];
        [|now rewrite app_nil_r].
      rewrite render_eq. cbn [fst snd app]. now rewrite <- !app_assoc.
    + destruct (text res) as [[|b body] | e]; cbn [snd fst lift emit ret throw done];
        now rewrite ?app_nil_r.
Qed.

(** An accepted submission, from its first effect to its last. *)
Lemma submit_eq (input normalized : jsstring) (net : Network) :
  normalizeUrl input = Some normalized -> normalized <> [] ->
  App.submit cfg input net
  = clearing ++ running ++ before cfg ++ fetched cfg normalized
      ++ ending cfg (outcome cfg normalized net)
      ++ setLoading false.
Proof.
  intros E Hne. rewrite (Submit.submit_accepted cfg input normalized net E Hne).
  unfold try_catch_finally, ending. rewrite try_block_eq. cbn [fst snd].
  destruct (outcome cfg normalized net) as [data | err]; cbn [done];
    [|now rewrite <- ?app_assoc, ?app_nil_r].
  now rewrite <- !app_assoc.
Qed.

Lemma live_render_eq (data : value) :
  LiveOnly.render data = (live_rendered data, finish data).
Proof.
  unfold LiveOnly.render, live_rendered, listed, after_list, finish.
  rewrite !live_cwv_text, inp_or_fid_text, getTopOpportunities_eq.
  unfold bindE, emit, ret, lift. cbn [fst snd]. rewrite Submit.append_items_eq.
  cbn [fst snd]. destruct (stops _) as [[]|]; cbn [fst snd app];
    now rewrite ?app_nil_r.
Qed.

Lemma live_try_block_eq (normalized : jsstring) (net : Network) :
  LiveOnly.try_block normalized net
  = ([ Fetch (proxy_url normalized) ]
       ++ match answer net (proxy_url normalized) with
          | Ok data => live_rendered data
          | Throw _ => []
          end,
     done (answer net (proxy_url normalized))).
Proof.
  unfold LiveOnly.try_block, answer, proxy_url.
  unfold bindE, fetch. cbn [snd fst].
  destruct (net _) as [res | e]; cbn [snd fst]; [|reflexivity].
  unfold data_of, failure_text. destruct (ok res); cbn [negb].
  - destruct (json res) as [data | e]; cbn [snd fst lift done]; [|reflexivity].
    now rewrite live_render_eq.
  - destruct (text res) as [[|b body] | e]; cbn [snd fst lift throw done];
      reflexivity.
Qed.

Lemma live_submit_eq (input normalized : jsstring) (net : Network) :
  normalizeUrl input = Some normalized -> normalized <> [] ->
  LiveOnly.submit input net
  = clearing ++ running ++ [ Fetch (proxy_url normalized) ]
      ++ live_ending (answer net (proxy_url normalized))
      ++ setLoading false.
Proof.
  intros E Hne. unfold LiveOnly.submit. rewrite E.
  destruct normalized as [|c t]; [congruence|].
  unfold try_catch_finally, running, live_ending. rewrite live_try_block_eq.
  cbn [fst snd].
  destruct (answer net _) as [data | err]; cbn [done];
    [|now rewrite <- ?app_assoc, ?app_nil_r].
  now rewrite <- !app_assoc.
Qed.

Lemma live_submit_rejected (input : jsstring) (net : Network) :
  rejected (normalizeUrl input) ->
  LiveOnly.submit input net = clearing ++ setStatus INVALID (lit "bad").
Proof. intros [E | E]; unfold LiveOnly.submit; now rewrite E. Qed.

End Equations.

(** ** What the clients fetch *)

Lemma hidden_clearing (h : bool) : hidden_after h clearing = true.
Proof.
  unfold hidden_after, clearing. cbn [fold_left hidden_step].
  apply orb_true_iff. right. reflexivity.
Qed.

Ltac fields :=
  unfold ending, live_ending, completed, rendered, live_rendered, after_list;
  rewrite ?text_after_app, ?class_after_app, ?items_after_app, ?hidden_after_app,
    ?fetches_app;
  rewrite ?text_after_listed, ?class_after_listed, ?items_after_listed,
    ?hidden_after_listed, ?fetches_listed, ?hidden_clearing.

Section AppRuns.
Context `{P : Platform}.
Variable cfg : App.Config.

Lemma fetches_end (r : Result value) : fetches (ending cfg r) = [].
Proof.
  destruct r as [data | err]; [|reflexivity].
  unfold ending. destruct (finish data) eqn:F; fields; rewrite F; reflexivity.
Qed.

(** X6: a submission fetches at most once.  A rejected input, the demo
    mode and a live mode without an endpoint fetch nothing; the live
    mode fetches the endpoint with the normalised URL, encoded, as the
    query [url], and does so after the button was disabled. *)
Theorem submit_fetches (input : jsstring) (net : Network) (st : Page.State) :
  let evs := App.submit cfg input net in
  List.length (fetches evs) <= 1
  /\ (rejected (normalizeUrl input) -> fetches evs = [])
  /\ (App.demo cfg = true \/ App.LIVE_ENDPOINT cfg = [] -> fetches evs = [])
  /\ (forall normalized,
        normalizeUrl input = Some normalized -> normalized <> [] ->
        App.demo cfg = false -> App.LIVE_ENDPOINT cfg <> [] ->
        fetches evs
        = [ App.LIVE_ENDPOINT cfg ++ lit "?url=" ++ encodeURIComponent normalized ]
        /\ exists pre post,
             evs = pre ++ Fetch (live_url cfg normalized) :: post
             /\ fetches pre = [] /\ fetches post = []
             /\ Page.disabled (Page.run st pre) runBtn = true).
Proof.
  intros evs.
  assert (R : rejected (normalizeUrl input) -> fetches evs = []).
  { intros R. subst evs. now rewrite (Submit.submit_rejected cfg input net R). }
  assert (A : forall n, normalizeUrl input = Some n -> n <> [] ->
                fetches evs = fetches (fetched cfg n)).
  { intros n E Hne. subst evs. rewrite (submit_eq cfg input n net E Hne).
    rewrite !fetches_app, fetches_end. unfold before, fetched.
    destruct (App.demo cfg); [reflexivity|].
    destruct (App.LIVE_ENDPOINT cfg); reflexivity. }
  split; [|split; [exact R | split]].
  - destruct (Submit.accepted_or_rejected input) as [Rj | [n [E Hne]]].
    + rewrite (R Rj). cbn. lia.
    + rewrite (A n E Hne). unfold fetched.
      destruct (App.demo cfg); [cbn; lia|].
      destruct (App.LIVE_ENDPOINT cfg); cbn; lia.
  - intros H. destruct (Submit.accepted_or_rejected input) as [Rj | [n [E Hne]]];
      [exact (R Rj)|].
    rewrite (A n E Hne). unfold fetched.
    destruct H as [-> | ->]; [reflexivity|]. now destruct (App.demo cfg).
  - intros n E Hne D L. split.
    + rewrite (A n E Hne). unfold fetched. rewrite D.
      destruct (App.LIVE_ENDPOINT cfg) eqn:L'; [congruence|].
      unfold live_url. now rewrite L'.
    + exists (clearing ++ running ++ before cfg).
      exists (ending cfg (outcome cfg n net) ++ setLoading false).
      split; [|split; [|split]].
      * subst evs. rewrite (submit_eq cfg input n net E Hne).
        unfold fetched. rewrite D.
        destruct (App.LIVE_ENDPOINT cfg) eqn:L'; [congruence|].
        now rewrite <- !app_assoc.
      * unfold before. rewrite D. now destruct (App.LIVE_ENDPOINT cfg).
      * now rewrite fetches_app, fetches_end.
      * unfold before. rewrite D.
        destruct (App.LIVE_ENDPOINT cfg); rewrite !Submit.run_app; reflexivity.
Qed.

End AppRuns.

(** X7: the demo mode never touches the network: whatever the endpoint
    setting and the input, a run fetches nothing, and its effects are
    the same on every network. *)
Theorem demo_offline `{P : Platform} (endpoint input : jsstring) (net net' : Network) :
  let cfg := App.mkConfig (lit "demo") endpoint in
  fetches (App.submit cfg input net) = []
  /\ App.submit cfg input net = App.submit cfg input net'.
Proof.
  intros cfg.
  destruct (Submit.accepted_or_rejected input) as [R | [n [E Hne]]].
  - now rewrite !(Submit.submit_rejected cfg input _ R).
  - rewrite !(submit_eq cfg input n _ E Hne). split; [|reflexivity].
    rewrite !fetches_app, fetches_end. reflexivity.
Qed.

(** ** The page after a run of [src/app.js] *)

Ltac modes cfg :=
  unfold before, fetched;
  destruct (App.demo cfg); [|destruct (App.LIVE_ENDPOINT cfg)].

Section AppPages.
Context `{P : Platform}.
Variable cfg : App.Config.

(** X8: a run that got its data and rendered it without a throw shows
    the report: the four scores are [toPercent] of the scores of the
    categories, the three metrics the text of [formatCwvMetric] or the
    dash, the list holds the texts of the opportunities, one to five,
    and nothing of an earlier run; the results are visible, the status
    line is good, the button is enabled again.  The data is the mock
    report in the demo mode, and in the live mode the JSON of a
    response that is a success. *)
Theorem report_page (input normalized : jsstring) (net : Network)
        (st : Page.State) (data : value) :
  normalizeUrl input = Some normalized -> normalized <> [] ->
  outcome cfg normalized net = Ok data ->
  snd (App.render cfg data) = Ok tt ->
  let final := Page.run st (App.submit cfg input net) in
  let lh := optMember data (lit "lighthouseResult") in
  map (Page.textContent final) [perfScore; a11yScore; bpScore; seoScore]
  = map (fun name => toPercent (App.category_score lh name))
        ["performance"; "accessibility"; "best-practices"; "seo"]%string
  /\ map (Page.textContent final) [lcpEl; inpEl; clsEl]
     = [ cwv_text (metric data "LARGEST_CONTENTFUL_PAINT_MS") (lit "s");
         cwv_text (metric data "INTERACTION_TO_NEXT_PAINT") (lit "ms");
         cwv_text (metric data "CUMULATIVE_LAYOUT_SHIFT_SCORE") (lit "raw") ]
  /\ Page.textContent final cwvNote = note cfg data
  /\ Forall2 (fun t s => textContent_value t = Ok s)
             (opportunities lh) (Page.items final oppsList)
  /\ 1 <= List.length (Page.items final oppsList) <= 5
  /\ hidden final = false
  /\ Page.textContent final statusEl = (if App.demo cfg then DEMO_DONE else LIVE_DONE)
  /\ Page.className final statusEl = lit "status good"
  /\ Page.disabled final runBtn = false
  /\ Page.textContent final runBtn = lit "Run Report".
Proof.
  intros E Hne O F final lh. subst final.
  rewrite render_eq in F. cbn [snd] in F.
  rewrite (submit_eq cfg input normalized net E Hne), O.
  assert (I : Page.items
                (Page.run st
                   (clearing ++ running ++ before cfg ++ fetched cfg normalized
                      ++ ending cfg (Ok data) ++ setLoading false)) oppsList
              = texts (opportunities lh)).
  { rewrite items_run. fields. rewrite F. reflexivity. }
  split; [|split; [|split; [|split; [|split; [|split; [|split; [|split; [|split]]]]]]]].
  - cbn [map]. rewrite !text_run. fields. rewrite F. reflexivity.
  - cbn [map]. rewrite !text_run. fields. rewrite F. reflexivity.
  - rewrite text_run. fields. rewrite F. reflexivity.
  - rewrite I. now apply texts_all.
  - rewrite I, (Submit.texts_ok (opportunities lh) F). apply opportunities_length.
  - rewrite hidden_run. fields. rewrite F. modes cfg; reflexivity.
  - rewrite text_run. fields. rewrite F. modes cfg; reflexivity.
  - rewrite class_run. fields. rewrite F. reflexivity.
  - rewrite !Submit.run_app. reflexivity.
  - rewrite text_run. fields. rewrite F. reflexivity.
Qed.

(** X9: a run without a report.  After a rejected input, and after a
    failure of the [try] block before its data is there, the results
    are hidden, the list is empty, and the scores, the metrics and the
    note are as they were before the run.  After a failure of the list
    loop the results are hidden as well, but the scores, the metrics and
    the note of the data are written and the list holds the items that
    were converted before the throw, fewer than the opportunities.
    Every failure ends with the class [status bad] and the button
    enabled. *)
Theorem no_report_page (input : jsstring) (net : Network) (st : Page.State) :
  let final := Page.run st (App.submit cfg input net) in
  (rejected (normalizeUrl input) ->
   untouched st final
   /\ Page.textContent final statusEl = INVALID
   /\ Page.className final statusEl = lit "status bad")
  /\ (forall normalized err,
        normalizeUrl input = Some normalized -> normalized <> [] ->
        snd (App.try_block cfg normalized net) = Throw err ->
        hidden final = true
        /\ Page.className final statusEl = lit "status bad"
        /\ Page.disabled final runBtn = false
        /\ (outcome cfg normalized net = Throw err -> untouched st final)
        /\ (forall data,
              outcome cfg normalized net = Ok data ->
              snd (App.render cfg data) = Throw err
              /\ half_rendered (note cfg data) data final
              /\ Page.textContent final inpEl
                 = cwv_text (metric data "INTERACTION_TO_NEXT_PAINT") (lit "ms")
              /\ List.length (Page.items final oppsList)
                 < List.length (opportunities (optMember data (lit "lighthouseResult"))))).
Proof.
  intros final. subst final. split.
  - intros R. rewrite (Submit.submit_rejected cfg input net R).
    split; [|split].
    + split; [|split].
      * rewrite hidden_run. fields. reflexivity.
      * rewrite items_run. reflexivity.
      * repeat constructor; rewrite text_run; reflexivity.
    + rewrite text_run. reflexivity.
    + rewrite class_run. reflexivity.
  - intros n err E Hne T. rewrite try_block_eq in T. cbn [snd] in T.
    rewrite (submit_eq cfg input n net E Hne).
    destruct (outcome cfg n net) as [data | e] eqn:O; cbn [done] in T.
    + split; [|split; [|split; [|split]]].
      * rewrite hidden_run. fields. rewrite T. modes cfg; reflexivity.
      * rewrite class_run. fields. rewrite T. reflexivity.
      * rewrite !Submit.run_app. reflexivity.
      * discriminate.
      * intros data' [= <-]. split; [now rewrite render_eq|].
        split; [|split].
        -- split; [|split; [|split; [|split]]].
           ++ rewrite hidden_run. fields. rewrite T. modes cfg; reflexivity.
           ++ rewrite items_run. fields. rewrite T. reflexivity.
           ++ cbn [map]. rewrite !text_run. fields. rewrite T. reflexivity.
           ++ cbn [map]. rewrite !text_run. fields. rewrite T. reflexivity.
           ++ rewrite text_run. fields. rewrite T. reflexivity.
        -- rewrite text_run. fields. rewrite T. reflexivity.
        -- assert (I : Page.items
                         (Page.run st
                            (clearing ++ running ++ before cfg ++ fetched cfg n
                               ++ ending cfg (Ok data) ++ setLoading false)) oppsList
                       = texts (opportunities (optMember data (lit "lighthouseResult")))).
           { rewrite items_run. fields. rewrite T. reflexivity. }
           rewrite I. apply Submit.texts_short with (e := err). exact T.
    + injection T as ->.
      assert (U : untouched st
                    (Page.run st
                       (clearing ++ running ++ before cfg ++ fetched cfg n
                          ++ ending cfg (Throw err) ++ setLoading false))).
      { split; [|split].
        - rewrite hidden_run. fields. modes cfg; reflexivity.
        - rewrite items_run. modes cfg; reflexivity.
        - repeat constructor; rewrite text_run; modes cfg; reflexivity. }
      split; [exact (proj1 U)|]. split; [|split; [|split]].
      * rewrite class_run. fields. reflexivity.
      * rewrite !Submit.run_app. reflexivity.
      * intros _. exact U.
      * discriminate.
Qed.

(** X10: the live mode without an endpoint fails before it reaches the
    network: nothing is fetched, the status line reads that the live
    mode is not configured, the results stay hidden and the button is
    enabled again. *)
Theorem unconfigured_live (input normalized : jsstring) (net : Network)
        (st : Page.State) :
  App.demo cfg = false -> App.LIVE_ENDPOINT cfg = [] ->
  normalizeUrl input = Some normalized -> normalized <> [] ->
  let evs := App.submit cfg input net in
  let final := Page.run st evs in
  evs = clearing ++ running
          ++ setStatus (CROSS_MARK ++ lit " Live mode is not configured yet.") (lit "bad")
          ++ setLoading false
  /\ fetches evs = []
  /\ Page.textContent final statusEl = CROSS_MARK ++ lit " Live mode is not configured yet."
  /\ Page.className final statusEl = lit "status bad"
  /\ hidden final = true
  /\ Page.disabled final runBtn = false.
Proof.
  intros D L E Hne evs final.
  assert (S : evs = clearing ++ running
                ++ setStatus (CROSS_MARK ++ lit " Live mode is not configured yet.")
                     (lit "bad")
                ++ setLoading false).
  { subst evs. rewrite (submit_eq cfg input normalized net E Hne).
    unfold before, fetched, outcome, ending. rewrite D, L. cbn [app].
    assert (C : App.catch_block (mkError NOT_CONFIGURED)
                = setStatus (CROSS_MARK ++ lit " Live mode is not configured yet.")
                    (lit "bad")) by (vm_compute; reflexivity).
    now rewrite C. }
  split; [exact S|]. subst final. rewrite S.
  split; [reflexivity|]. split; [|split; [|split]].
  - rewrite text_run. reflexivity.
  - rewrite class_run. reflexivity.
  - rewrite hidden_run. fields. reflexivity.
  - rewrite !Submit.run_app. reflexivity.
Qed.

(** X11: rendering throws in its list loop only.  The scores, the
    metrics and the note are written for every JSON value, each member
    being read with [?.] or after a test; then the items are appended
    up to the first opportunity whose title has no text, where the loop
    throws the [TypeError] of the conversion, and the results are shown
    when no title was such.  Data without [lighthouseResult] and
    without [loadingExperience] is rendered without a throw: the dash in
    every slot, the note that field data was not available, and the
    fallback line as the only opportunity. *)
Theorem render_any (data : value) :
  let opps := opportunities (optMember data (lit "lighthouseResult")) in
  fst (App.render cfg data)
  = slots data (cwv_text (metric data "INTERACTION_TO_NEXT_PAINT") (lit "ms"))
      ++ [ SetTextContent cwvNote (note cfg data); ClearContent oppsList ]
      ++ map (AppendLi oppsList) (texts opps)
      ++ match snd (App.render cfg data) with
         | Ok _ => [ ClassListRemove results (lit "hidden") ]
         | Throw _ => []
         end
  /\ snd (LiveOnly.render data) = snd (App.render cfg data)
  /\ (snd (App.render cfg data) = Ok tt
      <-> Forall (fun t => exists s, textContent_value t = Ok s) opps)
  /\ (forall err,
        snd (App.render cfg data) = Throw err ->
        err = NotPrimitive
        /\ (exists t, In t opps /\ textContent_value t = Throw err)
        /\ List.length (texts opps) < List.length opps)
  /\ (snd (App.render cfg data) = Ok tt ->
      Forall2 (fun t s => textContent_value t = Ok s) opps (texts opps))
  /\ (optMember data (lit "lighthouseResult") = VUndefined ->
      optMember data (lit "loadingExperience") = VUndefined ->
      App.render cfg data
      = (map (fun el => SetTextContent el EM_DASH)
             [perfScore; a11yScore; bpScore; seoScore; lcpEl; inpEl; clsEl]
           ++ [ SetTextContent cwvNote NO_FIELD_DATA;
                ClearContent oppsList;
                AppendLi oppsList FALLBACK;
                ClassListRemove results (lit "hidden") ],
         Ok tt)).
Proof.
  intros opps. rewrite render_eq, live_render_eq. cbn [fst snd].
  split; [reflexivity|]. split; [reflexivity|]. split; [apply Submit.stops_ok|].
  split; [|split].
  - intros err T. destruct (Submit.stops_throws _ _ T) as [N X].
    split; [exact N|]. split; [exact X|]. now apply Submit.texts_short with (e := err).
  - apply texts_all.
  - intros L F. unfold rendered, slots, listed, after_list, finish, note,
      has_metrics, metric.
    rewrite L, F. reflexivity.
Qed.

End AppPages.

(** The live mode on [example.com], answered with field data alone. *)
Lemma report_page_witness :
  let final :=
    Page.run idle (@App.submit Sample.platform live_config (lit "example.com")
                     (fun _ => Resolved fid_reply)) in
  hidden final = false
  /\ Page.textContent final statusEl = LIVE_DONE.
Proof.
  pose proof (@report_page Sample.platform live_config (lit "example.com")
                (lit "https://example.com/") (fun _ => Resolved fid_reply) idle
                fid_only eq_refl ltac:(discriminate) eq_refl eq_refl)
    as [_ [_ [_ [_ [_ [H2 [H3 _]]]]]]].
  split; [exact H2 | exact H3].
Defined.

(** The live mode without an endpoint on [example.com]. *)
Lemma unconfigured_live_witness :
  fetches (@App.submit Sample.platform unconfigured (lit "example.com")
             (fun _ => Resolved fid_reply)) = []
  /\ hidden (Page.run idle
               (@App.submit Sample.platform unconfigured (lit "example.com")
                  (fun _ => Resolved fid_reply))) = true.
Proof.
  pose proof (@unconfigured_live Sample.platform unconfigured (lit "example.com")
                (lit "https://example.com/") (fun _ => Resolved fid_reply) idle
                eq_refl eq_refl eq_refl ltac:(discriminate))
    as [_ [H1 [_ [_ [H2 _]]]]].
  split; [exact H1 | exact H2].
Defined.

(** ** The demo report *)

Lemma mock_shown `{P : Platform} (url : jsstring) (b : float) (k : N) :
  In (b, k) [ (0.72, 72%N); (0.88, 88%N); (0.86, 86%N); (0.84, 84%N) ]%float ->
  toPercent (VNum (App.score01 url b)) = decimal (N.min 100 (k + App.seed url)).
Proof.
  intros Hin. pose proof Mock.mock_percent as M. rewrite forallb_forall in M.
  specialize (M _ (Mock.seed_in url)). rewrite forallb_forall in M.
  apply str_eqb_eq. exact (M (b, k) Hin).
Qed.

(** X12: what the demo mode shows for an accepted input, on every
    network and whatever the page showed before: the four scores are
    72, 88, 86 and 84 plus the length of the normalised URL modulo 20,
    and 100 at most; the metrics read [2.5 s], [190 ms] and [8]; the
    list holds the first five of the six audits of the mock report. *)
Theorem demo_report `{P : Platform} (endpoint input normalized : jsstring)
        (net : Network) (st : Page.State) :
  normalizeUrl input = Some normalized -> normalized <> [] ->
  let final :=
    Page.run st (App.submit (App.mkConfig (lit "demo") endpoint) input net) in
  let s := (N.of_nat (List.length normalized) mod 20)%N in
  map (Page.textContent final) [perfScore; a11yScore; bpScore; seoScore]
  = map (fun base => decimal (N.min 100 (base + s))) [72; 88; 86; 84]%N
  /\ map (Page.textContent final) [lcpEl; inpEl; clsEl]
     = [ lit "2.5 s"; lit "190 ms"; lit "8" ]
  /\ Page.textContent final cwvNote = DEMO_NOTE
  /\ Page.items final oppsList
     = [ lit "Improve Largest Contentful Paint";
         lit "Eliminate render-blocking resources";
         lit "Reduce unused JavaScript";
         lit "Reduce unused CSS";
         lit "Defer offscreen images" ]
  /\ hidden final = false
  /\ Page.textContent final statusEl = DEMO_DONE.
Proof.
  intros E Hne final s. subst final s. rewrite <- Mock.seed_mod.
  set (cfg := App.mkConfig (lit "demo") endpoint).
  rewrite (submit_eq cfg input normalized net E Hne).
  assert (O : outcome cfg normalized net = Ok (App.getMockPsiResponse normalized))
    by reflexivity.
  pose proof (Submit.mock_finish normalized) as F.
  rewrite O. split; [|split; [|split; [|split; [|split]]]].
  - cbn [map]. rewrite !text_run. fields. rewrite F.
    rewrite <- (mock_shown normalized 0.72%float 72%N),
      <- (mock_shown normalized 0.88%float 88%N),
      <- (mock_shown normalized 0.86%float 86%N),
      <- (mock_shown normalized 0.84%float 84%N);
      [reflexivity | | | |]; cbn [In]; auto.
  - cbn [map]. rewrite !text_run. fields. rewrite F. vm_compute. reflexivity.
  - rewrite text_run. fields. rewrite F. reflexivity.
  - rewrite items_run. fields. rewrite F. vm_compute. reflexivity.
  - rewrite hidden_run. fields. rewrite F. reflexivity.
  - rewrite text_run. fields. rewrite F. reflexivity.
Qed.

(** [example.com] gives [https://example.com/], of 20 code units. *)
Lemma demo_report_witness :
  map (Page.textContent
         (Page.run idle
            (@App.submit Sample.platform (App.mkConfig (lit "demo") [])
               (lit "example.com") (fun _ => Rejected (mkError (lit "offline"))))))
      [perfScore; a11yScore; bpScore; seoScore]
  = [ lit "72"; lit "88"; lit "86"; lit "84" ].
Proof.
  exact (proj1 (@demo_report Sample.platform [] (lit "example.com")
                  (lit "https://example.com/")
                  (fun _ => Rejected (mkError (lit "offline"))) idle
                  eq_refl ltac:(discriminate))).
Defined.

(** ** The live-only client *)

Section LiveOnlyRuns.
Context `{P : Platform}.

Lemma live_fetches_end (r : Result value) : fetches (live_ending r) = [].
Proof.
  destruct r as [data | err]; [|reflexivity].
  unfold live_ending. destruct (finish data) eqn:F; fields; rewrite F; reflexivity.
Qed.

(** X13: the live-only client fetches once for an accepted input, the
    proxy with the normalised URL, encoded, as the query [url], after
    the button was disabled; a rejected input fetches nothing and
    never writes [runBtn.disabled]. *)
Theorem live_only_fetches (input : jsstring) (net : Network) (st : Page.State) :
  let evs := LiveOnly.submit input net in
  (rejected (normalizeUrl input) -> fetches evs = [] /\ Forall quiet evs)
  /\ (forall normalized,
        normalizeUrl input = Some normalized -> normalized <> [] ->
        fetches evs
        = [ lit "/.netlify/functions/psi?url=" ++ encodeURIComponent normalized ]
        /\ exists pre post,
             evs = pre ++ Fetch (proxy_url normalized) :: post
             /\ fetches pre = [] /\ fetches post = []
             /\ Page.disabled (Page.run st pre) runBtn = true).
Proof.
  intros evs. subst evs. split.
  - intros R. rewrite (live_submit_rejected input net R).
    split; [reflexivity | repeat constructor].
  - intros n E Hne. rewrite (live_submit_eq input n net E Hne). split.
    + rewrite !fetches_app, live_fetches_end. reflexivity.
    + exists (clearing ++ running).
      exists (live_ending (answer net (proxy_url n)) ++ setLoading false).
      split; [now rewrite <- !app_assoc|]. split; [reflexivity|].
      split; [now rewrite fetches_app, live_fetches_end|].
      rewrite !Submit.run_app. reflexivity.
Qed.

(** X14: a failure of the live-only client ends as the status line with
    the message as it is: the cross, a space and the message of the
    error, tags and white space included and at its full length, or
    [Something went wrong. Try again.] for an empty message; the
    results are hidden and the button is enabled again.  The error is
    the rejection of the fetch, the body of a response that is no
    success ([Request failed: status] for an empty body) or the failure
    to parse a success as JSON, and then no part of a report is left;
    or it is the [TypeError] of the list loop, and then the scores, the
    metrics and the note of the data are written and the list holds the
    items that were converted before the throw. *)
Theorem live_only_failure (input normalized : jsstring) (net : Network)
        (st : Page.State) (err : Error) :
  normalizeUrl input = Some normalized -> normalized <> [] ->
  snd (LiveOnly.try_block normalized net) = Throw err ->
  let final := Page.run st (LiveOnly.submit input net) in
  Page.textContent final statusEl
  = CROSS_MARK ++ lit " "
      ++ match message err with
         | [] => lit "Something went wrong. Try again."
         | m => m
         end
  /\ Page.className final statusEl = lit "status bad"
  /\ hidden final = true
  /\ Page.disabled final runBtn = false
  /\ (answer net (proxy_url normalized) = Throw err -> untouched st final)
  /\ (forall data,
        answer net (proxy_url normalized) = Ok data ->
        snd (LiveOnly.render data) = Throw err
        /\ err = NotPrimitive
        /\ half_rendered (if has_metrics data then FIELD_NOTE else NO_FIELD_DATA)
             data final
        /\ Page.textContent final inpEl
           = (if truthy (metric data "INTERACTION_TO_NEXT_PAINT")
              then cwv_text (metric data "INTERACTION_TO_NEXT_PAINT") (lit "ms")
              else cwv_text (metric data "FIRST_INPUT_DELAY_MS") (lit "ms"))).
Proof.
  intros E Hne T final. subst final.
  rewrite live_try_block_eq in T. cbn [snd] in T.
  rewrite (live_submit_eq input normalized net E Hne).
  destruct (answer net (proxy_url normalized)) as [data | e] eqn:A; cbn [done] in T.
  - split; [|split; [|split; [|split; [|split]]]].
    + rewrite text_run. fields. rewrite T. reflexivity.
    + rewrite class_run. fields. rewrite T. reflexivity.
    + rewrite hidden_run. fields. rewrite T. reflexivity.
    + rewrite !Submit.run_app. reflexivity.
    + discriminate.
    + intros data' [= <-]. split; [now rewrite live_render_eq|].
      split; [exact (proj1 (Submit.stops_throws _ _ T))|]. split.
      * split; [|split; [|split; [|split]]].
        -- rewrite hidden_run. fields. rewrite T. reflexivity.
        -- rewrite items_run. fields. rewrite T. reflexivity.
        -- cbn [map]. rewrite !text_run. fields. rewrite T. reflexivity.
        -- cbn [map]. rewrite !text_run. fields. rewrite T. reflexivity.
        -- rewrite text_run. fields. rewrite T. now destruct (has_metrics data).
      * rewrite text_run. fields. rewrite T. reflexivity.
  - injection T as ->. split; [|split; [|split; [|split; [|split]]]].
    + rewrite text_run. reflexivity.
    + rewrite class_run. reflexivity.
    + rewrite hidden_run. fields. reflexivity.
    + rewrite !Submit.run_app. reflexivity.
    + intros _. split; [|split].
      * rewrite hidden_run. fields. reflexivity.
      * rewrite items_run. reflexivity.
      * repeat constructor; rewrite text_run; reflexivity.
    + discriminate.
Qed.

(** X15: a success of the live-only client that rendered its data
    without a throw shows the report.  The INP slot shows INP when the
    field data has it and the legacy FID otherwise; the list holds the
    texts of the opportunities and nothing of an earlier run; the last
    status reads that the report is complete. *)
Theorem live_only_report (input normalized : jsstring) (net : Network)
        (st : Page.State) (data : value) :
  normalizeUrl input = Some normalized -> normalized <> [] ->
  answer net (proxy_url normalized) = Ok data ->
  snd (LiveOnly.render data) = Ok tt ->
  let final := Page.run st (LiveOnly.submit input net) in
  let lh := optMember data (lit "lighthouseResult") in
  map (Page.textContent final) [perfScore; a11yScore; bpScore; seoScore]
  = map (fun name => toPercent (LiveOnly.category_score lh name))
        ["performance"; "accessibility"; "best-practices"; "seo"]%string
  /\ map (Page.textContent final) [lcpEl; clsEl]
     = [ cwv_text (metric data "LARGEST_CONTENTFUL_PAINT_MS") (lit "s");
         cwv_text (metric data "CUMULATIVE_LAYOUT_SHIFT_SCORE") (lit "raw") ]
  /\ Page.textContent final inpEl
     = (if truthy (metric data "INTERACTION_TO_NEXT_PAINT")
        then cwv_text (metric data "INTERACTION_TO_NEXT_PAINT") (lit "ms")
        else cwv_text (metric data "FIRST_INPUT_DELAY_MS") (lit "ms"))
  /\ Page.textContent final cwvNote
     = (if has_metrics data then FIELD_NOTE else NO_FIELD_DATA)
  /\ Forall2 (fun t s => textContent_value t = Ok s)
             (opportunities lh) (Page.items final oppsList)
  /\ hidden final = false
  /\ Page.textContent final statusEl = REPORT_DONE
  /\ Page.className final statusEl = lit "status good"
  /\ Page.disabled final runBtn = false.
Proof.
  intros E Hne A F final lh. subst final.
  rewrite live_render_eq in F. cbn [snd] in F.
  rewrite (live_submit_eq input normalized net E Hne), A.
  split; [|split; [|split; [|split; [|split; [|split; [|split; [|split]]]]]]].
  - cbn [map]. rewrite !text_run. fields. rewrite F. reflexivity.
  - cbn [map]. rewrite !text_run. fields. rewrite F. reflexivity.
  - rewrite text_run. fields. rewrite F. reflexivity.
  - rewrite text_run. fields. rewrite F. now destruct (has_metrics data).
  - assert (I : Page.items
                  (Page.run st
                     (clearing ++ running ++ [ Fetch (proxy_url normalized) ]
                        ++ live_ending (Ok data) ++ setLoading false)) oppsList
                = texts (opportunities lh)).
    { rewrite items_run. fields. rewrite F. reflexivity. }
    rewrite I. now apply texts_all.
  - rewrite hidden_run. fields. rewrite F. reflexivity.
  - rewrite text_run. fields. rewrite F. reflexivity.
  - rewrite class_run. fields. rewrite F. reflexivity.
  - rewrite !Submit.run_app. reflexivity.
Qed.

End LiveOnlyRuns.

(** A 404 page of the proxy is shown with its tags. *)
Lemma live_only_failure_witness :
  Page.textContent
    (Page.run idle (@LiveOnly.submit Sample.platform (lit "example.com")
                      (fun _ => Resolved not_found_page)))
    statusEl
  = CROSS_MARK ++ lit " <h1>Not Found</h1>".
Proof.
  exact (proj1 (@live_only_failure Sample.platform (lit "example.com")
                  (lit "https://example.com/") (fun _ => Resolved not_found_page)
                  idle (mkError (lit "<h1>Not Found</h1>"))
                  eq_refl ltac:(discriminate) eq_refl)).
Defined.

(** Field data with FID and without INP: the INP slot reads [12 ms]. *)
Lemma live_only_report_witness :
  Page.textContent
    (Page.run idle (@LiveOnly.submit Sample.platform (lit "example.com")
                      (fun _ => Resolved fid_reply)))
    inpEl
  = lit "12 ms".
Proof.
  pose proof (@live_only_report Sample.platform (lit "example.com")
                (lit "https://example.com/") (fun _ => Resolved fid_reply)
                idle fid_only eq_refl ltac:(discriminate) eq_refl eq_refl)
    as [_ [_ [H _]]].
  exact H.
Defined.

End Runs.

(* ================================================================== *)
(** * More about the proxy and the helpers *)
(* ================================================================== *)

Module ProxyMore.
Import Spec Psi.

Section WithPlatform.
Context `{P : Platform}.

Lemma not_ok_200 (res : UpstreamResponse) : ok res = false -> status res <> 200%N.
Proof. unfold ok. intros H E. rewrite E in H. discriminate H. Qed.

(** The three statuses the handler writes itself go with a body. *)
Lemma Response_new_fixed (status : N) (h : list (jsstring * jsstring)) (b : value) :
  status = 200%N \/ status = 400%N \/ status = 500%N ->
  Response_new status h b = Ok (mkHttp status h b).
Proof. intros [-> | [-> | ->]]; reflexivity. Qed.

Ltac answered T :=
  cbn [lift fst snd app catch_block];
  repeat split; cbn; try lia; auto; try discriminate;
  try (eexists; reflexivity); intros e He; destruct (T e He).

(** X16: what every answer of the proxy has in common.  The handler
    fetches at most once and always answers, with the header
    [Content-Type: application/json].  An answer of status 200 is the
    body of an upstream success, as it was parsed, and it alone carries
    [Cache-Control]; every other answer has a body with [ok: false] and
    an [error] string, and no [Cache-Control].  A request whose URL does
    not parse is answered 500 with the message of the error. *)
Theorem handler_answers (req : Request) (env : Env) (net : Upstream) :
  let r := snd (handler req env net) in
  List.length (fst (handler req env net)) <= 1
  /\ In content_type (headers r)
  /\ (http_status r = 200%N ->
      headers r = [content_type; cache_control]
      /\ exists endpoint res,
           fst (handler req env net) = [endpoint]
           /\ net endpoint = Resolved res
           /\ ok res = true
           /\ json res = Ok (body r))
  /\ (http_status r <> 200%N ->
      headers r = [content_type]
      /\ getOwn (body r) (lit "ok") = VBool false
      /\ exists msg, getOwn (body r) (lit "error") = VStr msg)
  /\ (forall err, req_url req = Throw err ->
      handler req env net = ([], mkHttp 500 [content_type] (error_body (message err)))).
Proof.
  intros r. subst r. unfold handler, try_block.
  destruct (req_url req) as [params | err0]; cbn [lift bindE snd fst].
  2:{ repeat split; cbn; try lia; auto; try discriminate.
      - eexists. reflexivity.
      - intros err [= <-]. reflexivity. }
  assert (T : forall e, Ok params = Throw e -> False) by discriminate.
  destruct (get params (lit "url")) as [[|c t]|].
  1,3: rewrite Response_new_fixed by auto; answered T.
  destruct (PSI_API_KEY env) as [[|k ks]|].
  1,3: rewrite Response_new_fixed by auto; answered T.
  unfold fetch, bindE. cbn [fst snd].
  destruct (net (endpoint (c :: t) (k :: ks))) as [res | err] eqn:N; cbn [fst snd lift].
  2:{ answered T. }
  destruct (json res) as [data | err] eqn:J; cbn [fst snd].
  2:{ answered T. }
  destruct (ok res) eqn:O; cbn [negb].
  - rewrite Response_new_fixed by auto. cbn [lift fst snd app].
    split; [cbn; lia|]. split; [now left|]. split; [|split].
    + intros _. split; [reflexivity|].
      exists (endpoint (c :: t) (k :: ks)), res. repeat split; assumption.
    + intros H. now contradiction H.
    + intros e He. destruct (T e He).
  - unfold Response_new.
    destruct ((status res <? 200) || (599 <? status res))%N; [answered T|].
    destruct (null_body_status (status res)); [answered T|].
    cbn [lift fst snd app].
    split; [cbn; lia|]. split; [now left|]. split; [|split].
    + cbn [http_status]. intros H. destruct (not_ok_200 res O H).
    + intros _. split; [reflexivity|]. split; [reflexivity|].
      eexists. reflexivity.
    + intros e He. destruct (T e He).
Qed.

(** X17: the key goes to the upstream and nowhere else: with two keys
    to which the upstream answers alike, the answers of the proxy are
    equal, whatever the request. *)
Theorem handler_key_private (req : Request) (net : Upstream) (key key' : jsstring) :
  key <> [] -> key' <> [] ->
  (forall target, net (endpoint target key) = net (endpoint target key')) ->
  snd (handler req (mkEnv (Some key)) net) = snd (handler req (mkEnv (Some key')) net).
Proof.
  intros Hk Hk' H. unfold handler, try_block.
  destruct (req_url req) as [params | err0]; cbn [lift bindE snd fst]; [|reflexivity].
  destruct (get params (lit "url")) as [[|c t]|]; try reflexivity.
  cbn [PSI_API_KEY].
  destruct key as [|k ks]; [congruence|]. destruct key' as [|k' ks']; [congruence|].
  unfold fetch, bindE. cbn [fst snd]. rewrite (H (c :: t)).
  destruct (net _) as [res | err]; cbn [fst snd lift]; [|reflexivity].
  destruct (json res) as [data | err]; cbn [fst snd]; [|reflexivity].
  destruct (ok res); cbn [negb]; destruct (Response_new _ _ _); reflexivity.
Qed.

End WithPlatform.

(** Two keys, and an upstream that answers 404 to every endpoint. *)
Lemma handler_key_private_witness :
  snd (@handler Sample.platform request_example (mkEnv (Some (lit "secret")))
         (fun _ => Resolved not_found_json))
  = snd (@handler Sample.platform request_example (mkEnv (Some (lit "other")))
           (fun _ => Resolved not_found_json)).
Proof.
  apply (@handler_key_private Sample.platform request_example
           (fun _ => Resolved not_found_json) (lit "secret") (lit "other"));
    [discriminate | discriminate | reflexivity].
Defined.

End ProxyMore.

(* ================================================================== *)
(** * More about the opportunities *)
(* ================================================================== *)

Module Curated.
Import Report Spec Notions Opportunities.

Section WithPlatform.
Context `{P : Platform}.

(** X18: the extraction reads the seven audits of its list and nothing
    else: two reports whose [audits] agree on the seven keys give the
    same opportunities, whatever other audits they carry. *)
Theorem getTopOpportunities_curated (lr lr' : value) :
  (forall k, In k keys ->
     getOwn (optMember lr (lit "audits")) k = getOwn (optMember lr' (lit "audits")) k) ->
  getTopOpportunities lr = getTopOpportunities lr'.
Proof.
  intros H. rewrite !getTopOpportunities_eq. f_equal. unfold opportunities.
  set (a := optMember lr (lit "audits")) in *.
  set (a' := optMember lr' (lit "audits")) in *.
  assert (F : filter (shown a) keys = filter (shown a') keys).
  { apply filter_ext_in. intros k Hk. unfold shown. now rewrite (H k Hk). }
  assert (M : map (title_of a) (filter (shown a') keys)
              = map (title_of a') (filter (shown a') keys)).
  { apply map_ext_in. intros k Hk. apply filter_In in Hk as [Hk _].
    unfold title_of. now rewrite (H k Hk). }
  now rewrite F, M.
Qed.

End WithPlatform.

(** An audit that is not on the list changes nothing. *)
Lemma getTopOpportunities_curated_witness :
  @getTopOpportunities one_audit = @getTopOpportunities one_audit_and_more.
Proof.
  apply (getTopOpportunities_curated one_audit one_audit_and_more).
  intros k Hk. cbn [keys In] in Hk.
  repeat (destruct Hk as [<- | Hk]; [reflexivity|]). destruct Hk.
Defined.

End Curated.

(* ================================================================== *)
(** * More about the scores of the mock report *)
(* ================================================================== *)

Module Clamp.
Import Report Spec.

(** ** The comparisons of Numbers *)

Lemma SFcompare_antisym (x y : spec_float) :
  SFcompare y x = option_map CompOpp (SFcompare x y).
Proof.
  destruct x as [s | s | | s m e], y as [s' | s' | | s' m' e'];
    try destruct s; try destruct s'; try reflexivity; cbn [SFcompare option_map];
    rewrite (Z.compare_antisym e e'); destruct (e ?= e')%Z; cbn [CompOpp];
    try reflexivity; f_equal;
    change PosDef.Pos.compare_cont with Pos.compare_cont;
    rewrite (Pos.compare_cont_antisym m m' Eq); reflexivity.
Qed.

Lemma not_nan (x : float) : is_nan x = false -> Prim2SF x <> S754_nan.
Proof.
  unfold is_nan. rewrite FloatAxioms.eqb_spec. intros H E. rewrite E in H.
  discriminate H.
Qed.

Lemma SFcompare_some (x y : spec_float) :
  x <> S754_nan -> y <> S754_nan -> exists c, SFcompare x y = Some c.
Proof.
  intros Hx Hy. destruct x, y; try congruence; cbn [SFcompare]; eexists; reflexivity.
Qed.

(** Of two Numbers that are no NaN, one is below the other or the other
    is at most the one. *)
Lemma not_ltb_leb (x y : float) :
  is_nan x = false -> is_nan y = false -> (x <? y) = false -> (y <=? x) = true.
Proof.
  intros Hx Hy. rewrite ltb_spec, leb_spec. unfold SFltb, SFleb.
  rewrite (SFcompare_antisym (Prim2SF x) (Prim2SF y)).
  destruct (SFcompare_some _ _ (not_nan x Hx) (not_nan y Hy)) as [c ->].
  now destruct c.
Qed.

Lemma ltb_leb (x y : float) : (x <? y) = true -> (x <=? y) = true.
Proof.
  rewrite ltb_spec, leb_spec. unfold SFltb, SFleb.
  now destruct (SFcompare _ _) as [[]|].
Qed.

Lemma ltb_asym (x y : float) : (x <? y) = true -> (y <? x) = false.
Proof.
  rewrite !ltb_spec. unfold SFltb.
  rewrite (SFcompare_antisym (Prim2SF x) (Prim2SF y)).
  now destruct (SFcompare _ _) as [[]|].
Qed.

Lemma leb_not_ltb (x y : float) : (x <=? y) = true -> (y <? x) = false.
Proof.
  rewrite ltb_spec, leb_spec. unfold SFltb, SFleb.
  rewrite (SFcompare_antisym (Prim2SF x) (Prim2SF y)).
  now destruct (SFcompare _ _) as [[]|].
Qed.

Lemma SFcompare_refl (x : spec_float) : x <> S754_nan -> SFcompare x x = Some Eq.
Proof.
  destruct x as [s | s | | s m e]; try congruence; intros _;
    destruct s; cbn [SFcompare]; try reflexivity;
    rewrite Z.compare_refl; change PosDef.Pos.compare_cont with Pos.compare_cont;
    now rewrite Pos.compare_cont_refl.
Qed.

Lemma is_not_nan (x : float) : Prim2SF x <> S754_nan -> is_nan x = false.
Proof.
  intros H. unfold is_nan. rewrite FloatAxioms.eqb_spec. unfold SFeqb.
  now rewrite (SFcompare_refl _ H).
Qed.

Lemma ltb_not_nan (x y : float) :
  (x <? y) = true -> is_nan x = false /\ is_nan y = false.
Proof.
  rewrite ltb_spec. unfold SFltb. intros H.
  split; apply is_not_nan; intros E; rewrite E in H;
    [|destruct (Prim2SF x)]; discriminate H.
Qed.

(** Below zero is below one. *)
Lemma negative_below_one (n : float) : (n <? 0) = true -> (n <? 1) = true.
Proof.
  rewrite !ltb_spec. unfold SFltb.
  change (Prim2SF 0) with (S754_zero false).
  change (Prim2SF 1) with (S754_finite false 4503599627370496 (-52)).
  destruct (Prim2SF n) as [s | s | | s m e]; cbn [SFcompare]; try discriminate;
    now destruct s.
Qed.

(** X19: [clamp01] of the mock report brings every Number into the unit
    interval: a NaN stays a NaN; any other Number ends between 0 and 1,
    unchanged when it is above 0 and at most 1, as 1 when it is above 1
    and as 0 when it is below 0. *)
Theorem clamp01_spec (n : float) :
  (is_nan n = true -> is_nan (App.clamp01 n) = true)
  /\ (is_nan n = false ->
      (0 <=? App.clamp01 n) = true /\ (App.clamp01 n <=? 1) = true)
  /\ ((0 <? n) = true -> (n <=? 1) = true -> App.clamp01 n = n)
  /\ ((1 <? n) = true -> App.clamp01 n = 1)
  /\ ((n <? 0) = true -> App.clamp01 n = 0).
Proof.
  unfold App.clamp01.
  assert (N1 : is_nan 1 = false) by reflexivity.
  assert (N0 : is_nan 0 = false) by reflexivity.
  assert (Below : forall x, is_nan x = false -> (x <=? 1) = true ->
                            (0 <=? Math_max 0 x) = true
                            /\ (Math_max 0 x <=? 1) = true).
  { intros x Hx Hle. unfold Math_max. rewrite N0, Hx. cbn [orb].
    destruct (0 <? x) eqn:A; [split; [now apply ltb_leb | exact Hle]|].
    destruct (x <? 0) eqn:B; [split; reflexivity|].
    change (is_neg_zero 0) with false. cbv iota. split; reflexivity. }
  split; [|split; [|split; [|split]]].
  - intros Hn. unfold Math_min. rewrite Hn, orb_true_r.
    unfold Math_max. change (is_nan PrimFloat.nan) with true.
    rewrite orb_true_r. reflexivity.
  - intros Hn. unfold Math_min at 1 2. rewrite N1, Hn. cbn [orb].
    destruct (1 <? n) eqn:A; [now apply Below|].
    destruct (n <? 1) eqn:B; [apply Below; [exact Hn | now apply ltb_leb]|].
    change (is_neg_zero 1) with false. cbv iota.
    apply Below; [exact Hn | now apply not_ltb_leb].
  - intros H0 H1. destruct (ltb_not_nan _ _ H0) as [_ Hn].
    unfold Math_min. rewrite N1, Hn, (leb_not_ltb _ _ H1). cbn [orb].
    change (is_neg_zero 1) with false. cbv iota.
    assert (R : (if n <? 1 then n else n) = n) by now destruct (n <? 1).
    rewrite R. unfold Math_max. rewrite N0, Hn, H0. reflexivity.
  - intros H1. destruct (ltb_not_nan _ _ H1) as [_ Hn].
    unfold Math_min. rewrite N1, Hn, H1. reflexivity.
  - intros H0. destruct (ltb_not_nan _ _ H0) as [Hn _].
    pose proof (negative_below_one n H0) as H1.
    unfold Math_min. rewrite N1, Hn, (ltb_asym _ _ H1), H1. cbn [orb].
    unfold Math_max. rewrite N0, Hn, (ltb_asym _ _ H0), H0. reflexivity.
Qed.

End Clamp.

(* ================================================================== *)
(** * The two clients, side by side *)
(* ================================================================== *)

Module Agreement.
Import Report Spec Notions Runs.

#[local] Open Scope nat_scope.

(** X20: [src/app.js] in a live mode with the endpoint
    [/.netlify/functions/psi] and the live-only client do the same to
    the page, up to the text of the status line and the INP slot: on
    every input and network they fetch the same URL, and they leave the
    same scores, LCP, CLS, note, list, visibility of the results, class
    of the status line and state of the button. *)
Theorem clients_agree `{P : Platform} (mode input : jsstring) (net : Network)
        (st : Page.State) :
  str_eqb mode (lit "demo") = false ->
  let cfg := App.mkConfig mode (lit "/.netlify/functions/psi") in
  let a := Page.run st (App.submit cfg input net) in
  let b := Page.run st (LiveOnly.submit input net) in
  fetches (App.submit cfg input net) = fetches (LiveOnly.submit input net)
  /\ hidden a = hidden b
  /\ Page.items a oppsList = Page.items b oppsList
  /\ Forall (fun el => Page.textContent a el = Page.textContent b el)
            [perfScore; a11yScore; bpScore; seoScore; lcpEl; clsEl; cwvNote; runBtn]
  /\ Page.className a statusEl = Page.className b statusEl
  /\ Page.disabled a runBtn = Page.disabled b runBtn.
Proof.
  intros D cfg a b. subst a b.
  destruct (Submit.accepted_or_rejected input) as [R | [n [E Hne]]].
  - rewrite (Submit.submit_rejected cfg input net R), (live_submit_rejected input net R).
    repeat split; repeat constructor.
  - rewrite (submit_eq cfg input n net E Hne), (live_submit_eq input n net E Hne).
    assert (O : outcome cfg n net = answer net (proxy_url n)).
    { unfold outcome. change (App.demo cfg) with (str_eqb mode (lit "demo")).
      now rewrite D. }
    assert (B : before cfg = setStatus LIVE_RUNNING []).
    { unfold before. change (App.demo cfg) with (str_eqb mode (lit "demo")).
      now rewrite D. }
    assert (F : fetched cfg n = [ Fetch (proxy_url n) ]).
    { unfold fetched. change (App.demo cfg) with (str_eqb mode (lit "demo")).
      now rewrite D. }
    rewrite O, B, F.
    assert (N : forall data, note cfg data
                             = if negb (has_metrics data) then NO_FIELD_DATA else FIELD_NOTE).
    { intros data. unfold note. change (App.demo cfg) with (str_eqb mode (lit "demo")).
      now rewrite D. }
    destruct (answer net (proxy_url n)) as [data | err].
    + destruct (finish data) eqn:Fi;
        (split; [|split; [|split; [|split; [|split]]]]).
      all: try (rewrite !Submit.run_app; reflexivity).
      all: try (fields; rewrite ?Fi; reflexivity).
      all: try (rewrite !hidden_run; fields; rewrite ?Fi; reflexivity).
      all: try (rewrite !items_run; fields; rewrite ?Fi; reflexivity).
      all: try (rewrite !class_run; fields; rewrite ?Fi; reflexivity).
      all: repeat constructor; rewrite !text_run; fields; rewrite ?N, ?Fi;
        reflexivity.
    + split; [|split; [|split; [|split; [|split]]]].
      * reflexivity.
      * rewrite !hidden_run. fields. reflexivity.
      * rewrite !items_run. reflexivity.
      * repeat constructor; rewrite !text_run; reflexivity.
      * rewrite !class_run. reflexivity.
      * rewrite !Submit.run_app. reflexivity.
Qed.

(** The two clients on [example.com], answered with a 404 page. *)
Lemma clients_agree_witness :
  fetches (@App.submit Sample.platform live_config (lit "example.com")
             (fun _ => Resolved not_found_page))
  = fetches (@LiveOnly.submit Sample.platform (lit "example.com")
               (fun _ => Resolved not_found_page)).
Proof.
  exact (proj1 (@clients_agree Sample.platform (lit "live") (lit "example.com")
                  (fun _ => Resolved not_found_page) idle eq_refl)).
Defined.

End Agreement.
